(** * web3fy-go: the resilient extraction pipeline and its cache-aside store

    A shallow embedding of the TypeScript sources
      - src/services/database.ts   (DatabaseService, and the AmazonScraper
                                    class in its current revision)
      - src/services/scraper_enhanced.ts (EnhancedAmazonScraper)
      - src/routes/api.ts          (GET /products)
      - src/config/database.ts     (the products table)
    and the properties of the specification checked against it.

    Conventions.  JavaScript numbers that the code uses as counters, limits
    and timestamps are integers here ([Z]); strings are [string] (a sequence
    of 8-bit characters standing for the UTF-16 code units of the source);
    [null]/[undefined] fields are [option]; a rejected promise or a [throw]
    is the [Err] branch of [Result].  The browser, the network and the clock
    are inputs of the model: a page is the sequence of documents it shows
    after each scroll, together with the outcome of each navigation step. *)

From Stdlib Require Import ZArith List String Ascii Bool Lia Arith.
From Stdlib Require Import DecimalString.
Import ListNotations.

Local Open Scope string_scope.
Local Open Scope Z_scope.
Local Open Scope list_scope.

(** ** JavaScript values and control flow *)

Module Js.

(** What a [throw] carries: an [Error] object with its message, or the
    value [undefined] (thrown by [throw lastError!] when nothing was ever
    assigned). *)
Inductive Thrown : Type :=
| Error (message : string)
| Undefined.

Inductive Result (A : Type) : Type :=
| Ok (value : A)
| Err (thrown : Thrown).
Arguments Ok {A} value.
Arguments Err {A} thrown.

Definition bind {A B} (r : Result A) (k : A -> Result B) : Result B :=
  match r with
  | Ok a => k a
  | Err e => Err e
  end.

(** [try { body } catch (e) { handler e }] *)
Definition try_catch {A} (body : Result A) (handler : Thrown -> Result A)
  : Result A :=
  match body with
  | Ok a => Ok a
  | Err e => handler e
  end.

(** An awaited call whose only result is that it did not throw. *)
Definition check (outcome : option Thrown) : Result unit :=
  match outcome with
  | None => Ok tt
  | Some e => Err e
  end.

Definition is_ok {A} (r : Result A) : bool :=
  match r with Ok _ => true | Err _ => false end.

(** [Array.prototype.slice(0, end)] for an integer [end]: a negative
    [end] counts from the end of the array. *)
Definition slice0 {A} (l : list A) (e : Z) : list A :=
  let len := Z.of_nat (List.length l) in
  let k := if e <? 0 then Z.max (len + e) 0 else Z.min e len in
  firstn (Z.to_nat k) l.

(** [Math.min] on integers. *)
Definition math_min (a b : Z) : Z := Z.min a b.

End Js.

Export Js.

Notation "x <- c1 ;; c2" := (Js.bind c1 (fun x => c2))
  (at level 61, c1 at next level, right associativity).
Notation "c1 ;;; c2" := (Js.bind c1 (fun _ => c2))
  (at level 61, right associativity).

(** ** Strings *)

Module Str.

(** The one-character string holding a double quote. *)
Definition quote : string := String (ascii_of_nat 34) EmptyString.

(** [s.startsWith(p)] *)
Definition startsWith (s p : string) : bool := String.prefix p s.

(** [s.includes(needle)] *)
Fixpoint includes (s needle : string) : bool :=
  if String.prefix needle s then true
  else match s with
       | EmptyString => false
       | String _ s' => includes s' needle
       end.

(** The text after the first occurrence of [sep], if there is one. *)
Fixpoint after_first (s sep : string) : option string :=
  if String.prefix sep s
  then Some (String.substring (String.length sep)
               (String.length s - String.length sep) s)
  else match s with
       | EmptyString => None
       | String _ s' => after_first s' sep
       end.

(** The text before the first occurrence of [sep] (all of [s] when [sep]
    does not occur). *)
Fixpoint before_first (s sep : string) : string :=
  if String.prefix sep s then EmptyString
  else match s with
       | EmptyString => EmptyString
       | String c s' => String c (before_first s' sep)
       end.

(** [s.split(sep)[1]] for a non-empty [sep]: [None] is [undefined]. *)
Definition split_second (s sep : string) : option string :=
  match after_first s sep with
  | None => None
  | Some rest => Some (before_first rest sep)
  end.

(** White space as [String.prototype.trim] sees it, within one byte. *)
Definition is_space (c : ascii) : bool :=
  let n := nat_of_ascii c in
  ((9 <=? n) && (n <=? 13) || (n =? 32) || (n =? 160))%nat.

Fixpoint trimStart (s : string) : string :=
  match s with
  | EmptyString => EmptyString
  | String c s' => if is_space c then trimStart s' else s
  end.

Fixpoint trimEnd (s : string) : string :=
  match s with
  | EmptyString => EmptyString
  | String c s' =>
      match trimEnd s' with
      | EmptyString => if is_space c then EmptyString
                       else String c EmptyString
      | t => String c t
      end
  end.

Definition trim (s : string) : string := trimEnd (trimStart s).

(** [s.replace(c, '')] with a one-character pattern: only the first
    occurrence goes. *)
Fixpoint remove_first (c : ascii) (s : string) : string :=
  match s with
  | EmptyString => EmptyString
  | String d s' => if Ascii.eqb c d then s' else String d (remove_first c s')
  end.

Definition is_upper (c : ascii) : bool :=
  let n := nat_of_ascii c in ((65 <=? n) && (n <=? 90))%nat.
Definition is_lower (c : ascii) : bool :=
  let n := nat_of_ascii c in ((97 <=? n) && (n <=? 122))%nat.
Definition is_digit (c : ascii) : bool :=
  let n := nat_of_ascii c in ((48 <=? n) && (n <=? 57))%nat.

Definition upper (c : ascii) : ascii :=
  if is_lower c then ascii_of_nat (nat_of_ascii c - 32) else c.

(** [s.charAt(0).toUpperCase() + s.slice(1)] *)
Definition capitalize (s : string) : string :=
  match s with
  | EmptyString => EmptyString
  | String c s' => String (upper c) s'
  end.

Fixpoint forallb (p : ascii -> bool) (s : string) : bool :=
  match s with
  | EmptyString => true
  | String c s' => p c && forallb p s'
  end.

(** The first [n] characters, when there are that many. *)
Fixpoint take_exact (n : nat) (s : string) : option string :=
  match n with
  | O => Some EmptyString
  | S n' => match s with
            | EmptyString => None
            | String c s' =>
                match take_exact n' s' with
                | Some t => Some (String c t)
                | None => None
                end
            end
  end.

(** [s.match(/\/dp\/([A-Z0-9]{10})/)]: the first capture group of the
    leftmost match. *)
Definition asin_char (c : ascii) : bool := is_upper c || is_digit c.

Definition dp_here (s : string) : option string :=
  if String.prefix "/dp/" s then
    match take_exact 10 (String.substring 4 (String.length s - 4) s) with
    | Some t => if forallb asin_char t then Some t else None
    | None => None
    end
  else None.

Fixpoint match_dp (s : string) : option string :=
  match dp_here s with
  | Some t => Some t
  | None => match s with
            | EmptyString => None
            | String _ s' => match_dp s'
            end
  end.

(** [parseInt(s)]: leading white space, an optional sign, then decimal
    digits, or hexadecimal digits after [0x]; [None] is [NaN]. *)
Definition digit_val (radix : Z) (c : ascii) : option Z :=
  let n := Z.of_nat (nat_of_ascii c) in
  let v := if is_digit c then Some (n - 48)
           else if is_lower c then Some (n - 97 + 10)
           else if is_upper c then Some (n - 65 + 10)
           else None in
  match v with
  | Some d => if d <? radix then Some d else None
  | None => None
  end.

Fixpoint digits (radix : Z) (acc : option Z) (s : string) : option Z :=
  match s with
  | EmptyString => acc
  | String c s' =>
      match digit_val radix c with
      | Some d =>
          digits radix
            (Some (match acc with Some a => a * radix + d | None => d end)) s'
      | None => acc
      end
  end.

Definition unsigned_int (s : string) : option Z :=
  if String.prefix "0x" s || String.prefix "0X" s
  then digits 16 None (String.substring 2 (String.length s - 2) s)
  else digits 10 None s.

Definition parseInt (s : string) : option Z :=
  match trimStart s with
  | String "-" s' => option_map Z.opp (unsigned_int s')
  | String "+" s' => unsigned_int s'
  | t => unsigned_int t
  end.

End Str.

(** ** RetryOrchestrator: [AmazonScraper.retryOperation] *)

Module Retry.

Record Config : Type := { maxRetries : Z; retryDelay : Z }.

(** The private fields of the scraper classes; nothing assigns them. *)
Definition defaults : Config := {| maxRetries := 3; retryDelay := 2000 |}.

(** [this.retryDelay * Math.pow(2, attempt - 1)] *)
Definition backoffDelay (cfg : Config) (attempt : Z) : Z :=
  retryDelay cfg * 2 ^ (attempt - 1).

Section Operation.
(** [W] is whatever the operation reads and writes outside itself; [T]
    is what it resolves to. *)
Context {W T : Type}.
Variable cfg : Config.
Variable operation : W -> Result T * W.

(** What one call of [retryOperation] did: its outcome, the world it
    left, the outcome of every invocation of [operation] in order, and
    the argument of every [delay] in order. *)
Record Run : Type := {
  result : Result T;
  world : W;
  attempts : list (Result T);
  delays : list Z
}.

(** The [for] loop, entered with [attempt] and [remaining] iterations
    to go ([attempt <= maxRetries] holds exactly when [remaining] is
    not zero). *)
Fixpoint loop (remaining : nat) (attempt : Z) (lastError : Thrown)
         (w : W) (seen : list (Result T)) (waited : list Z) : Run :=
  match remaining with
  | O => {| result := Err lastError; world := w;
            attempts := seen; delays := waited |}
  | S remaining' =>
      let (r, w') := operation w in
      match r with
      | Ok v => {| result := Ok v; world := w';
                   attempts := seen ++ [r]; delays := waited |}
      | Err e =>
          let waited' :=
            if attempt <? maxRetries cfg
            then waited ++ [backoffDelay cfg attempt]
            else waited in
          loop remaining' (attempt + 1) e w' (seen ++ [r]) waited'
      end
  end.

Definition retryOperation (w : W) : Run :=
  loop (Z.to_nat (maxRetries cfg)) 1 Undefined w [] [].

End Operation.

Arguments Run : clear implicits.

End Retry.

(** ** The data model: [Product], [DatabaseProduct], [ScrapingSession] *)

(** [rank: string | number] *)
Inductive Rank : Type :=
| RankNumber (n : Z)
| RankString (s : string).

Module Product.
Record t : Type := {
  rank : Rank;
  title : string;
  price : string;
  rating : string;
  image : option string;
  link : option string;
  source : string;
  scrapedAt : Z;              (* the instant the ISO string denotes, in ms *)
  asin : option string;
  availability : option string;
  reviewCount : option string;
  brand : option string;
  features : option (list string)
}.

(** A record with none of the optional detail fields. *)
Definition basic (rank : Rank) (title price rating : string)
           (image link : option string) (source : string) (scrapedAt : Z) : t :=
  {| rank := rank; title := title; price := price; rating := rating;
     image := image; link := link; source := source; scrapedAt := scrapedAt;
     asin := None; availability := None; reviewCount := None;
     brand := None; features := None |}.

Definition with_source (p : t) (s : string) : t :=
  {| rank := rank p; title := title p; price := price p; rating := rating p;
     image := image p; link := link p; source := s;
     scrapedAt := scrapedAt p; asin := asin p;
     availability := availability p; reviewCount := reviewCount p;
     brand := brand p; features := features p |}.

Definition with_asin (p : t) (a : option string) : t :=
  {| rank := rank p; title := title p; price := price p; rating := rating p;
     image := image p; link := link p; source := source p;
     scrapedAt := scrapedAt p; asin := a;
     availability := availability p; reviewCount := reviewCount p;
     brand := brand p; features := features p |}.
End Product.

(** [Omit<DatabaseProduct, 'id' | 'created_at' | 'updated_at'>] *)
Module DatabaseProduct.
Record t : Type := {
  asin : option string;
  rank : Z;
  title : string;
  price : string;
  rating : string;
  image_url : option string;
  product_url : option string;
  source : string;
  category : string;
  scraped_at : Z
}.
End DatabaseProduct.

Module ScrapingSession.
Record t : Type := {
  session_id : string;
  source : string;
  category : string;
  products_found : Z;
  success : bool;
  error_message : option string;
  started_at : Z;
  completed_at : option Z
}.
End ScrapingSession.

(** ** CacheStore: the products table and [DatabaseService] *)

Module Store.

(** A stored row of [products]: the inserted columns and the three the
    database fills in. *)
Record Row : Type := {
  id : Z;
  data : DatabaseProduct.t;
  created_at : Z;
  updated_at : Z
}.

(** The database: the committed rows of both tables and the [SERIAL]
    sequence behind [products.id], which no rollback rewinds. *)
Record Db : Type := {
  products : list Row;
  products_id_seq : Z;
  scraping_sessions : list ScrapingSession.t
}.

Definition empty : Db :=
  {| products := []; products_id_seq := 1; scraping_sessions := [] |}.

Definition opt_eqb (a b : option string) : bool :=
  match a, b with
  | Some x, Some y => String.eqb x y
  | None, None => true
  | _, _ => false
  end.

(** *** [convertToDbProduct] *)

Definition extract_asin (product : Product.t) : string :=
  if Str.includes (Product.source product) "ASIN:" then
    match Str.split_second (Product.source product) "ASIN:" with
    | Some s => Str.trim s
    | None => ""
    end
  else match Product.link product with
       | Some l =>
           if Str.includes l "/dp/" then
             match Str.match_dp l with
             | Some a => a
             | None => ""
             end
           else ""
       | None => ""
       end.

(** [x || undefined] on a string *)
Definition or_undefined (s : string) : option string :=
  if String.eqb s "" then None else Some s.

(** [typeof rank === 'string' ? parseInt(rank) || 0 : rank] *)
Definition convert_rank (r : Rank) : Z :=
  match r with
  | RankString s => match Str.parseInt s with Some n => n | None => 0 end
  | RankNumber n => n
  end.

Definition convertToDbProduct (product : Product.t) (category : string)
  : DatabaseProduct.t :=
  {| DatabaseProduct.asin := or_undefined (extract_asin product);
     DatabaseProduct.rank := convert_rank (Product.rank product);
     DatabaseProduct.title := Product.title product;
     DatabaseProduct.price := Product.price product;
     DatabaseProduct.rating := Product.rating product;
     DatabaseProduct.image_url := Product.image product;
     DatabaseProduct.product_url := Product.link product;
     DatabaseProduct.source := Product.source product;
     DatabaseProduct.category := category;
     DatabaseProduct.scraped_at := Product.scrapedAt product |}.

(** *** [convertFromDbProduct] *)

Definition convertFromDbProduct (row : Row) : Product.t :=
  let d := data row in
  Product.with_asin
    (Product.basic (RankNumber (DatabaseProduct.rank d))
       (DatabaseProduct.title d) (DatabaseProduct.price d)
       (DatabaseProduct.rating d) (DatabaseProduct.image_url d)
       (DatabaseProduct.product_url d) (DatabaseProduct.source d)
       (DatabaseProduct.scraped_at d))
    (match DatabaseProduct.asin d with
     | Some a => or_undefined a
     | None => None
     end).

(** *** The schema of [products] (config/database.ts)

    [asin VARCHAR(20) UNIQUE, rank INTEGER, title TEXT NOT NULL,
     price VARCHAR(50), rating VARCHAR(50), image_url TEXT,
     product_url TEXT, source VARCHAR(100), category VARCHAR(50), ...] *)

(** Storing into [VARCHAR(n)]: a longer value is an error, unless all it
    has beyond [n] characters is spaces, which are cut off. *)
Definition store_varchar (n : nat) (s : string) : Result string :=
  if (String.length s <=? n)%nat then Ok s
  else if Str.forallb (Ascii.eqb " ")
            (String.substring n (String.length s - n) s)
       then Ok (String.substring 0 n s)
       else Err (Error "value too long for type character varying").

Definition store_integer (z : Z) : Result Z :=
  if (-2147483648 <=? z) && (z <=? 2147483647) then Ok z
  else Err (Error "integer out of range").

(** The values of one [INSERT] as the table would hold them. *)
Definition coerce (d : DatabaseProduct.t) : Result DatabaseProduct.t :=
  a <- match DatabaseProduct.asin d with
       | Some s => (s' <- store_varchar 20 s ;; Ok (Some s'))
       | None => Ok None
       end ;;
  r <- store_integer (DatabaseProduct.rank d) ;;
  p <- store_varchar 50 (DatabaseProduct.price d) ;;
  g <- store_varchar 50 (DatabaseProduct.rating d) ;;
  s <- store_varchar 100 (DatabaseProduct.source d) ;;
  c <- store_varchar 50 (DatabaseProduct.category d) ;;
  Ok {| DatabaseProduct.asin := a;
        DatabaseProduct.rank := r;
        DatabaseProduct.title := DatabaseProduct.title d;
        DatabaseProduct.price := p;
        DatabaseProduct.rating := g;
        DatabaseProduct.image_url := DatabaseProduct.image_url d;
        DatabaseProduct.product_url := DatabaseProduct.product_url d;
        DatabaseProduct.source := s;
        DatabaseProduct.category := c;
        DatabaseProduct.scraped_at := DatabaseProduct.scraped_at d |}.

(** *** [INSERT ... ON CONFLICT (asin) DO UPDATE SET ...] *)

Definition has_asin (a : string) (row : Row) : bool :=
  opt_eqb (DatabaseProduct.asin (data row)) (Some a).

(** The [DO UPDATE] arm: every inserted column is overwritten with the
    excluded row's, [updated_at] becomes the statement's time; [id] and
    [created_at] stay. *)
Definition overwrite (d : DatabaseProduct.t) (now : Z) (row : Row) : Row :=
  {| id := id row; data := d;
     created_at := created_at row; updated_at := now |}.

Definition insert_row (rows : list Row) (new_id : Z)
           (d : DatabaseProduct.t) (now : Z) : list Row :=
  rows ++ [{| id := new_id; data := d;
              created_at := now; updated_at := now |}].

(** One upsert on the working rows of a transaction.  A [NULL] asin
    never conflicts: unique indexes treat nulls as distinct.  The default
    of [id] is drawn from the sequence before the conflict is seen. *)
Definition upsert (rows : list Row) (seq : Z) (d : DatabaseProduct.t)
           (now : Z) : Result (list Row * Z) :=
  d' <- coerce d ;;
  match DatabaseProduct.asin d' with
  | Some a =>
      if existsb (has_asin a) rows
      then Ok (map (fun row => if has_asin a row
                               then overwrite d' now row else row) rows,
               seq + 1)
      else Ok (insert_row rows seq d' now, seq + 1)
  | None => Ok (insert_row rows seq d' now, seq + 1)
  end.

(** *** [saveProducts] *)

(** The [for] loop inside the transaction: the working rows, the
    sequence and [savedCount] after each statement; the first failing
    statement ends it. *)
Fixpoint save_loop (batch : list Product.t) (category : string) (now : Z)
         (rows : list Row) (seq : Z) (savedCount : Z)
  : Result (list Row * Z * Z) * Z :=
  match batch with
  | [] => (Ok (rows, seq, savedCount), seq)
  | product :: rest =>
      let dbProduct := convertToDbProduct product category in
      match upsert rows seq dbProduct now with
      | Ok (rows', seq') =>
          save_loop rest category now rows' seq' (savedCount + 1)
      | Err e => (Err e, seq)
      end
  end.

(** [BEGIN]; the loop; [COMMIT], or [ROLLBACK] and rethrow.  [now] is
    [CURRENT_TIMESTAMP], the start of the transaction. *)
Definition saveProducts (db : Db) (batch : list Product.t)
           (category : string) (now : Z) : Result Z * Db :=
  match save_loop batch category now (products db) (products_id_seq db) 0 with
  | (Ok (rows', seq', savedCount), _) =>
      (Ok savedCount,
       {| products := rows'; products_id_seq := seq';
          scraping_sessions := scraping_sessions db |})
  | (Err e, seq') =>
      (Err e,
       {| products := products db; products_id_seq := seq';
          scraping_sessions := scraping_sessions db |})
  end.

(** *** Reading *)

Definition hour_ms : Z := 3600000.

(** [category = $1 AND scraped_at > NOW() - INTERVAL 'maxAgeHours hours'] *)
Definition is_recent (category : string) (maxAgeHours now : Z) (row : Row)
  : bool :=
  String.eqb (DatabaseProduct.category (data row)) category
  && (now - maxAgeHours * hour_ms <? DatabaseProduct.scraped_at (data row)).

(** [ORDER BY rank ASC, scraped_at DESC] *)
Definition comes_first (a b : Row) : bool :=
  let ra := DatabaseProduct.rank (data a) in
  let rb := DatabaseProduct.rank (data b) in
  (ra <? rb)
  || ((ra =? rb)
      && (DatabaseProduct.scraped_at (data b)
          <=? DatabaseProduct.scraped_at (data a))).

Fixpoint insert_ordered (r : Row) (l : list Row) : list Row :=
  match l with
  | [] => [r]
  | x :: l' => if comes_first r x then r :: l
               else x :: insert_ordered r l'
  end.

Definition order_rows (l : list Row) : list Row :=
  fold_right insert_ordered [] l.

(** [getProducts]; a negative [LIMIT] is an error of the database. *)
Definition getProducts (db : Db) (limit : Z) (category : string)
           (maxAgeHours now : Z) : Result (list Product.t) :=
  if limit <? 0 then Err (Error "LIMIT must not be negative")
  else Ok (map convertFromDbProduct
             (firstn (Z.to_nat limit)
                (order_rows
                   (filter (is_recent category maxAgeHours now)
                      (products db))))).

Record Freshness : Type := {
  hasFresh : bool;
  count : Z;
  lastScraped : option Z
}.

(** [MAX(scraped_at)]: [None] is the [NULL] of an empty selection. *)
Definition max_scraped_at (rows : list Row) : option Z :=
  fold_right (fun row acc =>
                let t := DatabaseProduct.scraped_at (data row) in
                match acc with
                | Some m => Some (Z.max t m)
                | None => Some t
                end) None rows.

(** [hasFreshData] *)
Definition hasFreshData (db : Db) (category : string) (maxAgeHours now : Z)
  : Freshness :=
  let selected := filter (is_recent category maxAgeHours now) (products db) in
  let count := Z.of_nat (List.length selected) in
  {| hasFresh := 0 <? count;
     count := count;
     lastScraped := max_scraped_at selected |}.

(** *** Session bookkeeping *)

(** [createScrapingSession]; [sessionId] is what [uuidv4()] returned. *)
Definition createScrapingSession (db : Db) (sessionId source category : string)
           (now : Z) : Result string * Db :=
  match (i <- store_varchar 50 sessionId ;;
         s <- store_varchar 50 source ;;
         c <- store_varchar 50 category ;;
         if existsb (fun x => String.eqb (ScrapingSession.session_id x) i)
              (scraping_sessions db)
         then Err (Error "duplicate key value violates unique constraint")
         else Ok {| ScrapingSession.session_id := i;
                    ScrapingSession.source := s;
                    ScrapingSession.category := c;
                    ScrapingSession.products_found := 0;
                    ScrapingSession.success := false;
                    ScrapingSession.error_message := None;
                    ScrapingSession.started_at := now;
                    ScrapingSession.completed_at := None |}) with
  | Ok row =>
      (Ok sessionId,
       {| products := products db; products_id_seq := products_id_seq db;
          scraping_sessions := scraping_sessions db ++ [row] |})
  | Err e => (Err e, db)
  end.

(** [updateScrapingSession] *)
Definition updateScrapingSession (db : Db) (sessionId : string)
           (success : bool) (productsFound : Z) (errorMessage : option string)
           (now : Z) : Result unit * Db :=
  match store_integer productsFound with
  | Ok n =>
      (Ok tt,
       {| products := products db; products_id_seq := products_id_seq db;
          scraping_sessions :=
            map (fun x =>
                   if String.eqb (ScrapingSession.session_id x) sessionId
                   then {| ScrapingSession.session_id :=
                             ScrapingSession.session_id x;
                           ScrapingSession.source := ScrapingSession.source x;
                           ScrapingSession.category :=
                             ScrapingSession.category x;
                           ScrapingSession.products_found := n;
                           ScrapingSession.success := success;
                           ScrapingSession.error_message := errorMessage;
                           ScrapingSession.started_at :=
                             ScrapingSession.started_at x;
                           ScrapingSession.completed_at := Some now |}
                   else x) (scraping_sessions db) |})
  | Err e => (Err e, db)
  end.

(** *** The table invariant and the age of a row *)

(** At most one row per non-null [asin]. *)
Definition unique_asin (rows : list Row) : Prop :=
  forall a, (List.length (filter (has_asin a) rows) <= 1)%nat.

Definition age_ms (now : Z) (row : Row) : Z :=
  now - DatabaseProduct.scraped_at (data row).

End Store.

(** ** The page as the in-page extraction code sees it *)

Module Dom.

(** A node reached by [querySelector]: its text, its attributes, and the
    [src] or [href] property when it is an image or an anchor. *)
Record Node : Type := {
  textContent : string;
  getAttribute : string -> option string;
  src : option string;       (* [Some] for an [HTMLImageElement] *)
  href : option string       (* [Some] for an [HTMLAnchorElement] *)
}.

(** A candidate element: the node itself, its identity in the document
    and its first descendant for each selector. *)
Record Element : Type := {
  ident : nat;
  isHTMLElement : bool;
  self : Node;
  querySelector : string -> option Node
}.

(** The three selections the cascade of a list page draws from. *)
Record Document : Type := {
  (* [#CardInstance...]: for each grid row below it, the row's
     [[data-asin]] descendants; [None] when there is no such card *)
  cardRows : option (list (list Element));
  (* [querySelectorAll('[data-asin]')] *)
  withDataAsin : list Element;
  (* [querySelectorAll('.zg-grid-general-faceout,
                        .p13n-sc-uncoverable-faceout, .zg-item-immersion')] *)
  bestSellerCards : list Element
}.

(** A product page, for detail extraction. *)
Record DetailDocument : Type := {
  docQuerySelector : string -> option Node;
  (* [querySelectorAll('#feature-bullets ul li,
                        .a-unordered-list.a-nostyle li')] *)
  featureItems : list Node;
  locationHref : string
}.

(** A page of the browser: what each awaited call on it does.  [view k]
    is the document the in-page code finds once the page has been
    scrolled [k] times; an [Err] is a rejected call. *)
Record Page : Type := {
  goto : string -> option Thrown;
  waitForSelector : option Thrown;
  view : nat -> Result Document;
  scroll : nat -> option Thrown;
  detail : Result DetailDocument
}.

(** [productElements.includes(product)] *)
Definition includes (l : list Element) (e : Element) : bool :=
  existsb (fun x => Nat.eqb (ident x) (ident e)) l.

Definition push_missing (found extra : list Element) : list Element :=
  fold_left (fun acc e => if includes acc e then acc else acc ++ [e])
            extra found.

(** The cascade of element selections: the specific card first, the
    generic [[data-asin]] elements when that gave fewer than ten, the
    best-seller cards when there are still fewer than five. *)
Definition productElements (doc : Document) : list Element :=
  let m1 := match cardRows doc with
            | Some rows => List.concat rows
            | None => []
            end in
  let m2 := if (List.length m1 <? 10)%nat
            then push_missing m1 (withDataAsin doc) else m1 in
  if (List.length m2 <? 5)%nat
  then push_missing m2 (bestSellerCards doc) else m2.

(** The first selector whose match has non-blank text, trimmed. *)
Fixpoint first_text (e : Element) (selectors : list string) : option string :=
  match selectors with
  | [] => None
  | sel :: rest =>
      match querySelector e sel with
      | Some n =>
          if String.eqb (Str.trim (textContent n)) ""
          then first_text e rest
          else Some (Str.trim (textContent n))
      | None => first_text e rest
      end
  end.

Definition or_else (o : option string) (d : string) : string :=
  match o with Some s => s | None => d end.

(** A string property that must be truthy. *)
Definition truthy (o : option string) : option string :=
  match o with
  | Some s => if String.eqb s "" then None else Some s
  | None => None
  end.

(** Indexed map, from index [i]. *)
Fixpoint map_indexed {A B} (f : nat -> A -> list B) (i : nat) (l : list A)
  : list B :=
  match l with
  | [] => []
  | x :: l' => f i x ++ map_indexed f (S i) l'
  end.

End Dom.

(** ** ExtractionStrategy, list mode: [AmazonScraper.scrapeTrendingProducts] *)

Module ListMode.
Import Dom.

Definition titleSelectors : list string :=
  ["._cDEzb_p13n-sc-css-line-clamp-3_g3dy1"; ".p13n-sc-truncate";
   ".s-title"; ".a-size-base-plus"; "h2 span"; "h3 span"].

Definition priceSelectors : list string :=
  ["._cDEzb_p13n-sc-price_3mJ9Z"; ".p13n-sc-price";
   ".a-price .a-offscreen"; ".a-price-whole"].

Definition ratingSelectors : list string :=
  ["._cDEzb_p13n-sc-rating_3mJ9Z"; ".a-icon-star"; ".a-star-medium"].

(** The identifier of a candidate: its [data-asin], else the ten
    characters after [/dp/] in its link, else nothing. *)
Definition derive_asin (e : Element) (productUrl : option string) : string :=
  match (if isHTMLElement e
         then truthy (getAttribute (self e) "data-asin") else None) with
  | Some a => a
  | None =>
      match productUrl with
      | Some u => match Str.match_dp u with
                  | Some a => a
                  | None => ""
                  end
      | None => ""
      end
  end.

(** The body of the loop over [productElements]: no record ([continue])
    or one. *)
Definition extractElement (now : Z) (i : nat) (e : Element)
  : list Product.t :=
  let title := or_else (first_text e titleSelectors) "" in
  if String.eqb title "" || (String.length title <? 5)%nat then []
  else
    let price := or_else (first_text e priceSelectors) "Price not available" in
    let rating := or_else (first_text e ratingSelectors) "No rating" in
    let imageUrl := match querySelector e "img" with
                    | Some n => truthy (src n)
                    | None => None
                    end in
    let productUrl := match querySelector e "a" with
                      | Some n => truthy (href n)
                      | None => None
                      end in
    let asin := derive_asin e productUrl in
    if String.eqb asin "" then []
    else
      [Product.with_asin
         (Product.basic (RankNumber (Z.of_nat i + 1)) title price rating
            imageUrl productUrl "Amazon Best Sellers" now)
         (Some asin)].

(** The function passed to [page.evaluate]. *)
Definition extractCurrentView (now : Z) (doc : Document) : list Product.t :=
  map_indexed (extractElement now) 0 (productElements doc).

(** The link a candidate is given in list mode. *)
Definition list_link (e : Element) : option string :=
  match querySelector e "a" with
  | Some n => truthy (href n)
  | None => None
  end.

(** Neither source of an identifier gives one. *)
Definition no_identifier (e : Element) : Prop :=
  (isHTMLElement e = false \/
   getAttribute (self e) "data-asin" = None \/
   getAttribute (self e) "data-asin" = Some "") /\
  (list_link e = None \/
   exists u, list_link e = Some u /\ Str.match_dp u = None).

Definition maxScrollAttempts : nat := 6.

(** The [while] loop: [remaining] is [maxScrollAttempts - scrollAttempts].
    Every view's records are appended as they are; then the page is
    scrolled to its end. *)
Fixpoint scroll_loop (page : Page) (now targetProducts : Z)
         (remaining scrollAttempts : nat) (allProducts : list Product.t)
  : Result (list Product.t * nat) :=
  match remaining with
  | O => Ok (allProducts, scrollAttempts)
  | S remaining' =>
      if Z.of_nat (List.length allProducts) <? targetProducts then
        doc <- view page scrollAttempts ;;
        let currentProducts := extractCurrentView now doc in
        let allProducts' := allProducts ++ currentProducts in
        check (scroll page scrollAttempts) ;;;
        scroll_loop page now targetProducts remaining'
                    (S scrollAttempts) allProducts'
      else Ok (allProducts, scrollAttempts)
  end.

Definition defaultUrl : string :=
  "https://www.amazon.com/gp/bestsellers/electronics/".

(** A row of the [metadata] table. *)
Record Metadata : Type := {
  meta_type : string;
  meta_category : string;
  meta_url : string
}.

(** [getScrapingUrl]; [rows] is the table, or the error of the query. *)
Definition getScrapingUrl (rows : Result (list Metadata))
           (type category : string) : Result string :=
  table <- rows ;;
  match filter (fun m => String.eqb (meta_type m) type
                         && String.eqb (meta_category m) category) table with
  | [] => Ok defaultUrl
  | m :: _ => Ok (meta_url m)
  end.

Definition relabel (category : string) (p : Product.t) : Product.t :=
  Product.with_source p
    (String.append "Amazon "
       (String.append (Str.capitalize category) " Best Sellers")).

(** [scrapeTrendingProducts(limit, type, category)] *)
Definition scrapeTrendingProducts (createPage : Result Page)
           (metadata : Result (list Metadata)) (now : Z)
           (limit : Z) (type category : string) : Result (list Product.t) :=
  page <- createPage ;;
  targetUrl <- getScrapingUrl metadata type category ;;
  check (goto page targetUrl) ;;;
  check (waitForSelector page) ;;;
  let targetProducts := math_min limit 50 in
  r <- scroll_loop page now targetProducts maxScrollAttempts 0 [] ;;
  let allProducts := map (relabel category) (fst r) in
  Ok (slice0 allProducts limit).

End ListMode.

(** ** ScrollPaginator: [EnhancedAmazonScraper.scrapeProductsWithScrolling] *)

Module Enhanced.
Import Dom.

Definition titleSelectors : list string :=
  ["._cDEzb_p13n-sc-css-line-clamp-3_g3dy1"; ".p13n-sc-truncate";
   ".s-title"; ".a-size-base-plus"; "h2 span"; "h3 span"].

Definition priceSelectors : list string :=
  ["._cDEzb_p13n-sc-price_3mJ9Z"; ".p13n-sc-price";
   ".a-price-whole"; ".a-price .a-offscreen"].

(** [.p13n-sc-dynamic-image, img[src*="amazon.com"]] *)
Definition imageSelector : string :=
  String.concat Str.quote
    [".p13n-sc-dynamic-image, img[src*="; "amazon.com"; "]"].

(** [a[href*="/dp/"]] *)
Definition linkSelector : string :=
  String.concat Str.quote ["a[href*="; "/dp/"; "]"].

Definition extractElement (now : Z) (i : nat) (e : Element)
  : list Product.t :=
  let title := or_else (first_text e titleSelectors) "" in
  if String.eqb title "" || (String.length title <? 5)%nat then []
  else
    let price := or_else (first_text e priceSelectors) "Price not available" in
    let rating := match querySelector e ".a-icon-alt" with
                  | Some n => if Str.includes (textContent n) "out of"
                              then Str.trim (textContent n) else "N/A"
                  | None => "N/A"
                  end in
    let image :=
      match querySelector e imageSelector with
      | Some n => truthy (src n)
      | None => None
      end in
    let link :=
      match querySelector e linkSelector with
      | Some n =>
          match truthy (href n) with
          | Some h => Some (if Str.startsWith h "http" then h
                            else String.append "https://www.amazon.com" h)
          | None => None
          end
      | None => None
      end in
    let asin := or_else (truthy (getAttribute (self e) "data-asin")) "" in
    let rank := match first_text e [".zg-bdg-text"] with
                | Some t => RankString (Str.remove_first "#" t)
                | None => RankNumber (Z.of_nat i + 1)
                end in
    [Product.basic rank title price rating image link
       (String.append "Amazon Best Sellers (Electronics) - ASIN: " asin)
       now].

Definition extractCurrentView (now : Z) (doc : Document) : list Product.t :=
  map_indexed (extractElement now) 0 (productElements doc).

Definition maxScrollAttempts : nat := 6.

(** [!allProducts.some(existing => existing.title === product.title)] *)
Definition is_new (allProducts : list Product.t) (product : Product.t) : bool :=
  negb (existsb (fun existing =>
                   String.eqb (Product.title existing) (Product.title product))
          allProducts).

(** The titles of a list of records, in order. *)
Definition titles (l : list Product.t) : list string :=
  map Product.title l.

(** What the loop leaves: the accumulated records, the value of
    [scrollAttempts], and how many views were extracted. *)
Record Collected : Type := {
  allProducts : list Product.t;
  scrollAttempts : nat;
  rounds : nat
}.

(** The [while] loop, with [remaining = maxScrollAttempts - attempts]. *)
Fixpoint scroll_loop (page : Page) (now targetProducts : Z)
         (remaining attempts : nat) (acc : list Product.t)
  : Result Collected :=
  match remaining with
  | O => Ok {| allProducts := acc; scrollAttempts := attempts;
               rounds := attempts |}
  | S remaining' =>
      if Z.of_nat (List.length acc) <? targetProducts then
        doc <- view page attempts ;;
        let currentProducts := extractCurrentView now doc in
        let newProducts := filter (is_new acc) currentProducts in
        let acc' := acc ++ newProducts in
        if (targetProducts <=? Z.of_nat (List.length acc'))
           || (List.length newProducts =? 0)%nat
        then Ok {| allProducts := acc'; scrollAttempts := attempts;
                   rounds := S attempts |}
        else
          (if (attempts <? maxScrollAttempts - 1)%nat
           then check (scroll page attempts) else Ok tt) ;;;
          scroll_loop page now targetProducts remaining' (S attempts) acc'
      else Ok {| allProducts := acc; scrollAttempts := attempts;
                 rounds := attempts |}
  end.

Definition targetUrl : string :=
  "https://www.amazon.com/gp/bestsellers/electronics/".

(** The paginator proper: everything between [waitForSelector] and the
    [return]. *)
Definition collect (page : Page) (now limit : Z) : Result Collected :=
  scroll_loop page now (math_min limit 50) maxScrollAttempts 0 [].

(** [scrapeProductsWithScrolling(limit)] *)
Definition scrapeProductsWithScrolling (createPage : Result Page)
           (now limit : Z) : Result (list Product.t) :=
  page <- createPage ;;
  check (goto page targetUrl) ;;;
  check (waitForSelector page) ;;;
  let targetProducts := math_min limit 50 in
  c <- collect page now limit ;;
  if (List.length (allProducts c) =? 0)%nat
  then Err (Error "No products extracted from page")
  else Ok (slice0 (allProducts c) targetProducts).

End Enhanced.

(** ** ExtractionStrategy, detail mode, and the URL check *)

Module Detail.
Import Dom.

(** What [new URL(url)] exposes of a URL it accepts. *)
Record Url : Type := { hostname : string; pathname : string }.

Definition validDomains : list string :=
  ["amazon.com"; "amazon.co.uk"; "amazon.ca"; "amazon.de"; "amazon.fr";
   "amazon.it"; "amazon.es"; "amazon.co.jp"; "amazon.in"; "amazon.com.au";
   "amazon.com.br"; "amazon.com.mx"].

Definition isAmazonDomain (u : Url) : bool :=
  existsb (fun domain =>
             String.eqb (hostname u) domain
             || String.eqb (hostname u) (String.append "www." domain))
          validDomains.

Definition hasProductPath (u : Url) : bool :=
  Str.includes (pathname u) "/dp/"
  || Str.includes (pathname u) "/gp/product/"
  || Str.includes (pathname u) "/product/".

(** The path segments that mark a product page. *)
Definition productSegments : list string :=
  ["/dp/"; "/gp/product/"; "/product/"].

(** [isValidAmazonUrl]; [parse] is the platform's [URL] constructor,
    [None] where it throws. *)
Definition isValidAmazonUrl (parse : string -> option Url) (url : string)
  : bool :=
  match parse url with
  | Some urlObj => isAmazonDomain urlObj && hasProductPath urlObj
  | None => false
  end.

(** [getTextContent(selectors)]: the first selector that matches decides,
    blank or not. *)
Fixpoint getTextContent (doc : DetailDocument) (selectors : list string)
  : string :=
  match selectors with
  | [] => ""
  | sel :: rest =>
      match docQuerySelector doc sel with
      | Some n => Str.trim (textContent n)
      | None => getTextContent doc rest
      end
  end.

Fixpoint getAttributeOf (doc : DetailDocument) (selectors : list string)
         (attribute : string) : string :=
  match selectors with
  | [] => ""
  | sel :: rest =>
      match docQuerySelector doc sel with
      | Some n => or_else (getAttribute n attribute) ""
      | None => getAttributeOf doc rest attribute
      end
  end.

Record ProductDetails : Type := {
  title : string;
  price : string;
  rating : string;
  image : string;
  asin : string;
  availability : string;
  reviewCount : string;
  brand : string;
  features : list string;
  url : string
}.

Definition imageSelectors : list string :=
  ["#landingImage"; "#imgBlkFront"; ".a-dynamic-image"; "img.a-dynamic-image"].

(** The function passed to [page.evaluate] on a product page. *)
Definition extractDetails (doc : DetailDocument) : ProductDetails :=
  {| title := getTextContent doc
                ["#productTitle"; ".product-title h1"; "h1.a-size-large";
                 "h1 span"];
     price := getTextContent doc
                [".a-price .a-offscreen"; ".a-price-whole";
                 "#priceblock_dealprice"; "#priceblock_ourprice";
                 ".a-price-current .a-offscreen";
                 ".a-price-range .a-offscreen";
                 "span.a-price.a-text-price.a-size-medium.apexPriceToPay";
                 ".a-price.a-text-price.a-size-medium.apexPriceToPay .a-offscreen"];
     rating := getTextContent doc
                 ["span.a-icon-alt"; ".a-icon-star .a-icon-alt";
                  "#acrPopover .a-icon-alt";
                  ".reviewCountTextLinkedHistogram .a-icon-alt"];
     image := (let s := getAttributeOf doc imageSelectors "src" in
               if String.eqb s ""
               then getAttributeOf doc imageSelectors "data-old-hires"
               else s);
     asin := match docQuerySelector doc "div[data-asin]" with
             | Some n => or_else (getAttribute n "data-asin") ""
             | None => or_else (Str.match_dp (locationHref doc)) ""
             end;
     availability := getTextContent doc
                       ["#availability span"; ".a-color-success";
                        ".a-color-state"; "#availability .a-color-success"];
     reviewCount := getTextContent doc
                      [String.concat Str.quote
                         ["a[href="; "#customerReviews"; "] span"];
                       "#acrCustomerReviewText"; ".a-link-normal span"];
     brand := getTextContent doc
                ["#bylineInfo"; ".a-link-normal#bylineInfo";
                 "a.a-link-normal span"; ".po-brand .po-break-word"];
     features :=
       firstn 5
         (filter (fun text => negb (String.eqb text "")
                              && negb (Str.includes text "Make sure")
                              && (10 <? String.length text)%nat)
            (map (fun li => Str.trim (textContent li)) (featureItems doc)));
     url := locationHref doc |}.

Definition nonempty (s : string) : option string :=
  if String.eqb s "" then None else Some s.

(** The [Product] built from the extracted details. *)
Definition toProduct (productUrl : string) (now : Z) (d : ProductDetails)
  : Product.t :=
  {| Product.rank := RankString "1";
     Product.title := title d;
     Product.price := or_else (nonempty (price d)) "Price not available";
     Product.rating := or_else (nonempty (rating d)) "Rating not available";
     Product.image :=
       Some (or_else (nonempty (image d))
               "https://via.placeholder.com/200x200?text=No+Image");
     Product.link := Some productUrl;
     Product.source :=
       String.append "Amazon Product Detail"
         (if String.eqb (asin d) "" then ""
          else String.append " - ASIN: " (asin d));
     Product.scrapedAt := now;
     Product.asin := nonempty (asin d);
     Product.availability := nonempty (availability d);
     Product.reviewCount := nonempty (reviewCount d);
     Product.brand := nonempty (brand d);
     Product.features :=
       match features d with
       | [] => None
       | fs => Some fs
       end |}.

(** The calls made on the browser, in order. *)
Inductive BrowserCall : Type :=
| NewPage
| Navigate (url : string)
| Evaluate
| ClosePage.

(** [scrapeProductDetails(productUrl)], with the browser calls it made. *)
Definition scrapeProductDetails (parse : string -> option Url)
           (createPage : Result Page) (now : Z) (productUrl : string)
  : Result Product.t * list BrowserCall :=
  if negb (isValidAmazonUrl parse productUrl)
  then (Err (Error "Invalid Amazon URL provided"), [])
  else
    match createPage with
    | Err e => (Err e, [NewPage])
    | Ok page =>
        match goto page productUrl with
        | Some e => (Err e, [NewPage; Navigate productUrl])
        | None =>
            match detail page with
            | Err e => (Err e, [NewPage; Navigate productUrl; Evaluate])
            | Ok doc =>
                let productDetails := extractDetails doc in
                (if String.eqb (title productDetails) ""
                    || (String.length (title productDetails) <? 5)%nat
                 then Err (Error "Could not extract product title - page may have failed to load properly")
                 else Ok (toProduct productUrl now productDetails),
                 [NewPage; Navigate productUrl; Evaluate; ClosePage])
            end
        end
    end.

End Detail.

(** ** FallbackChain: [AmazonScraper.getTrendingProducts] and its tiers *)

Module Scraper.

(** [(error as Error).message]: reading [message] off [undefined] is a
    [TypeError]. *)
Definition message_of (e : Thrown) : Result string :=
  match e with
  | Error m => Ok m
  | Undefined =>
      Err (Error "Cannot read properties of undefined (reading 'message')")
  end.

(** *** Tier 4: [getFallbackProducts] *)

Definition fallbackSource : string := "Fallback Data - Amazon Best Sellers".

Definition fallbackProducts (now : Z) : list Product.t :=
  [ Product.basic (RankNumber 1)
      "Echo Dot (5th Gen) | Smart speaker with bigger vibrant sound and Alexa"
      "$49.99" "4.7 out of 5 stars" None None fallbackSource now;
    Product.basic (RankNumber 2)
      "Fire TV Stick 4K Max streaming device"
      "$54.99" "4.6 out of 5 stars" None None fallbackSource now;
    Product.basic (RankNumber 3)
      "Apple AirPods (3rd Generation) Wireless Earbuds"
      "$169.00" "4.4 out of 5 stars" None None fallbackSource now;
    Product.basic (RankNumber 4)
      (String.concat Str.quote
         ["Kindle Paperwhite – Now with 6.8";
          " display and adjustable warm light"])
      "$139.99" "4.6 out of 5 stars" None None fallbackSource now;
    Product.basic (RankNumber 5)
      "Apple Watch Series 9 [GPS 41mm] Smartwatch"
      "$329.00" "4.5 out of 5 stars" None None fallbackSource now ].

Definition getFallbackProducts (now : Z) (limit : Z) : Result (list Product.t) :=
  Ok (slice0 (fallbackProducts now) limit).

(** *** Tier 2: [scrapeWithHttpOnly] *)

(** The five title patterns, in the order they are tried: a span of
    class p13n-sc-truncate, an h2 of class s-size-mini with a span, a
    span of class a-size-base-plus, a span of class a-size-medium, an h3
    with a span.  Each captures the span's text. *)
Inductive TitlePattern : Type :=
| TruncateSpan | MiniHeadingSpan | BasePlusSpan | MediumSpan | H3Span.

Definition titlePatterns : list TitlePattern :=
  [TruncateSpan; MiniHeadingSpan; BasePlusSpan; MediumSpan; H3Span].

(** [/^[0-9\s\-#\.]*$/.test(title)] *)
Definition only_marks (title : string) : bool :=
  Str.forallb (fun c => Str.is_digit c || Str.is_space c
                        || Ascii.eqb c "-" || Ascii.eqb c "#"
                        || Ascii.eqb c ".")%char title.

Definition acceptable (title : string) : bool :=
  negb (String.eqb title "")
  && (10 <? String.length title)%nat
  && (String.length title <? 200)%nat
  && negb (Str.includes title "Amazon")
  && negb (Str.includes title "Best Sellers")
  && negb (only_marks title).

(** The [while] over the matches of one pattern; [captures] are the
    first groups of the successive matches. *)
Fixpoint scan (now limit : Z) (captures : list string)
         (products : list Product.t) (rank : Z) : list Product.t * Z :=
  match captures with
  | [] => (products, rank)
  | c :: rest =>
      if rank <=? limit then
        let title := Str.trim c in
        if acceptable title
           && negb (existsb (fun p => String.eqb (Product.title p) title)
                      products)
        then scan now limit rest
               (products ++
                  [Product.basic (RankNumber rank) title
                     "Price not available" "N/A" None None
                     "Amazon Best Sellers (HTTP)" now])
               (rank + 1)
        else scan now limit rest products rank
      else (products, rank)
  end.

(** The [for] over the patterns: the first that leaves a record ends it. *)
Fixpoint try_patterns (exec : TitlePattern -> string -> list string)
         (html : string) (now limit : Z) (patterns : list TitlePattern)
         (products : list Product.t) (rank : Z) : list Product.t :=
  match patterns with
  | [] => products
  | pattern :: rest =>
      let (products', rank') :=
        scan now limit (exec pattern html) products rank in
      if (0 <? List.length products')%nat then products'
      else try_patterns exec html now limit rest products' rank'
  end.

(** [scrapeWithHttpOnly(limit)]; [response] is the body the request
    resolved to, or its rejection. *)
Definition scrapeWithHttpOnly (response : Result string)
           (exec : TitlePattern -> string -> list string)
           (now limit : Z) : Result (list Product.t) :=
  html <- response ;;
  let products := try_patterns exec html now limit titlePatterns [] 1 in
  if (0 <? List.length products)%nat then Ok products
  else Err (Error "No products found in HTTP response").

(** *** The chain *)

(** Everything outside the process that one call touches. *)
Record World : Type := {
  skipBrowser : bool;                       (* SKIP_BROWSER === 'true' *)
  createPage : Result Dom.Page;
  metadata : Result (list ListMode.Metadata);
  httpResponse : Result string;
  regexExec : TitlePattern -> string -> list string;
  now : Z
}.

(** [getTrendingProducts(limit, type, category)] *)
Definition getTrendingProducts (w : World) (limit : Z)
           (type category : string) : Result (list Product.t) :=
  if skipBrowser w then
    try_catch
      (scrapeWithHttpOnly (httpResponse w) (regexExec w) (now w) limit)
      (fun httpError =>
         message_of httpError ;;;
         getFallbackProducts (now w) limit)
  else
    try_catch
      (ListMode.scrapeTrendingProducts (createPage w) (metadata w) (now w)
         limit type category)
      (fun error =>
         message_of error ;;;
         try_catch
           (scrapeWithHttpOnly (httpResponse w) (regexExec w) (now w) limit)
           (fun httpError =>
              message_of httpError ;;;
              getFallbackProducts (now w) limit)).

End Scraper.

(** ** The route: [GET /products] *)

Module Api.
Import Store.

Record Query : Type := {
  trending : option string;
  category : option string;
  limit : option string;
  force : option string
}.

Inductive Response : Type :=
| Json200 (products : list Product.t) (totalFound : Z)
          (source message : string)
| Json400 (error message : string)
| Json500 (error message : string).

Definition or_default (o : option string) (d : string) : string :=
  match o with Some s => s | None => d end.

(** [Math.min(parseInt(limit) || 10, 50)] *)
Definition productLimit (limit : string) : Z :=
  math_min (match Str.parseInt limit with
            | Some 0 | None => 10
            | Some n => n
            end) 50.

Definition serviceUnavailable : Response :=
  Json500 "Service unavailable"
    "Unable to fetch trending products at this time. Please try again later.".

Definition message_for (n : nat) (dataSource : string) : string :=
  String.append
    (String.concat (NilZero.string_of_uint (Nat.to_uint n))
       ["Successfully retrieved "; " products"])
    (if Str.includes dataSource "PostgreSQL" then
       String.append " from PostgreSQL"
         (if Str.includes dataSource "Fallback" then " (fallback)" else "")
     else if Str.includes dataSource "Live" then " via live scraping"
     else if Str.includes dataSource "Fallback" then " from fallback data"
     else "").

Definition respond (products : list Product.t) (dataSource : string)
  : Response :=
  Json200 products (Z.of_nat (List.length products))
    (if String.eqb dataSource ""
     then match products with
          | p :: _ => Product.source p
          | [] => "Unknown"
          end
     else dataSource)
    (message_for (List.length products) dataSource).

(** The [catch (scrapingError)] block. *)
Definition on_scraping_error (w : Scraper.World) (db : Db)
           (sessionId : string) (dbProducts : list Product.t)
           (productLimit : Z) (scrapingError : Thrown)
  : Response * Db :=
  match Scraper.message_of scrapingError with
  | Err _ => (serviceUnavailable, db)
  | Ok msg =>
      let (closed, db1) :=
        if String.eqb sessionId "" then (Ok tt, db)
        else updateScrapingSession db sessionId false 0 (Some msg)
               (Scraper.now w) in
      match closed with
      | Err _ => (serviceUnavailable, db1)
      | Ok _ =>
          match dbProducts with
          | [] =>
              match Scraper.getFallbackProducts (Scraper.now w) productLimit with
              | Ok products =>
                  (respond products
                     "Static Fallback Data - All other sources failed", db1)
              | Err _ => (serviceUnavailable, db1)
              end
          | _ =>
              (respond dbProducts
                 "PostgreSQL Cache (Fallback) - Scraping failed", db1)
          end
      end
  end.

(** The handler of [GET /products]: the response and the database it
    leaves.  [uuid] is what [uuidv4()] returns for this request and
    [maxAge] the value of [CACHE_MAX_AGE_HOURS], if set. *)
Definition getProductsRoute (w : Scraper.World) (uuid : string)
           (maxAge : option string) (db : Db) (q : Query) : Response * Db :=
  match trending q with
  | None | Some EmptyString =>
      (Json400 "Missing required parameter"
         (String.concat Str.quote
            ["The "; "trending"; " parameter is required"]), db)
  | Some trending =>
      if negb (String.eqb trending "amazon") then
        (Json400 "Invalid trending parameter"
           (String.concat Str.quote
              ["Currently only "; "amazon";
               " is supported for the trending parameter"]),
         db)
      else
        let category := or_default (category q) "electronics" in
        let productLimit := productLimit (or_default (limit q) "20") in
        let forceRefresh := String.eqb (or_default (force q) "false") "true" in
        match Str.parseInt (or_default maxAge "24") with
        | None => (serviceUnavailable, db)   (* the interval is not a number *)
        | Some maxAgeHours =>
        match getProducts db productLimit category maxAgeHours
                (Scraper.now w) with
        | Err _ => (serviceUnavailable, db)
        | Ok dbProducts =>
            if (0 <? List.length dbProducts)%nat && negb forceRefresh then
              (respond dbProducts
                 (String.append "PostgreSQL Cache ("
                    (String.append category ")")), db)
            else
              match createScrapingSession db uuid "amazon-scraper" category
                      (Scraper.now w) with
              | (Err _, db0) => (serviceUnavailable, db0)
              | (Ok sessionId, db0) =>
                  match Scraper.getTrendingProducts w productLimit
                          trending category with
                  | Err e =>
                      on_scraping_error w db0 sessionId dbProducts
                        productLimit e
                  | Ok scrapedProducts =>
                      if (0 <? List.length scrapedProducts)%nat then
                        match saveProducts db0 scrapedProducts category
                                (Scraper.now w) with
                        | (Err e, db1) =>
                            on_scraping_error w db1 sessionId dbProducts
                              productLimit e
                        | (Ok savedCount, db1) =>
                            match updateScrapingSession db1 sessionId true
                                    savedCount None (Scraper.now w) with
                            | (Err e, db2) =>
                                on_scraping_error w db2 sessionId dbProducts
                                  productLimit e
                            | (Ok _, db2) =>
                                (respond scrapedProducts
                                   "Live Scraping - Just scraped", db2)
                            end
                        end
                      else
                        on_scraping_error w db0 sessionId dbProducts
                          productLimit (Error "No products scraped")
                  end
              end
        end
        end
  end.

End Api.

(** ** Sample pages and worlds, for the scenarios *)

Module Samples.
Import Dom.

Definition textNode (t : string) : Node :=
  {| textContent := t; getAttribute := fun _ => None;
     src := None; href := None |}.

Definition anchorNode (h : string) : Node :=
  {| textContent := ""; getAttribute := fun _ => None;
     src := None; href := Some h |}.

(** A node whose only attribute is [data-asin]. *)
Definition asinNode (asin : option string) : Node :=
  {| textContent := "";
     getAttribute := fun name =>
                       if String.eqb name "data-asin" then asin else None;
     src := None; href := None |}.

(** A product card: an optional [data-asin], an optional title under
    [.p13n-sc-truncate], an optional rating under [.a-icon-star] and an
    optional link. *)
Definition card (ident : nat) (asin title rating link : option string)
  : Element :=
  {| ident := ident;
     isHTMLElement := true;
     self := asinNode asin;
     querySelector := fun sel =>
       if String.eqb sel ".p13n-sc-truncate" then option_map textNode title
       else if String.eqb sel ".a-icon-star" then option_map textNode rating
       else if String.eqb sel "a" then option_map anchorNode link
       else None |}.

Definition listing (cards : list Element) : Document :=
  {| cardRows := None; withDataAsin := cards; bestSellerCards := [] |}.

(** A page that loads and shows [views k] after [k] scrolls. *)
Definition pageOf (views : nat -> Document) : Page :=
  {| goto := fun _ => None;
     waitForSelector := None;
     view := fun k => Ok (views k);
     scroll := fun _ => None;
     detail := Err (Error "not a product page") |}.

(** A listing whose only candidate has an identifier but no title text:
    the selectors of the page no longer match. *)
Definition untitledPage : Page :=
  pageOf (fun _ => listing [card 0 (Some "B08N5WRWNW") None None None]).

(** A listing that shows the same title in two candidates at once. *)
Definition repeatedTitlePage : Page :=
  pageOf (fun _ => listing
                     [card 0 (Some "B08N5WRWNW") (Some "Wireless Mouse")
                        None None;
                      card 1 (Some "B07YTG4T6Q") (Some "Wireless Mouse")
                        None None]).

(** A listing with two distinct, well-formed candidates. *)
Definition twoCardPage : Page :=
  pageOf (fun _ => listing
                     [card 0 (Some "B08N5WRWNW") (Some "Wireless Mouse")
                        None None;
                      card 1 (Some "B07YTG4T6Q") (Some "Mechanical Keyboard")
                        None None]).

(** A candidate with a title and neither [data-asin] nor a link. *)
Definition anonymousCard : Element :=
  card 0 None (Some "Widget Pro") None None.

(** A listing whose one candidate carries a rating text of 60
    characters, more than the [rating] column holds. *)
Definition longRating : string :=
  "4.7 out of 5 stars, based on many thousands of verified buys".

Definition longRatingPage : Page :=
  pageOf (fun _ => listing
                     [card 0 (Some "B08N5WRWNW") (Some "Wireless Mouse")
                        (Some longRating)
                        (Some "https://www.amazon.com/dp/B08N5WRWNW")]).

(** A world whose browser opens [page]; the HTTP tier is not reached or
    is refused. *)
Definition worldOf (page : Page) : Scraper.World :=
  {| Scraper.skipBrowser := false;
     Scraper.createPage := Ok page;
     Scraper.metadata := Ok [];
     Scraper.httpResponse := Err (Error "HTTP 503");
     Scraper.regexExec := fun _ _ => [];
     Scraper.now := 1700000000000 |}.

Definition query (limit : string) : Api.Query :=
  {| Api.trending := Some "amazon"; Api.category := None;
     Api.limit := Some limit; Api.force := None |}.

(** A record without identifier or link, as the HTTP tier and the static
    tier produce them. *)
Definition echoDot : Product.t :=
  Product.basic (RankNumber 1)
    "Echo Dot (5th Gen) | Smart speaker with bigger vibrant sound and Alexa"
    "$49.99" "4.7 out of 5 stars" None None Scraper.fallbackSource 0.

(** A record of the detail extraction, with its identifier. *)
Definition mouse : Product.t :=
  Product.with_asin
    (Product.basic (RankString "1") "Wireless Mouse" "$19.99"
       "4.5 out of 5 stars" None
       (Some "https://www.amazon.com/dp/B08N5WRWNW")
       "Amazon Product Detail - ASIN: B08N5WRWNW" 0)
    (Some "B08N5WRWNW").

(** The same record with a price text the [price] column cannot hold. *)
Definition overlongPrice : Product.t :=
  Product.basic (RankNumber 2) "Mechanical Keyboard"
    "$89.99 with a coupon of ten percent applied at the checkout page"
    "4.2 out of 5 stars" None None "Amazon Best Sellers (HTTP)" 0.

(** A URL parser for the one address of the scenario. *)
Definition parseExample (url : string) : option Detail.Url :=
  if String.eqb url "https://example.com/not-a-product"
  then Some {| Detail.hostname := "example.com";
               Detail.pathname := "/not-a-product" |}
  else if String.eqb url "https://www.amazon.com/dp/B08N5WRWNW"
  then Some {| Detail.hostname := "www.amazon.com";
               Detail.pathname := "/dp/B08N5WRWNW" |}
  else None.

(** A product page with a title and no identifier anywhere. *)
Definition plainDetail : DetailDocument :=
  {| docQuerySelector := fun sel =>
       if String.eqb sel "#productTitle"
       then Some (textNode "  Wireless Mouse  ") else None;
     featureItems := [];
     locationHref := "https://www.amazon.com/gp/product/mouse" |}.

(** A stored row of a category, scraped at a given instant. *)
Definition rowAt (category : string) (scraped_at : Z) : Store.Row :=
  {| Store.id := 1;
     Store.data := {| DatabaseProduct.asin := None; DatabaseProduct.rank := 1;
                DatabaseProduct.title := "Wireless Mouse";
                DatabaseProduct.price := "$19.99";
                DatabaseProduct.rating := "N/A";
                DatabaseProduct.image_url := None;
                DatabaseProduct.product_url := None;
                DatabaseProduct.source := "Amazon Best Sellers (HTTP)";
                DatabaseProduct.category := category;
                DatabaseProduct.scraped_at := scraped_at |};
     Store.created_at := scraped_at;
     Store.updated_at := scraped_at |}.

Definition tableOf (rows : list Store.Row) : Store.Db :=
  {| Store.products := rows; Store.products_id_seq := 2;
     Store.scraping_sessions := [] |}.

End Samples.


(** ** CacheStore, the remaining operations of [DatabaseService] *)

From Stdlib Require Import Sorted Permutation.

Module StoreOps.
Import Store.

(** [product_url = $1 AND scraped_at > NOW() - INTERVAL 'maxAgeHours hours'] *)
Definition is_recent_url (productUrl : string) (maxAgeHours now : Z)
           (row : Row) : bool :=
  opt_eqb (DatabaseProduct.product_url (data row)) (Some productUrl)
  && (now - maxAgeHours * hour_ms <? DatabaseProduct.scraped_at (data row)).

(** [ORDER BY scraped_at DESC LIMIT 1]: the first of the rows that no
    other row is newer than. *)
Fixpoint newest (rows : list Row) : option Row :=
  match rows with
  | [] => None
  | row :: rest =>
      match newest rest with
      | Some best =>
          if DatabaseProduct.scraped_at (data row)
             <? DatabaseProduct.scraped_at (data best)
          then Some best else Some row
      | None => Some row
      end
  end.

(** [getProductByUrl]: [None] is [null]. *)
Definition getProductByUrl (db : Db) (productUrl : string)
           (maxAgeHours now : Z) : option Product.t :=
  option_map convertFromDbProduct
    (newest (filter (is_recent_url productUrl maxAgeHours now) (products db))).

Definition day_ms : Z := 24 * hour_ms.

(** [scraped_at < NOW() - INTERVAL 'daysOld days'] *)
Definition is_old (daysOld now : Z) (row : Row) : bool :=
  DatabaseProduct.scraped_at (data row) <? now - daysOld * day_ms.

(** [cleanOldData]: the number of deleted rows and the database left. *)
Definition cleanOldData (db : Db) (daysOld now : Z) : Z * Db :=
  (Z.of_nat (List.length (filter (is_old daysOld now) (products db))),
   {| products := filter (fun row => negb (is_old daysOld now row))
                    (products db);
      products_id_seq := products_id_seq db;
      scraping_sessions := scraping_sessions db |}).

(** One line of [GROUP BY category]. *)
Record CategoryCount : Type := {
  cc_category : string;
  cc_count : Z;
  cc_last_scraped : option Z
}.

Definition in_category (category : string) (row : Row) : bool :=
  String.eqb (DatabaseProduct.category (data row)) category.

(** The categories of the rows, each once, in order of first appearance. *)
Fixpoint categories (rows : list Row) : list string :=
  match rows with
  | [] => []
  | row :: rest =>
      DatabaseProduct.category (data row)
      :: filter (fun c => negb (String.eqb c
                                  (DatabaseProduct.category (data row))))
           (categories rest)
  end.

Definition group (rows : list Row) (category : string) : CategoryCount :=
  {| cc_category := category;
     cc_count := Z.of_nat (List.length (filter (in_category category) rows));
     cc_last_scraped := max_scraped_at (filter (in_category category) rows) |}.

(** [ORDER BY count DESC] *)
Fixpoint insert_count (g : CategoryCount) (l : list CategoryCount)
  : list CategoryCount :=
  match l with
  | [] => [g]
  | x :: l' => if cc_count x <? cc_count g then g :: l
               else x :: insert_count g l'
  end.

(** [ORDER BY started_at DESC] *)
Fixpoint insert_session (s : ScrapingSession.t) (l : list ScrapingSession.t)
  : list ScrapingSession.t :=
  match l with
  | [] => [s]
  | x :: l' => if ScrapingSession.started_at x <? ScrapingSession.started_at s
               then s :: l
               else x :: insert_session s l'
  end.

Record Stats : Type := {
  totalProducts : Z;
  categoryCounts : list CategoryCount;
  recentSessions : list ScrapingSession.t
}.

(** [getStats] *)
Definition getStats (db : Db) : Stats :=
  {| totalProducts := Z.of_nat (List.length (products db));
     categoryCounts :=
       fold_right insert_count []
         (map (group (products db)) (categories (products db)));
     recentSessions :=
       firstn 10 (fold_right insert_session [] (scraping_sessions db)) |}.

(** The sum of the counts of a grouping. *)
Definition total_count (l : list CategoryCount) : Z :=
  fold_right (fun g acc => cc_count g + acc) 0 l.

(** The order [getProducts] returns rows in. *)
Definition row_le (a b : Row) : Prop :=
  DatabaseProduct.rank (data a) < DatabaseProduct.rank (data b) \/
  (DatabaseProduct.rank (data a) = DatabaseProduct.rank (data b) /\
   DatabaseProduct.scraped_at (data b) <= DatabaseProduct.scraped_at (data a)).

(** The primary key: every [id] below the sequence and no [id] twice. *)
Definition keyed (rows : list Row) (seq : Z) : Prop :=
  (forall row, In row rows -> id row < seq) /\ NoDup (map id rows).

Definition ids_fresh (db : Db) : Prop :=
  keyed (products db) (products_id_seq db).

(** No session id twice. *)
Definition unique_sessions (db : Db) : Prop :=
  NoDup (map ScrapingSession.session_id (scraping_sessions db)).

End StoreOps.

(** ** The other routes over the store and the scrapers *)

Module Routes.
Import Store StoreOps Api.

(** [Math.round((now - t) / (1000 * 60 * 60))]: to the nearest hour,
    halves upwards. *)
Definition hoursOld (now t : Z) : Z :=
  (2 * (now - t) + hour_ms) / (2 * hour_ms).

(** A number inside a template string. *)
Definition show (z : Z) : string := NilZero.string_of_int (Z.to_int z).

(** An interval built from [parseInt] of a text that is not a number. *)
Definition badInterval : Thrown :=
  Error "invalid input syntax for type interval".

(** What a handler wrapped in [asyncHandler] does with a request: it
    answers, or an error leaves it and is passed to [next]. *)
Inductive Outcome (A : Type) : Type :=
| Replied (r : A)
| Escaped (e : Thrown).
Arguments Replied {A} r.
Arguments Escaped {A} e.

(** *** [GET /products-enhanced] *)

Definition enhancedCategory : string := "electronics-enhanced".

(** [Math.min(parseInt(limit) || 20, 50)] *)
Definition enhancedLimit (limit : string) : Z :=
  math_min (match Str.parseInt limit with
            | Some 0 | None => 20
            | Some n => n
            end) 50.

Definition enhanced_message (n : nat) (dataSource : string) : string :=
  String.append
    (String.concat (NilZero.string_of_uint (Nat.to_uint n))
       ["Successfully retrieved "; " products"])
    (if Str.includes dataSource "Cache"
     then " from enhanced database cache"
     else if Str.includes dataSource "Live Enhanced"
     then " via live enhanced scraping with scrolling"
     else if Str.includes dataSource "Fallback" then " from fallback data"
     else "").

Definition enhanced_respond (products : list Product.t) (dataSource : string)
  : Response :=
  Json200 products (Z.of_nat (List.length products))
    (if String.eqb dataSource ""
     then match products with
          | p :: _ => Product.source p
          | [] => "Enhanced Amazon Scraper"
          end
     else dataSource)
    (enhanced_message (List.length products) dataSource).

(** The cache, consulted unless a refresh is forced: it is used only
    when it holds at least [productLimit] fresh rows. *)
Definition enhanced_cache (db : Db) (productLimit : Z) (maxAge : option string)
           (now : Z) : Result (list Product.t * string) :=
  match Str.parseInt (or_default maxAge "24") with
  | None => Err badInterval
  | Some maxAgeHours =>
      let freshDataCheck :=
        hasFreshData db enhancedCategory maxAgeHours now in
      if hasFresh freshDataCheck && (productLimit <=? count freshDataCheck)
      then
        products <- getProducts db productLimit enhancedCategory maxAgeHours
                      now ;;
        Ok (products,
            match lastScraped freshDataCheck with
            | Some t =>
                String.append "Database Cache (Enhanced) - "
                  (String.append (show (hoursOld now t)) " hours old")
            | None => ""
            end)
      else Ok ([], "")
  end.

(** The three fallbacks of the [catch (scrapingError)] block. *)
Definition enhanced_fallback (db : Db) (productLimit now : Z)
  : Result (list Product.t * string) :=
  fallbackProducts <- getProducts db productLimit enhancedCategory 72 now ;;
  if (0 <? List.length fallbackProducts)%nat
  then Ok (fallbackProducts,
           "Database Cache (Enhanced Fallback) - Scraping failed")
  else
    regularFallback <- getProducts db productLimit "electronics" 72 now ;;
    if (0 <? List.length regularFallback)%nat
    then Ok (regularFallback,
             "Database Cache (Regular Fallback) - Enhanced scraping failed")
    else
      products <- Scraper.getFallbackProducts now productLimit ;;
      Ok (products, "Static Fallback Data - All enhanced sources failed").

(** The [catch (scrapingError)] block. *)
Definition enhanced_on_error (db : Db) (sessionId : string)
           (productLimit now : Z) (scrapingError : Thrown)
  : Result (list Product.t * string) * Db :=
  match Scraper.message_of scrapingError with
  | Err e => (Err e, db)
  | Ok msg =>
      let (closed, db1) :=
        if String.eqb sessionId "" then (Ok tt, db)
        else updateScrapingSession db sessionId false 0 (Some msg) now in
      match closed with
      | Err e => (Err e, db1)
      | Ok _ => (enhanced_fallback db1 productLimit now, db1)
      end
  end.

(** Session, scrape, save, close. *)
Definition enhanced_scrape (createPage : Result Dom.Page) (uuid : string)
           (db : Db) (productLimit now : Z)
  : Result (list Product.t * string) * Db :=
  match createScrapingSession db uuid "amazon-enhanced-scraper"
          enhancedCategory now with
  | (Err e, db0) => (Err e, db0)
  | (Ok sessionId, db0) =>
      match Enhanced.scrapeProductsWithScrolling createPage now productLimit
      with
      | Err e => enhanced_on_error db0 sessionId productLimit now e
      | Ok scrapedProducts =>
          if (0 <? List.length scrapedProducts)%nat then
            match saveProducts db0 scrapedProducts enhancedCategory now with
            | (Err e, db1) =>
                enhanced_on_error db1 sessionId productLimit now e
            | (Ok savedCount, db1) =>
                match updateScrapingSession db1 sessionId true savedCount
                        None now with
                | (Err e, db2) =>
                    enhanced_on_error db2 sessionId productLimit now e
                | (Ok _, db2) =>
                    (Ok (scrapedProducts,
                         "Live Enhanced Scraping - Just scraped with scrolling"),
                     db2)
                end
            end
          else enhanced_on_error db0 sessionId productLimit now
                 (Error "No enhanced products scraped")
      end
  end.

(** The outer [catch (error)]. *)
Definition enhanced_failed (error : Thrown) : Outcome Response :=
  match Scraper.message_of error with
  | Ok msg =>
      Replied (Json500 "Enhanced scraping failed"
                 (String.append "Unable to extract enhanced products: " msg))
  | Err e => Escaped e
  end.

(** The handler of [GET /products-enhanced]. *)
Definition getProductsEnhancedRoute (createPage : Result Dom.Page) (now : Z)
           (uuid : string) (maxAge : option string) (db : Db) (q : Query)
  : Outcome Response * Db :=
  match trending q with
  | None | Some EmptyString =>
      (Replied (Json400 "Missing required parameter"
                  (String.concat Str.quote
                     ["The "; "trending"; " parameter is required"])), db)
  | Some trending =>
      if negb (String.eqb trending "amazon") then
        (Replied (Json400 "Invalid trending parameter"
                    (String.concat Str.quote
                       ["Currently only "; "amazon";
                        " is supported for the trending parameter"])), db)
      else
        let productLimit := enhancedLimit (or_default (limit q) "20") in
        let forceRefresh :=
          String.eqb (or_default (force q) "false") "true" in
        match (if forceRefresh then Ok ([], "")
               else enhanced_cache db productLimit maxAge now) with
        | Err e => (enhanced_failed e, db)
        | Ok (products, dataSource) =>
            if (List.length products =? 0)%nat || forceRefresh then
              match enhanced_scrape createPage uuid db productLimit now with
              | (Err e, db') => (enhanced_failed e, db')
              | (Ok (products', dataSource'), db') =>
                  (Replied (enhanced_respond products' dataSource'), db')
              end
            else (Replied (enhanced_respond products dataSource), db)
        end
  end.

(** *** [GET /product/details] *)

Definition detailCategory : string := "product-details".

Inductive DetailReply : Type :=
| Detail200 (product : Product.t) (source : string)
            (sessionId : option string) (message : string)
| Detail400 (error message : string)
| Detail500 (error message : string).

Definition detail_message (dataSource : string) : string :=
  String.append "Successfully retrieved product details"
    (if Str.includes dataSource "Cache" then " from database cache"
     else if Str.includes dataSource "Live" then " via live scraping"
     else "").

Definition detail_respond (product : Product.t) (dataSource : string)
           (sessionId : option string) : DetailReply :=
  Detail200 product dataSource
    (match sessionId with
     | Some s => if String.eqb s "" then None else Some s
     | None => None
     end)
    (detail_message dataSource).

(** The outer [catch (error)]. *)
Definition detail_failed (error : Thrown) : Outcome DetailReply :=
  match Scraper.message_of error with
  | Ok _ =>
      Replied (Detail500 "Service unavailable"
                 "Unable to fetch product details at this time. Please check the URL and try again later.")
  | Err e => Escaped e
  end.

(** The [catch (scrapingError)] block: an older stored copy, up to seven
    days, or the error again. *)
Definition detail_on_error (db : Db) (sessionId url : string) (now : Z)
           (scrapingError : Thrown)
  : Result (Product.t * string) * Db :=
  match Scraper.message_of scrapingError with
  | Err e => (Err e, db)
  | Ok msg =>
      let (closed, db1) :=
        if String.eqb sessionId "" then (Ok tt, db)
        else updateScrapingSession db sessionId false 0 (Some msg) now in
      match closed with
      | Err e => (Err e, db1)
      | Ok _ =>
          match getProductByUrl db1 url 168 now with
          | Some fallbackProduct =>
              (Ok (fallbackProduct,
                   "Database Cache (Fallback) - Scraping failed"), db1)
          | None => (Err scrapingError, db1)
          end
      end
  end.

(** The handler of [GET /product/details], with the calls it made on
    the browser. *)
Definition getProductDetailsRoute (parse : string -> option Detail.Url)
           (createPage : Result Dom.Page) (now : Z) (uuid : string)
           (maxAge : option string) (db : Db) (url : option string)
  : Outcome DetailReply * Db * list Detail.BrowserCall :=
  match url with
  | None | Some EmptyString =>
      (Replied (Detail400 "Missing required parameter"
                  (String.concat Str.quote
                     ["The "; "url";
                      " parameter is required and must be a valid Amazon product URL"])),
       db, [])
  | Some url =>
      match parse url with
      | None =>
          (Replied (Detail400 "Invalid URL format"
                      "Please provide a valid Amazon product URL"), db, [])
      | Some _ =>
          match Str.parseInt (or_default maxAge "24") with
          | None => (detail_failed badInterval, db, [])
          | Some maxAgeHours =>
              match getProductByUrl db url maxAgeHours now with
              | Some cachedProduct =>
                  (Replied
                     (detail_respond cachedProduct
                        (String.append "Database Cache (Product Detail) - "
                           (String.append
                              (show (hoursOld now
                                       (Product.scrapedAt cachedProduct)))
                              " hours old"))
                        None), db, [])
              | None =>
                  match createScrapingSession db uuid "product-details"
                          detailCategory now with
                  | (Err e, db0) => (detail_failed e, db0, [])
                  | (Ok sessionId, db0) =>
                      let (scraped, calls) :=
                        Detail.scrapeProductDetails parse createPage now url
                      in
                      let (outcome, db') :=
                        match scraped with
                        | Err e => detail_on_error db0 sessionId url now e
                        | Ok scrapedProduct =>
                            match saveProducts db0 [scrapedProduct]
                                    detailCategory now with
                            | (Err e, db1) =>
                                detail_on_error db1 sessionId url now e
                            | (Ok savedCount, db1) =>
                                match updateScrapingSession db1 sessionId
                                        true savedCount None now with
                                | (Err e, db2) =>
                                    detail_on_error db2 sessionId url now e
                                | (Ok _, db2) =>
                                    (Ok (scrapedProduct,
                                         "Live Scraping - Just scraped product details"),
                                     db2)
                                end
                            end
                        end in
                      match outcome with
                      | Ok (product, dataSource) =>
                          (Replied (detail_respond product dataSource
                                      (Some sessionId)), db', calls)
                      | Err e => (detail_failed e, db', calls)
                      end
                  end
              end
          end
      end
  end.

End Routes.

(** *** [POST /products/refresh] *)

Module Refresh.
Import Store Api Routes.

Inductive Reply : Type :=
| Refresh200 (products : list Product.t) (totalFound savedToDatabase : Z)
             (sessionId category message : string)
| Refresh500 (error message : string).

(** [Math.min(parseInt(limit) || 20, 50)] *)
Definition refreshLimit (limit : string) : Z :=
  math_min (match Str.parseInt limit with
            | Some 0 | None => 20
            | Some n => n
            end) 50.

(** The inner [catch (scrapingError)]: the session is closed as failed,
    whatever its identifier, and the error is thrown again. *)
Definition on_error (db : Db) (sessionId : string) (now : Z)
           (scrapingError : Thrown) : Thrown * Db :=
  match Scraper.message_of scrapingError with
  | Err e => (e, db)
  | Ok msg =>
      match updateScrapingSession db sessionId false 0 (Some msg) now with
      | (Err e, db1) => (e, db1)
      | (Ok _, db1) => (scrapingError, db1)
      end
  end.

(** The outer [catch (error)]. *)
Definition failed (error : Thrown) : Outcome Reply :=
  match Scraper.message_of error with
  | Ok msg =>
      Replied (Refresh500 "Refresh failed"
                 (String.append "Unable to refresh products: " msg))
  | Err e => Escaped e
  end.

(** The handler: the scrape is asked for with the limit only, so with
    the default type and category of [getTrendingProducts]; the rows
    are saved under the category of the request. *)
Definition refreshRoute (w : Scraper.World) (uuid : string) (db : Db)
           (category limit : option string) : Outcome Reply * Db :=
  let category := or_default category "electronics" in
  let productLimit := refreshLimit (or_default limit "20") in
  match createScrapingSession db uuid "manual-refresh" category
          (Scraper.now w) with
  | (Err e, db0) => (failed e, db0)
  | (Ok sessionId, db0) =>
      let rethrow (dbX : Db) (e : Thrown) : Outcome Reply * Db :=
        let (e', db1) := on_error dbX sessionId (Scraper.now w) e in
        (failed e', db1) in
      match Scraper.getTrendingProducts w productLimit
              "amazon" "electronics" with
      | Err e => rethrow db0 e
      | Ok products =>
          if (0 <? List.length products)%nat then
            match saveProducts db0 products category (Scraper.now w) with
            | (Err e, db1) => rethrow db1 e
            | (Ok savedCount, db1) =>
                match updateScrapingSession db1 sessionId true savedCount
                        None (Scraper.now w) with
                | (Err e, db2) => rethrow db2 e
                | (Ok _, db2) =>
                    (Replied
                       (Refresh200 products
                          (Z.of_nat (List.length products))
                          savedCount sessionId category
                          (String.concat (show savedCount)
                             ["Successfully refreshed ";
                              " products and saved to database"])),
                     db2)
                end
            end
          else rethrow db0 (Error "No products scraped")
      end
  end.

End Refresh.

(** ** [MetadataService] and the [metadata] table *)

Module Meta.
Import Store.

(** A row of [metadata]: [type] and [category] are [VARCHAR(50)] and
    together [UNIQUE]. *)
Record Row : Type := {
  id : Z;
  type : string;
  category : string;
  url : string;
  description : option string;
  created_at : Z;
  updated_at : Z
}.

Record Table : Type := {
  rows : list Row;
  id_seq : Z
}.

Definition has_key (t c : string) (row : Row) : bool :=
  String.eqb (type row) t && String.eqb (category row) c.

(** [ORDER BY category ASC], under the collation [le] of the database. *)
Fixpoint insert_by_category (le : string -> string -> bool) (r : Row)
         (l : list Row) : list Row :=
  match l with
  | [] => [r]
  | x :: l' => if le (category r) (category x) then r :: l
               else x :: insert_by_category le r l'
  end.

(** [getMetadata(type, category?)] *)
Definition getMetadata (le : string -> string -> bool) (tbl : Table)
           (type : string) (category : option string) : list Row :=
  fold_right (insert_by_category le) []
    (filter (fun row =>
               String.eqb (Meta.type row) type
               && match category with
                  | Some c =>
                      if String.eqb c "" || String.eqb c "all" then true
                      else String.eqb (Meta.category row) c
                  | None => true
                  end)
       (rows tbl)).

(** The [DO UPDATE] arm of [upsertMetadata]. *)
Definition overwrite (u : string) (d : option string) (now : Z) (row : Row)
  : Row :=
  {| id := id row; type := type row; category := category row;
     url := u; description := d;
     created_at := created_at row; updated_at := now |}.

(** [upsertMetadata]: [INSERT ... ON CONFLICT (type, category) DO UPDATE
    ... RETURNING *]; the answer is the first returned row. *)
Definition upsertMetadata (tbl : Table) (t c u : string)
           (d : option string) (now : Z) : Result Row * Table :=
  match (t' <- store_varchar 50 t ;;
         c' <- store_varchar 50 c ;;
         Ok (t', c')) with
  | Err e => (Err e, tbl)
  | Ok (t', c') =>
      match find (has_key t' c') (rows tbl) with
      | Some old =>
          (Ok (overwrite u d now old),
           {| rows := map (fun row => if has_key t' c' row
                                      then overwrite u d now row else row)
                        (rows tbl);
              id_seq := id_seq tbl + 1 |})
      | None =>
          let new := {| id := id_seq tbl; type := t'; category := c';
                        url := u; description := d;
                        created_at := now; updated_at := now |} in
          (Ok new, {| rows := rows tbl ++ [new];
                      id_seq := id_seq tbl + 1 |})
      end
  end.

(** [deleteMetadata(type, category)] *)
Definition deleteMetadata (tbl : Table) (t c : string) : Table :=
  {| rows := filter (fun row => negb (has_key t c row)) (rows tbl);
     id_seq := id_seq tbl |}.

(** The table as [getScrapingUrl] reads it. *)
Definition view (tbl : Table) : list ListMode.Metadata :=
  map (fun row => {| ListMode.meta_type := type row;
                     ListMode.meta_category := category row;
                     ListMode.meta_url := url row |})
      (rows tbl).

(** The [UNIQUE(type, category)] constraint. *)
Definition unique_keys (tbl : Table) : Prop :=
  NoDup (map (fun row => (type row, category row)) (rows tbl)).

End Meta.

(** ** Further sample inputs *)

Module Scenarios.
Import Dom.

(** A response in which the first title pattern matches three spans, the
    second with the text of the first. *)
Definition threeSpans (pattern : Scraper.TitlePattern) (html : string)
  : list string :=
  match pattern with
  | Scraper.TruncateSpan =>
      ["  Wireless Mouse Pro  "; "Mechanical Keyboard"; "Wireless Mouse Pro"]
  | _ => []
  end.

(** A candidate whose [data-asin] carries blanks around the identifier
    and whose link is not a product link. *)
Definition paddedCard : Element :=
  Samples.card 0 (Some " B08N5WRWNW ") (Some "Wireless Mouse") None
    (Some "https://www.amazon.com/gp/bestsellers").

(** A candidate with [data-asin] whose link leads to another listing. *)
Definition unlinkedPage : Page :=
  Samples.pageOf (fun _ => Samples.listing [paddedCard]).

(** A product page that loads and shows [Samples.plainDetail]. *)
Definition detailPage : Page :=
  {| goto := fun _ => None;
     waitForSelector := None;
     view := fun _ => Err (Error "not a listing");
     scroll := fun _ => None;
     detail := Ok Samples.plainDetail |}.

End Scenarios.
(** * Properties *)

(** ** Retry with backoff *)

Module RetryFacts.
Import Retry.

Section General.
Context {W T : Type}.
Variable cfg : Config.
Variable operation : W -> Result T * W.

(** The loop only ever adds attempts and waits to what it was given. *)
Lemma loop_attempts_bound remaining :
  forall attempt lastError w seen waited,
    (List.length (attempts (loop cfg operation remaining attempt lastError
                              w seen waited))
     <= List.length seen + remaining)%nat.
Proof.
  induction remaining as [|n IH]; intros; simpl.
  - lia.
  - destruct (operation w) as [[v|e] w']; simpl.
    + rewrite length_app; simpl; lia.
    + specialize (IH (attempt + 1) e w' (seen ++ [Err e])
                    (if attempt <? maxRetries cfg
                     then waited ++ [backoffDelay cfg attempt]
                     else waited)).
      rewrite length_app in IH; simpl in IH; lia.
Qed.

Lemma retryOperation_attempts_bound w :
  (List.length (attempts (retryOperation cfg operation w))
   <= Z.to_nat (maxRetries cfg))%nat.
Proof.
  unfold retryOperation.
  pose proof (loop_attempts_bound (Z.to_nat (maxRetries cfg)) 1 Undefined
                w [] []) as H.
  simpl in H; exact H.
Qed.

End General.


End RetryFacts.

(** ** The cache store *)

Module StoreFacts.
Import Store.

Lemma has_asin_iff a row :
  has_asin a row = true <-> DatabaseProduct.asin (data row) = Some a.
Proof.
  unfold has_asin.
  destruct (DatabaseProduct.asin (data row)) as [x|]; simpl.
  - rewrite String.eqb_eq. split; congruence.
  - split; discriminate.
Qed.

(** *** Freshness *)

Lemma is_recent_iff category maxAgeHours now row :
  is_recent category maxAgeHours now row = true <->
  DatabaseProduct.category (data row) = category /\
  age_ms now row < maxAgeHours * hour_ms.
Proof.
  unfold is_recent, age_ms.
  rewrite andb_true_iff, String.eqb_eq, Z.ltb_lt.
  intuition lia.
Qed.

Lemma filter_nil_iff {A} (f : A -> bool) (l : list A) :
  filter f l = [] <-> forall x, In x l -> f x = false.
Proof.
  induction l as [|x l IH]; simpl.
  - intuition.
  - destruct (f x) eqn:E.
    + split; [discriminate|].
      intros H. specialize (H x (or_introl eq_refl)). congruence.
    + rewrite IH. split.
      * intros H y [->|Hy]; auto.
      * intros H y Hy. apply H; auto.
Qed.

Lemma hasFresh_iff db category maxAgeHours now :
  hasFresh (hasFreshData db category maxAgeHours now) = true <->
  exists row, In row (products db) /\
              DatabaseProduct.category (data row) = category /\
              age_ms now row < maxAgeHours * hour_ms.
Proof.
  unfold hasFreshData; simpl.
  rewrite Z.ltb_lt.
  destruct (filter (is_recent category maxAgeHours now) (products db))
    as [|r rs] eqn:E.
  - simpl. split; [lia|].
    intros (row & Hin & Hc & Ha).
    rewrite filter_nil_iff in E. specialize (E row Hin).
    assert (is_recent category maxAgeHours now row = true)
      by (apply is_recent_iff; auto).
    congruence.
  - split; [intros _|simpl; lia].
    assert (Hr : In r (filter (is_recent category maxAgeHours now)
                          (products db))) by (rewrite E; left; reflexivity).
    apply filter_In in Hr. destruct Hr as [Hin Hrec].
    apply is_recent_iff in Hrec. exists r. tauto.
Qed.


(** *** Upsert and the uniqueness of [asin] *)

Lemma upsert_fails_iff rows seq d now e :
  upsert rows seq d now = Err e <-> coerce d = Err e.
Proof.
  unfold upsert. destruct (coerce d) as [d'|e']; simpl.
  - split; [|discriminate].
    destruct (DatabaseProduct.asin d') as [a|];
      [destruct (existsb (has_asin a) rows)|]; discriminate.
  - split; intros H; inversion H; reflexivity.
Qed.

Lemma filter_map_same_test {A} (f : A -> bool) (g : A -> A) (l : list A) :
  (forall x, f (g x) = f x) ->
  filter f (map g l) = map g (filter f l).
Proof.
  intros H. induction l as [|x l IH]; simpl; [reflexivity|].
  rewrite H. destruct (f x); simpl; congruence.
Qed.

Lemma has_asin_overwrite a b d now row :
  DatabaseProduct.asin d = Some a ->
  has_asin b (if has_asin a row then overwrite d now row else row)
  = has_asin b row.
Proof.
  intros Hd. destruct (has_asin a row) eqn:E; [|reflexivity].
  apply has_asin_iff in E.
  unfold has_asin; simpl. rewrite Hd, E. reflexivity.
Qed.

Lemma filter_insert_row f rows new_id d now :
  filter f (insert_row rows new_id d now)
  = filter f rows
    ++ (if f {| id := new_id; data := d;
                created_at := now; updated_at := now |}
        then [{| id := new_id; data := d;
                 created_at := now; updated_at := now |}]
        else []).
Proof. unfold insert_row. rewrite filter_app. reflexivity. Qed.

Lemma existsb_false_filter {A} (f : A -> bool) l :
  existsb f l = false -> filter f l = [].
Proof.
  intros H. apply filter_nil_iff. intros x Hx.
  destruct (f x) eqn:E; [|reflexivity].
  assert (existsb f l = true) by (apply existsb_exists; eauto).
  congruence.
Qed.

Lemma upsert_keeps_unique_asin rows seq d now rows' seq' :
  unique_asin rows ->
  upsert rows seq d now = Ok (rows', seq') ->
  unique_asin rows'.
Proof.
  unfold upsert. intros U H.
  destruct (coerce d) as [d'|]; simpl in H; [|discriminate].
  destruct (DatabaseProduct.asin d') as [a|] eqn:Ha.
  - destruct (existsb (has_asin a) rows) eqn:Ex; inversion H; subst; intros b.
    + rewrite filter_map_same_test
        by (intros x; apply has_asin_overwrite; exact Ha).
      rewrite length_map. apply U.
    + rewrite filter_insert_row, length_app.
      unfold has_asin at 2; simpl. rewrite Ha; simpl.
      destruct (String.eqb a b) eqn:E; simpl.
      * apply String.eqb_eq in E; subst b.
        rewrite (existsb_false_filter _ _ Ex); simpl; lia.
      * specialize (U b); lia.
  - inversion H; subst. intros b.
    rewrite filter_insert_row, length_app.
    unfold has_asin at 2; simpl. rewrite Ha; simpl.
    specialize (U b); lia.
Qed.

Lemma save_loop_keeps_unique_asin batch :
  forall category now rows seq n rows' seq' n' s,
    unique_asin rows ->
    save_loop batch category now rows seq n = (Ok (rows', seq', n'), s) ->
    unique_asin rows'.
Proof.
  induction batch as [|p rest IH]; simpl;
    intros category now rows seq n rows' seq' n' s U H.
  - inversion H; subst; exact U.
  - destruct (upsert rows seq (convertToDbProduct p category) now)
      as [[r1 s1]|] eqn:E; [|discriminate].
    eapply IH; [|exact H].
    eapply upsert_keeps_unique_asin; eauto.
Qed.

(** Whatever the batch and whether or not it commits, [saveProducts]
    leaves at most one row per non-null [asin]. *)
Lemma saveProducts_keeps_unique_asin db batch category now :
  unique_asin (products db) ->
  unique_asin (products (snd (saveProducts db batch category now))).
Proof.
  intros U. unfold saveProducts.
  destruct (save_loop batch category now (products db) (products_id_seq db) 0)
    as [[[[rows' seq'] n]|e] s] eqn:E; simpl.
  - eapply save_loop_keeps_unique_asin; eauto.
  - exact U.
Qed.

(** *** All or nothing *)

Lemma save_loop_fails batch :
  forall category now rows seq n p e,
    In p batch ->
    coerce (convertToDbProduct p category) = Err e ->
    exists q e' s,
      In q batch /\
      coerce (convertToDbProduct q category) = Err e' /\
      save_loop batch category now rows seq n = (Err e', s).
Proof.
  induction batch as [|x rest IH]; simpl;
    intros category now rows seq n p e Hin Hbad; [tauto|].
  destruct (upsert rows seq (convertToDbProduct x category) now)
    as [[r1 s1]|e1] eqn:E.
  - destruct Hin as [->|Hin].
    + apply upsert_fails_iff with (rows := rows) (seq := seq) (now := now)
        in Hbad. congruence.
    + destruct (IH category now r1 s1 (n + 1) p e Hin Hbad)
        as (q & e' & s & Hq & Hc & Hs).
      exists q, e', s. auto.
  - exists x, e1, seq. apply upsert_fails_iff in E. auto.
Qed.

Lemma save_loop_count batch :
  forall category now rows seq n rows' seq' n' s,
    save_loop batch category now rows seq n = (Ok (rows', seq', n'), s) ->
    n' = n + Z.of_nat (List.length batch).
Proof.
  induction batch as [|x rest IH]; simpl;
    intros category now rows seq n rows' seq' n' s H.
  - inversion H; lia.
  - destruct (upsert rows seq (convertToDbProduct x category) now)
      as [[r1 s1]|e1]; [|discriminate].
    apply IH in H. lia.
Qed.

(** A batch that commits reports as many saved records as it holds. *)
Lemma saveProducts_count db batch category now n :
  fst (saveProducts db batch category now) = Ok n ->
  n = Z.of_nat (List.length batch).
Proof.
  unfold saveProducts.
  destruct (save_loop batch category now (products db) (products_id_seq db) 0)
    as [[[[rows' seq'] m]|e] s] eqn:E; simpl; intros H; [|discriminate H].
  inversion H; subst. apply save_loop_count in E. lia.
Qed.

(** C5.  If the database refuses any record of the batch, [saveProducts]
    throws the error of the first refused record, and the committed rows
    of [products] (and the session table) are what they were before the
    call. *)
Theorem saveProducts_all_or_nothing db batch category now p e :
  In p batch ->
  coerce (convertToDbProduct p category) = Err e ->
  exists q e',
    In q batch /\
    coerce (convertToDbProduct q category) = Err e' /\
    fst (saveProducts db batch category now) = Err e' /\
    products (snd (saveProducts db batch category now)) = products db /\
    scraping_sessions (snd (saveProducts db batch category now))
    = scraping_sessions db.
Proof.
  intros Hin Hbad.
  destruct (save_loop_fails batch category now (products db)
              (products_id_seq db) 0 p e Hin Hbad)
    as (q & e' & s & Hq & Hc & Hs).
  exists q, e'. unfold saveProducts. rewrite Hs. simpl. auto.
Qed.

(** *** Saving a record that carries an identifier *)

Lemma coerce_keeps_asin_presence d d' :
  coerce d = Ok d' ->
  DatabaseProduct.asin d <> None ->
  exists a, DatabaseProduct.asin d' = Some a.
Proof.
  unfold coerce. intros H Hn.
  destruct (DatabaseProduct.asin d) as [s|]; [|congruence].
  destruct (store_varchar 20 s) as [s'|]; simpl in H; [|discriminate].
  destruct (store_integer (DatabaseProduct.rank d)); simpl in H;
    [|discriminate].
  destruct (store_varchar 50 (DatabaseProduct.price d)); simpl in H;
    [|discriminate].
  destruct (store_varchar 50 (DatabaseProduct.rating d)); simpl in H;
    [|discriminate].
  destruct (store_varchar 100 (DatabaseProduct.source d)); simpl in H;
    [|discriminate].
  destruct (store_varchar 50 (DatabaseProduct.category d)); simpl in H;
    [|discriminate].
  inversion H; subst; simpl. eauto.
Qed.

Lemma filter_nonempty_of_existsb {A} (f : A -> bool) l :
  existsb f l = true -> filter f l <> [].
Proof.
  intros H E. apply existsb_exists in H. destruct H as (x & Hx & Hf).
  rewrite filter_nil_iff in E. rewrite (E x Hx) in Hf. discriminate.
Qed.

Lemma upsert_with_asin rows seq d0 now rows' seq' d a :
  unique_asin rows ->
  upsert rows seq d0 now = Ok (rows', seq') ->
  coerce d0 = Ok d ->
  DatabaseProduct.asin d = Some a ->
  exists row,
    filter (has_asin a) rows' = [row] /\
    data row = d /\ updated_at row = now /\
    (existsb (has_asin a) rows = true ->
     List.length rows' = List.length rows).
Proof.
  unfold upsert. intros U H Hc Ha. rewrite Hc in H; simpl in H.
  rewrite Ha in H.
  destruct (existsb (has_asin a) rows) eqn:Ex; inversion H; subst.
  - rewrite filter_map_same_test
      by (intros x; apply has_asin_overwrite; exact Ha).
    pose proof (filter_nonempty_of_existsb _ _ Ex) as Hne.
    specialize (U a).
    destruct (filter (has_asin a) rows) as [|r [|r' rs]] eqn:F;
      [congruence| |simpl in U; lia].
    assert (Hr : has_asin a r = true).
    { assert (In r (filter (has_asin a) rows)) by (rewrite F; left; auto).
      apply filter_In in H0. tauto. }
    simpl. rewrite Hr. eexists; repeat split.
    intros _. apply length_map.
  - rewrite filter_insert_row.
    rewrite (existsb_false_filter _ _ Ex).
    unfold has_asin; simpl. rewrite Ha; simpl. rewrite String.eqb_refl.
    eexists; repeat split. discriminate.
Qed.

Lemma saveProducts_single db p category now :
  saveProducts db [p] category now =
  match upsert (products db) (products_id_seq db)
          (convertToDbProduct p category) now with
  | Ok (rows', seq') =>
      (Ok 1, {| products := rows'; products_id_seq := seq';
                scraping_sessions := scraping_sessions db |})
  | Err e =>
      (Err e, {| products := products db;
                 products_id_seq := products_id_seq db;
                 scraping_sessions := scraping_sessions db |})
  end.
Proof.
  unfold saveProducts; simpl.
  destruct (upsert (products db) (products_id_seq db)
              (convertToDbProduct p category) now) as [[r s]|e];
    reflexivity.
Qed.




(** A batch whose second record has a price text of 64 characters: the
    first record is not kept. *)
Lemma saveProducts_all_or_nothing_witness :
  exists q e',
    In q [Samples.mouse; Samples.overlongPrice] /\
    coerce (convertToDbProduct q "electronics") = Err e' /\
    fst (saveProducts empty [Samples.mouse; Samples.overlongPrice]
           "electronics" 5) = Err e' /\
    products (snd (saveProducts empty [Samples.mouse; Samples.overlongPrice]
                     "electronics" 5)) = products empty /\
    scraping_sessions
      (snd (saveProducts empty [Samples.mouse; Samples.overlongPrice]
              "electronics" 5)) = scraping_sessions empty.
Proof.
  apply (saveProducts_all_or_nothing empty
           [Samples.mouse; Samples.overlongPrice] "electronics" 5
           Samples.overlongPrice
           (Error "value too long for type character varying")).
  - simpl. auto.
  - reflexivity.
Defined.

(** *** Scenarios of the freshness check *)

(** No row in the category, 24 hours. *)
Example hasFreshData_no_rows :
  hasFreshData (Samples.tableOf [Samples.rowAt "books" 0]) "electronics" 24 1000
  = {| hasFresh := false; count := 0; lastScraped := None |}.
Proof. reflexivity. Qed.

(** A row scraped exactly 24 hours ago is not fresh; one millisecond
    later it is. *)
Example hasFreshData_at_the_threshold :
  hasFresh (hasFreshData (Samples.tableOf [Samples.rowAt "electronics" 0]) "electronics" 24
              (24 * hour_ms)) = false /\
  hasFresh (hasFreshData (Samples.tableOf [Samples.rowAt "electronics" 1]) "electronics" 24
              (24 * hour_ms)) = true.
Proof. split; reflexivity. Qed.

End StoreFacts.


(** ** The fallback chain *)

Module ScraperFacts.
Import Scraper.

Lemma fallbackProducts_length now :
  List.length (fallbackProducts now) = 5%nat.
Proof. reflexivity. Qed.

Lemma slice0_firstn {A} (l : list A) (e : Z) :
  slice0 l e =
  firstn (Z.to_nat (if e <? 0 then Z.max (Z.of_nat (List.length l) + e) 0
                    else Z.min e (Z.of_nat (List.length l)))) l.
Proof. reflexivity. Qed.

Lemma slice0_length {A} (l : list A) (e : Z) :
  Z.of_nat (List.length (slice0 l e)) =
  if e <? 0 then Z.max (Z.of_nat (List.length l) + e) 0
  else Z.min e (Z.of_nat (List.length l)).
Proof.
  unfold slice0. rewrite length_firstn.
  destruct (e <? 0) eqn:E; [apply Z.ltb_lt in E|apply Z.ltb_ge in E]; lia.
Qed.

(** C10, as the code has it.  [getFallbackProducts] never throws and
    returns a prefix of the five fixed records, in their fixed order:
    the first [min(limit, 5)] for a limit that is not negative, and for a
    negative limit all but the last [-limit] of them (none from -5
    down). *)
Theorem getFallbackProducts_prefix now limit :
  let k := if limit <? 0 then Z.max (5 + limit) 0 else Z.min limit 5 in
  exists l,
    getFallbackProducts now limit = Ok l /\
    l = firstn (Z.to_nat k) (fallbackProducts now) /\
    Z.of_nat (List.length l) = k.
Proof.
  cbv zeta. unfold getFallbackProducts.
  eexists; split; [reflexivity|]. split.
  - rewrite slice0_firstn, fallbackProducts_length. reflexivity.
  - rewrite slice0_length, fallbackProducts_length. reflexivity.
Qed.

(** C10 as stated fails for a negative limit: [getFallbackProducts(-1)]
    returns four records, not none. *)
Lemma getFallbackProducts_negative_limit :
  exists l,
    getFallbackProducts 0 (-1) = Ok l /\
    List.length l = 4%nat /\
    Z.of_nat (List.length l) <> Z.min (Z.max (-1) 0) 5.
Proof.
  eexists; split; [reflexivity|]. split; [reflexivity|].
  intros H; vm_compute in H; discriminate H.
Qed.

(** *** The tiers below the browser *)

Lemma scrapeWithHttpOnly_cases response exec now limit :
  match scrapeWithHttpOnly response exec now limit with
  | Ok l => l <> []
  | Err e => response = Err e \/ e <> Undefined
  end.
Proof.
  unfold scrapeWithHttpOnly. destruct response as [html|e]; cbn [Js.bind];
    [|left; reflexivity].
  destruct (try_patterns exec html now limit titlePatterns [] 1)
    as [|p ps]; cbn.
  - right; discriminate.
  - discriminate.
Qed.

Lemma scrapeWithHttpOnly_nonempty response exec now limit l :
  scrapeWithHttpOnly response exec now limit = Ok l -> l <> [].
Proof.
  intros H. pose proof (scrapeWithHttpOnly_cases response exec now limit) as C.
  rewrite H in C. exact C.
Qed.

Lemma getFallbackProducts_nonempty now limit :
  1 <= limit ->
  exists l, getFallbackProducts now limit = Ok l /\ l <> [].
Proof.
  intros H. unfold getFallbackProducts.
  eexists; split; [reflexivity|]. intros E.
  pose proof (slice0_length (fallbackProducts now) limit) as L.
  rewrite E, fallbackProducts_length in L. simpl in L.
  destruct (limit <? 0) eqn:N; [apply Z.ltb_lt in N|]; lia.
Qed.

(** The HTTP tier followed by the static tier: a list that is not empty,
    as long as what the request rejected with is an [Error]. *)
Lemma lower_tiers_nonempty w limit :
  1 <= limit ->
  httpResponse w <> Err Undefined ->
  exists l,
    try_catch
      (scrapeWithHttpOnly (httpResponse w) (regexExec w) (now w) limit)
      (fun httpError =>
         message_of httpError ;;; getFallbackProducts (now w) limit)
    = Ok l /\ l <> [].
Proof.
  intros Hl Hh.
  destruct (scrapeWithHttpOnly (httpResponse w) (regexExec w) (now w) limit)
    as [l|e] eqn:E; simpl.
  - exists l; split; [reflexivity|].
    eapply scrapeWithHttpOnly_nonempty; eauto.
  - assert (He : e <> Undefined).
    { pose proof (scrapeWithHttpOnly_cases (httpResponse w) (regexExec w)
                    (now w) limit) as C.
      rewrite E in C. destruct C as [C|C]; [congruence|exact C]. }
    destruct e as [m|]; [|congruence]. simpl.
    apply getFallbackProducts_nonempty; exact Hl.
Qed.

(** What holds of the chain: with rejections that are [Error] objects
    and a limit of at least one, [getTrendingProducts] returns, and what
    it returns is empty only if the browser tier itself returned an empty
    list. *)
Lemma getTrendingProducts_returns w limit type category :
  1 <= limit ->
  httpResponse w <> Err Undefined ->
  ListMode.scrapeTrendingProducts (createPage w) (metadata w) (now w)
    limit type category <> Err Undefined ->
  exists l,
    getTrendingProducts w limit type category = Ok l /\
    (l = [] ->
     skipBrowser w = false /\
     ListMode.scrapeTrendingProducts (createPage w) (metadata w) (now w)
       limit type category = Ok []).
Proof.
  intros Hl Hh Hb. unfold getTrendingProducts.
  destruct (lower_tiers_nonempty w limit Hl Hh) as (l2 & E2 & N2).
  destruct (skipBrowser w).
  - rewrite E2. exists l2; split; [reflexivity|]. intros; contradiction.
  - destruct (ListMode.scrapeTrendingProducts (createPage w) (metadata w)
                (now w) limit type category) as [l1|e] eqn:E1; simpl.
    + exists l1; split; [reflexivity|]. intros ->; auto.
    + destruct e as [m|]; [|congruence]. simpl.
      rewrite E2. exists l2; split; [reflexivity|]. intros; contradiction.
Qed.

(** C1 fails on the code.  A listing whose candidates have no title under
    any of the title selectors makes the browser tier succeed with no
    record, and [getTrendingProducts] hands that empty list to its
    caller: no later tier is tried. *)
Theorem getTrendingProducts_empty_from_browser_tier :
  ListMode.scrapeTrendingProducts
    (createPage (Samples.worldOf Samples.untitledPage))
    (metadata (Samples.worldOf Samples.untitledPage))
    (now (Samples.worldOf Samples.untitledPage))
    5 "amazon" "electronics" = Ok [] /\
  getTrendingProducts (Samples.worldOf Samples.untitledPage)
    5 "amazon" "electronics" = Ok [].
Proof. split; reflexivity. Qed.

End ScraperFacts.

(** ** Scroll pagination *)

Module EnhancedFacts.
Import Dom Enhanced.

Lemma is_new_iff acc p :
  is_new acc p = true <-> ~ In (Product.title p) (titles acc).
Proof.
  unfold is_new, titles. rewrite negb_true_iff. split.
  - intros H Hin. apply in_map_iff in Hin. destruct Hin as (x & Hx & Hin).
    assert (existsb (fun existing =>
                       String.eqb (Product.title existing) (Product.title p))
              acc = true).
    { apply existsb_exists. exists x. split; [exact Hin|].
      apply String.eqb_eq. exact Hx. }
    congruence.
  - intros H.
    destruct (existsb (fun existing =>
                         String.eqb (Product.title existing) (Product.title p))
                acc) eqn:E; [|reflexivity].
    apply existsb_exists in E. destruct E as (x & Hin & Hx).
    apply String.eqb_eq in Hx. exfalso. apply H.
    apply in_map_iff. exists x. auto.
Qed.

Lemma NoDup_titles_filter f l :
  NoDup (titles l) -> NoDup (titles (filter f l)).
Proof.
  unfold titles. induction l as [|x l IH]; simpl; intros H; [constructor|].
  inversion H as [|? ? Hx Hl]; subst.
  destruct (f x); simpl; [|auto].
  constructor; [|auto].
  intros Hin. apply Hx. apply in_map_iff in Hin.
  destruct Hin as (y & Hy & Hin). apply filter_In in Hin.
  apply in_map_iff. exists y. tauto.
Qed.

(** One merge: what was accumulated, then the records of the view whose
    title is not among them. *)
Lemma merge_keeps_titles_distinct acc current :
  NoDup (titles acc) ->
  NoDup (titles current) ->
  NoDup (titles (acc ++ filter (is_new acc) current)).
Proof.
  intros Ha Hc. unfold titles. rewrite map_app.
  apply NoDup_app; [exact Ha|apply NoDup_titles_filter; exact Hc|].
  intros t Hin Hin'. apply in_map_iff in Hin'.
  destruct Hin' as (p & Hp & Hf). apply filter_In in Hf.
  destruct Hf as [_ Hnew]. apply is_new_iff in Hnew.
  subst t. contradiction.
Qed.

Section Loop.
Variables (page : Page) (now target : Z).

(** One turn of the loop. *)
Lemma scroll_loop_turn remaining attempts acc :
  scroll_loop page now target (S remaining) attempts acc =
  if Z.of_nat (List.length acc) <? target then
    doc <- view page attempts ;;
    let acc' := acc ++ filter (is_new acc) (extractCurrentView now doc) in
    if (target <=? Z.of_nat (List.length acc'))
       || (List.length (filter (is_new acc) (extractCurrentView now doc))
           =? 0)%nat
    then Ok {| allProducts := acc'; scrollAttempts := attempts;
               rounds := S attempts |}
    else
      (if (attempts <? maxScrollAttempts - 1)%nat
       then check (scroll page attempts) else Ok tt) ;;;
      scroll_loop page now target remaining (S attempts) acc'
  else Ok {| allProducts := acc; scrollAttempts := attempts;
             rounds := attempts |}.
Proof. reflexivity. Qed.

(** Take one turn of the loop in [H], leaving the goals of its three
    ways out: the target was already met, this turn ends the loop, or
    the loop goes on (with [H] about the rest of it). *)
Ltac take_turn H doc Hview :=
  rewrite scroll_loop_turn in H;
  destruct (Z.of_nat (List.length _) <? target) eqn:?;
  [ destruct (view page _) as [doc|] eqn:Hview; cbn [Js.bind] in H;
    [ cbv zeta in H;
      destruct ((target <=? _) || _) eqn:?;
      [ | destruct (if (_ <? maxScrollAttempts - 1)%nat
                    then check (scroll page _) else Ok tt);
          cbn [Js.bind] in H; [ | discriminate H ] ]
    | discriminate H ]
  | ].

(** The loop extracts the views from [attempts] on, one per round, and
    never more than it has rounds left. *)
Lemma scroll_loop_rounds_from remaining :
  forall attempts acc c,
    scroll_loop page now target remaining attempts acc = Ok c ->
    (attempts <= rounds c <= attempts + remaining)%nat.
Proof.
  induction remaining as [|r IH]; intros attempts acc c H.
  - inversion H; simpl; lia.
  - take_turn H doc Hv.
    + inversion H; simpl; lia.
    + apply IH in H. lia.
    + inversion H; simpl; lia.
Qed.

(** Records are only ever added, each from the view of its round, and
    only while the target is not met. *)
Lemma scroll_loop_sources remaining :
  forall attempts acc c,
    scroll_loop page now target remaining attempts acc = Ok c ->
    (allProducts c = acc \/ Z.of_nat (List.length acc) < target) /\
    (forall p, In p (allProducts c) ->
               In p acc \/
               exists k doc, (attempts <= k < rounds c)%nat /\
                             view page k = Ok doc /\
                             In p (extractCurrentView now doc)).
Proof.
  induction remaining as [|r IH]; intros attempts acc c H.
  - inversion H; subst; simpl. auto.
  - assert (Hfrom : forall doc p,
               In p (acc ++ filter (is_new acc) (extractCurrentView now doc)) ->
               In p acc \/ In p (extractCurrentView now doc)).
    { intros doc p Hp. apply in_app_or in Hp. destruct Hp as [Hp|Hp]; auto.
      apply filter_In in Hp. tauto. }
    take_turn H doc Hv.
    + inversion H; subst; simpl. split; [right; lia|].
      intros p Hp. destruct (Hfrom doc p Hp) as [Hp'|Hp']; auto.
      right. exists attempts, doc. auto.
    + pose proof (scroll_loop_rounds_from _ _ _ _ H) as Hr.
      apply IH in H. destruct H as [_ Hsrc]. split; [right; lia|].
      intros p Hp. destruct (Hsrc p Hp) as [Hp'|(k & d & Hk & Hd & Hin)].
      * destruct (Hfrom doc p Hp') as [Hp''|Hp'']; auto.
        right. exists attempts, doc. repeat split; auto; lia.
      * right. exists k, d. repeat split; auto; lia.
    + inversion H; subst; simpl. auto.
Qed.

(** Titles stay distinct across rounds, provided no extracted view shows
    a title twice by itself. *)
Lemma scroll_loop_titles_distinct remaining :
  forall attempts acc c,
    scroll_loop page now target remaining attempts acc = Ok c ->
    (forall k doc, (attempts <= k < rounds c)%nat -> view page k = Ok doc ->
                   NoDup (titles (extractCurrentView now doc))) ->
    NoDup (titles acc) ->
    NoDup (titles (allProducts c)).
Proof.
  induction remaining as [|r IH]; intros attempts acc c H Hviews Hnd.
  - inversion H; subst; exact Hnd.
  - take_turn H doc Hv.
    + inversion H; subst; simpl in *.
      apply merge_keeps_titles_distinct; [exact Hnd|].
      apply (Hviews attempts); [lia|exact Hv].
    + pose proof (scroll_loop_rounds_from _ _ _ _ H) as Hr.
      apply IH in H; [exact H| |].
      * intros k d Hk. apply Hviews. lia.
      * apply merge_keeps_titles_distinct; [exact Hnd|].
        apply (Hviews attempts); [lia|exact Hv].
    + inversion H; subst; exact Hnd.
Qed.

End Loop.

Lemma slice0_positive {A} (l : list A) (e : Z) :
  0 < e -> slice0 l e = firstn (Z.to_nat e) l.
Proof.
  intros H. unfold slice0.
  destruct (e <? 0) eqn:E; [apply Z.ltb_lt in E; lia|].
  destruct (Z.le_gt_cases e (Z.of_nat (List.length l))) as [Hle|Hgt].
  - rewrite Z.min_l by exact Hle. reflexivity.
  - rewrite Z.min_r by lia. rewrite Nat2Z.id.
    rewrite firstn_all. symmetry. apply firstn_all2. lia.
Qed.



(** On that listing the call returns the two records, in the order of
    the page. *)
Example two_cards_collected :
  option_map titles
    (match scrapeProductsWithScrolling (Ok Samples.twoCardPage) 0 10
     with Ok l => Some l | Err _ => None end)
  = Some ["Wireless Mouse"; "Mechanical Keyboard"].
Proof. reflexivity. Qed.


(** Titles that repeat within one view are not told apart by the merge:
    both records pass the test against what earlier rounds gathered. *)
Remark one_view_can_repeat_a_title :
  option_map titles
    (match scrapeProductsWithScrolling (Ok Samples.repeatedTitlePage) 0 10
     with Ok l => Some l | Err _ => None end)
  = Some ["Wireless Mouse"; "Wireless Mouse"].
Proof. reflexivity. Qed.

End EnhancedFacts.

(** ** Extraction of candidates *)

Module ExtractionFacts.
Import Dom.

Lemma in_map_indexed {A B} (f : nat -> A -> list B) l :
  forall i y, In y (map_indexed f i l) ->
              exists j x, In x l /\ In y (f j x).
Proof.
  induction l as [|x l IH]; simpl; intros i y H; [contradiction|].
  apply in_app_or in H. destruct H as [H|H].
  - exists i, x. auto.
  - destruct (IH (S i) y H) as (j & x' & Hx & Hy). exists j, x'. auto.
Qed.

Lemma map_indexed_nil {A B} (f : nat -> A -> list B) l :
  (forall j x, In x l -> f j x = []) ->
  forall i, map_indexed f i l = [].
Proof.
  induction l as [|x l IH]; simpl; intros H i; [reflexivity|].
  rewrite (H i x (or_introl eq_refl)). simpl. apply IH.
  intros j y Hy. apply H. right; exact Hy.
Qed.

Lemma list_element_accepted now i e p :
  In p (ListMode.extractElement now i e) ->
  (5 <= String.length (Product.title p))%nat /\
  Product.asin p = Some (ListMode.derive_asin e (ListMode.list_link e)) /\
  ListMode.derive_asin e (ListMode.list_link e) <> "".
Proof.
  unfold ListMode.extractElement, ListMode.list_link.
  destruct (String.eqb _ "" || (String.length _ <? 5)%nat) eqn:T;
    [intros []|].
  apply orb_false_iff in T. destruct T as [_ T].
  apply Nat.ltb_ge in T.
  destruct (String.eqb (ListMode.derive_asin e _) "") eqn:A; [intros []|].
  apply String.eqb_neq in A.
  intros [<-|[]]. simpl. auto.
Qed.

Lemma list_element_without_identifier now i e :
  ListMode.derive_asin e (ListMode.list_link e) = "" ->
  ListMode.extractElement now i e = [].
Proof.
  unfold ListMode.extractElement, ListMode.list_link. intros H.
  destruct (String.eqb _ "" || (String.length _ <? 5)%nat); [reflexivity|].
  rewrite H. reflexivity.
Qed.

Lemma no_identifier_derive e :
  ListMode.no_identifier e -> ListMode.derive_asin e (ListMode.list_link e) = "".
Proof.
  unfold ListMode.no_identifier, ListMode.derive_asin.
  intros [Ha Hl].
  assert (E : (if isHTMLElement e
               then truthy (getAttribute (self e) "data-asin")
               else None) = None).
  { destruct Ha as [->|[->| ->]]; [reflexivity| |];
      destruct (isHTMLElement e); reflexivity. }
  rewrite E. destruct Hl as [->|(u & -> & ->)]; reflexivity.
Qed.

Lemma enhanced_element_accepted now i e p :
  In p (Enhanced.extractElement now i e) ->
  (5 <= String.length (Product.title p))%nat.
Proof.
  unfold Enhanced.extractElement.
  destruct (String.eqb _ "" || (String.length _ <? 5)%nat) eqn:T;
    [intros []|].
  apply orb_false_iff in T. destruct T as [_ T].
  apply Nat.ltb_ge in T.
  intros [<-|[]]. simpl. exact T.
Qed.

Lemma long_title_kept t :
  (5 <= String.length t)%nat ->
  String.eqb t "" || (String.length t <? 5)%nat = false.
Proof.
  intros H. apply orb_false_iff. split.
  - apply String.eqb_neq. intros ->. simpl in H. lia.
  - apply Nat.ltb_ge. exact H.
Qed.



End ExtractionFacts.

(** ** Detail requests and the URL check *)

Module DetailFacts.
Import Detail.

Lemma prefix_iff p : forall s,
  String.prefix p s = true <-> exists r, s = String.append p r.
Proof.
  induction p as [|a p IH]; intros s.
  - destruct s; simpl; split; eauto.
  - destruct s as [|b s]; simpl.
    + split; [discriminate|]. intros (r & H). discriminate H.
    + destruct (ascii_dec a b) as [->|Hne].
      * rewrite IH. split; intros (r & H); exists r; congruence.
      * split; [discriminate|]. intros (r & H). congruence.
Qed.

Lemma includes_step s needle :
  Str.includes s needle =
  if String.prefix needle s then true
  else match s with
       | EmptyString => false
       | String _ s' => Str.includes s' needle
       end.
Proof. destruct s; reflexivity. Qed.

(** [includes] finds exactly the substrings. *)
Lemma includes_iff s needle :
  Str.includes s needle = true <->
  exists before after,
    s = String.append before (String.append needle after).
Proof.
  induction s as [|c s IH]; rewrite includes_step;
    destruct (String.prefix needle _) eqn:P.
  - split; [intros _|reflexivity].
    apply prefix_iff in P. destruct P as (r & P).
    exists "", r. exact P.
  - split; [discriminate|]. intros (b & a & H).
    destruct b; simpl in H; [|discriminate H].
    assert (String.prefix needle "" = true)
      by (apply prefix_iff; eauto).
    congruence.
  - split; [intros _|reflexivity].
    apply prefix_iff in P. destruct P as (r & P).
    exists "", r. exact P.
  - rewrite IH. split.
    + intros (b & a & H). exists (String c b), a. simpl. congruence.
    + intros (b & a & H). destruct b as [|c' b]; simpl in H.
      * assert (String.prefix needle (String c s) = true)
          by (apply prefix_iff; eauto).
        congruence.
      * inversion H; subst. eauto.
Qed.

Lemma isAmazonDomain_iff u :
  isAmazonDomain u = true <->
  exists domain, In domain validDomains /\
                 (hostname u = domain \/
                  hostname u = String.append "www." domain).
Proof.
  unfold isAmazonDomain. rewrite existsb_exists.
  split; intros (d & Hd & H); exists d; split; auto.
  - apply orb_true_iff in H. rewrite !String.eqb_eq in H. exact H.
  - apply orb_true_iff. rewrite !String.eqb_eq. exact H.
Qed.

Lemma hasProductPath_iff u :
  hasProductPath u = true <->
  exists segment before after,
    In segment productSegments /\
    pathname u = String.append before (String.append segment after).
Proof.
  unfold hasProductPath, productSegments.
  rewrite !orb_true_iff, !includes_iff. split.
  - intros [[(b & a & H)|(b & a & H)]|(b & a & H)];
      eexists; exists b, a; (split; [|exact H]); simpl; auto.
  - intros (seg & b & a & [<-|[<-|[<-|[]]]] & H); eauto.
Qed.

(** C8.  [isValidAmazonUrl] accepts a URL exactly when it parses, its
    host is one of the listed domains, bare or behind [www.], and its
    path contains [/dp/], [/gp/product/] or [/product/]; and for every
    URL it does not accept, [scrapeProductDetails] throws
    [Invalid Amazon URL provided] without having made any call on the
    browser. *)
Theorem invalid_target_rejected_first parse url :
  (isValidAmazonUrl parse url = true <->
   exists u,
     parse url = Some u /\
     (exists domain, In domain validDomains /\
                     (hostname u = domain \/
                      hostname u = String.append "www." domain)) /\
     (exists segment before after,
         In segment productSegments /\
         pathname u = String.append before (String.append segment after)))
  /\
  (forall createPage now,
      isValidAmazonUrl parse url = false ->
      scrapeProductDetails parse createPage now url
      = (Err (Error "Invalid Amazon URL provided"), [])).
Proof.
  split.
  - unfold isValidAmazonUrl. destruct (parse url) as [u|].
    + rewrite andb_true_iff, isAmazonDomain_iff, hasProductPath_iff.
      split.
      * intros [Hd Hp]. exists u. auto.
      * intros (u' & Hu & Hd & Hp). inversion Hu; subst. auto.
    + split; [discriminate|]. intros (u & Hu & _). discriminate Hu.
  - intros createPage now H. unfold scrapeProductDetails.
    rewrite H. reflexivity.
Qed.

(** The scenario of the specification: the address
    [https://example.com/not-a-product] is refused before the browser is
    touched, whatever the browser would have done. *)
Example not_a_product_is_refused createPage now :
  scrapeProductDetails Samples.parseExample createPage now
    "https://example.com/not-a-product"
  = (Err (Error "Invalid Amazon URL provided"), []).
Proof. reflexivity. Qed.

End DetailFacts.

(** ** The products route *)

Module ApiFacts.
Import Store Api.

(** Whatever reaches the [catch (scrapingError)] block is answered from
    the rows read before scraping or from the static records, or with a
    500: never with the records of the attempt that failed. *)
Lemma on_scraping_error_answers w db sessionId dbProducts limit e :
  match fst (on_scraping_error w db sessionId dbProducts limit e) with
  | Json200 products _ source _ =>
      (dbProducts <> [] /\ products = dbProducts /\
       source = "PostgreSQL Cache (Fallback) - Scraping failed") \/
      (dbProducts = [] /\
       Scraper.getFallbackProducts (Scraper.now w) limit = Ok products /\
       source = "Static Fallback Data - All other sources failed")
  | Json400 _ _ => False
  | Json500 _ _ => True
  end.
Proof.
  unfold on_scraping_error.
  destruct (Scraper.message_of e) as [msg|]; [|exact I].
  destruct (if String.eqb sessionId "" then (Ok tt, db)
            else updateScrapingSession db sessionId false 0 (Some msg)
                   (Scraper.now w)) as [[u|e'] db1]; [|exact I].
  destruct dbProducts as [|p ps].
  - simpl. right. auto.
  - simpl. left. repeat split. discriminate.
Qed.

(** C6 fails on the code.  The browser tier scrapes one record whose
    rating text is longer than the [rating] column; [saveProducts]
    throws; the route then answers with the static fallback record, and
    the scraped record is gone from the response. *)
Theorem products_route_drops_scraped_records_on_save_failure :
  let w := Samples.worldOf Samples.longRatingPage in
  let scraped :=
    [Product.with_asin
       (Product.basic (RankNumber 1) "Wireless Mouse" "Price not available"
          Samples.longRating None
          (Some "https://www.amazon.com/dp/B08N5WRWNW")
          "Amazon Electronics Best Sellers" (Scraper.now w))
       (Some "B08N5WRWNW")] in
  Scraper.getTrendingProducts w 1 "amazon" "electronics" = Ok scraped /\
  (forall db,
      fst (saveProducts db scraped "electronics" (Scraper.now w))
      = Err (Error "value too long for type character varying")) /\
  fst (getProductsRoute w "3f1c" None Store.empty (Samples.query "1"))
  = Json200 (firstn 1 (Scraper.fallbackProducts (Scraper.now w))) 1
      "Static Fallback Data - All other sources failed"
      "Successfully retrieved 1 products from fallback data".
Proof.
  cbv zeta. split; [reflexivity|]. split; [|reflexivity].
  intros db. reflexivity.
Qed.

End ApiFacts.

(** ** The cache store: reading, cleaning, sessions *)

Module StoreOpsFacts.
Import Store StoreOps.

Lemma in_firstn {A} (n : nat) (l : list A) x :
  In x (firstn n l) -> In x l.
Proof.
  intros H. rewrite <- (firstn_skipn n l). apply in_or_app. left; exact H.
Qed.

(** *** The order of [getProducts] *)

Lemma comes_first_true a b : comes_first a b = true -> row_le a b.
Proof.
  unfold comes_first, row_le. cbv zeta.
  rewrite orb_true_iff, andb_true_iff, Z.ltb_lt, Z.eqb_eq, Z.leb_le. tauto.
Qed.

Lemma comes_first_false a b : comes_first a b = false -> row_le b a.
Proof.
  unfold comes_first, row_le. cbv zeta.
  rewrite orb_false_iff, andb_false_iff, Z.ltb_ge, Z.eqb_neq, Z.leb_gt. lia.
Qed.

Lemma row_le_trans a b c : row_le a b -> row_le b c -> row_le a c.
Proof. unfold row_le. lia. Qed.

Lemma insert_ordered_perm r l : Permutation (insert_ordered r l) (r :: l).
Proof.
  induction l as [|x l IH]; simpl; [reflexivity|].
  destruct (comes_first r x); [reflexivity|].
  rewrite IH. apply perm_swap.
Qed.

Lemma order_rows_perm l : Permutation (order_rows l) l.
Proof.
  unfold order_rows. induction l as [|x l IH]; simpl; [reflexivity|].
  rewrite insert_ordered_perm. constructor. exact IH.
Qed.

Lemma insert_ordered_sorted r l :
  StronglySorted row_le l -> StronglySorted row_le (insert_ordered r l).
Proof.
  induction l as [|x l IH]; simpl; intros S.
  - repeat constructor.
  - inversion S as [|? ? Sl Fx]; subst.
    destruct (comes_first r x) eqn:C.
    + constructor; [exact S|]. constructor.
      * apply comes_first_true; exact C.
      * eapply Forall_impl; [|exact Fx].
        intros y Hy. eapply row_le_trans; [|exact Hy].
        apply comes_first_true; exact C.
    + constructor; [apply IH; exact Sl|].
      eapply Permutation_Forall;
        [symmetry; apply insert_ordered_perm|].
      constructor; [apply comes_first_false; exact C|exact Fx].
Qed.

Lemma order_rows_sorted l : StronglySorted row_le (order_rows l).
Proof.
  unfold order_rows. induction l as [|x l IH]; simpl; [constructor|].
  apply insert_ordered_sorted; exact IH.
Qed.



(** *** Lookup by URL *)

Lemma is_recent_url_iff url maxAgeHours now row :
  is_recent_url url maxAgeHours now row = true <->
  DatabaseProduct.product_url (data row) = Some url /\
  age_ms now row < maxAgeHours * hour_ms.
Proof.
  unfold is_recent_url, age_ms. rewrite andb_true_iff, Z.ltb_lt.
  destruct (DatabaseProduct.product_url (data row)) as [u|]; simpl.
  - rewrite String.eqb_eq. split; intros [H1 H2]; split; try lia; congruence.
  - split; intros [H1 H2]; discriminate H1.
Qed.

Lemma newest_none rows : newest rows = None -> rows = [].
Proof.
  destruct rows as [|row rest]; simpl; [reflexivity|].
  destruct (newest rest) as [best|]; [|discriminate].
  destruct (_ <? _); discriminate.
Qed.

Lemma newest_some rows : forall r,
  newest rows = Some r ->
  In r rows /\
  forall x, In x rows ->
            DatabaseProduct.scraped_at (data x)
            <= DatabaseProduct.scraped_at (data r).
Proof.
  induction rows as [|row rest IH]; simpl; intros r H; [discriminate H|].
  destruct (newest rest) as [best|] eqn:N.
  - destruct (IH best eq_refl) as [Hin Hmax].
    destruct (DatabaseProduct.scraped_at (data row)
              <? DatabaseProduct.scraped_at (data best)) eqn:C;
      inversion H; subst.
    + apply Z.ltb_lt in C. split; [right; exact Hin|].
      intros x [<-|Hx]; [lia|apply Hmax; exact Hx].
    + apply Z.ltb_ge in C. split; [left; reflexivity|].
      intros x [<-|Hx]; [lia|]. specialize (Hmax x Hx). lia.
  - inversion H; subst. apply newest_none in N. subst rest.
    split; [left; reflexivity|]. intros x [<-|[]]. lia.
Qed.

Lemma convertFromDbProduct_link row :
  Product.link (convertFromDbProduct row)
  = DatabaseProduct.product_url (data row).
Proof. reflexivity. Qed.


(** *** From [saveProducts] to [getProductByUrl] *)

Lemma coerce_keeps d d' :
  coerce d = Ok d' ->
  DatabaseProduct.product_url d' = DatabaseProduct.product_url d /\
  DatabaseProduct.scraped_at d' = DatabaseProduct.scraped_at d /\
  DatabaseProduct.title d' = DatabaseProduct.title d /\
  DatabaseProduct.image_url d' = DatabaseProduct.image_url d /\
  DatabaseProduct.rank d' = DatabaseProduct.rank d.
Proof.
  unfold coerce. intros H.
  destruct (match DatabaseProduct.asin d with
            | Some s => s' <- store_varchar 20 s;; Ok (Some s')
            | None => Ok None
            end) as [a|]; cbn [Js.bind] in H; [|discriminate H].
  unfold store_integer in H.
  destruct ((-2147483648 <=? DatabaseProduct.rank d)
            && (DatabaseProduct.rank d <=? 2147483647));
    cbn [Js.bind] in H; [|discriminate H].
  destruct (store_varchar 50 (DatabaseProduct.price d));
    cbn [Js.bind] in H; [|discriminate H].
  destruct (store_varchar 50 (DatabaseProduct.rating d));
    cbn [Js.bind] in H; [|discriminate H].
  destruct (store_varchar 100 (DatabaseProduct.source d));
    cbn [Js.bind] in H; [|discriminate H].
  destruct (store_varchar 50 (DatabaseProduct.category d));
    cbn [Js.bind] in H; [|discriminate H].
  inversion H; subst; simpl. auto.
Qed.

(** What one upsert leaves: a row holding the stored values, and
    otherwise only rows that were there. *)
Lemma upsert_rows rows seq d0 now rows' seq' d :
  upsert rows seq d0 now = Ok (rows', seq') ->
  coerce d0 = Ok d ->
  (exists r, In r rows' /\ data r = d) /\
  (forall r, In r rows' -> In r rows \/ data r = d).
Proof.
  unfold upsert. intros H Hc. rewrite Hc in H. cbn [Js.bind] in H.
  assert (Hins : forall new_id,
             (exists r, In r (insert_row rows new_id d now) /\ data r = d) /\
             (forall r, In r (insert_row rows new_id d now) ->
                        In r rows \/ data r = d)).
  { intros new_id. unfold insert_row. split.
    - eexists. split; [apply in_or_app; right; left; reflexivity|].
      reflexivity.
    - intros r Hr. apply in_app_or in Hr.
      destruct Hr as [Hr|[<-|[]]]; auto. }
  destruct (DatabaseProduct.asin d) as [a|] eqn:Ha.
  - destruct (existsb (has_asin a) rows) eqn:Ex; inversion H; subst;
      [|apply Hins].
    split.
    + apply existsb_exists in Ex. destruct Ex as (x & Hx & Hax).
      exists (overwrite d now x). split; [|reflexivity].
      apply in_map_iff. exists x. rewrite Hax. auto.
    + intros r Hr. apply in_map_iff in Hr. destruct Hr as (x & <- & Hx).
      destruct (has_asin a x); [right; reflexivity|left; exact Hx].
  - inversion H; subst. apply Hins.
Qed.



(** *** Cleaning *)

Lemma filter_length_split {A} (f : A -> bool) (l : list A) :
  (List.length (filter f l) + List.length (filter (fun x => negb (f x)) l)
   = List.length l)%nat.
Proof.
  induction l as [|x l IH]; simpl; [reflexivity|].
  destruct (f x); simpl; lia.
Qed.

Lemma filter_filter_implied {A} (f g : A -> bool) (l : list A) :
  (forall x, f x = true -> g x = true) ->
  filter f (filter g l) = filter f l.
Proof.
  intros H. induction l as [|x l IH]; simpl; [reflexivity|].
  destruct (g x) eqn:G; simpl.
  - destruct (f x); congruence.
  - destruct (f x) eqn:F; [|exact IH].
    apply H in F. congruence.
Qed.

Lemma is_old_iff daysOld now row :
  is_old daysOld now row = true <-> daysOld * day_ms < age_ms now row.
Proof. unfold is_old, age_ms. rewrite Z.ltb_lt. lia. Qed.




(** *** Sessions *)

Lemma store_varchar_short n s :
  (String.length s <= n)%nat -> store_varchar n s = Ok s.
Proof.
  intros H. unfold store_varchar.
  destruct (String.length s <=? n)%nat eqn:E; [reflexivity|].
  apply Nat.leb_gt in E. lia.
Qed.

(** X7.  [createScrapingSession] either appends one open session (started
    at the time of the call, not completed, not successful, nothing
    found) under the id it was given and returns that id, touching nothing
    else and keeping session ids unique, or fails and leaves the database
    as it was. *)
Theorem createScrapingSession_opens_one db sessionId source category now :
  match createScrapingSession db sessionId source category now with
  | (Ok sid, db') =>
      sid = sessionId /\
      products db' = products db /\
      products_id_seq db' = products_id_seq db /\
      (exists s,
          scraping_sessions db' = scraping_sessions db ++ [s] /\
          ScrapingSession.started_at s = now /\
          ScrapingSession.completed_at s = None /\
          ScrapingSession.success s = false /\
          ScrapingSession.products_found s = 0 /\
          ((String.length sessionId <= 50)%nat ->
           ScrapingSession.session_id s = sessionId)) /\
      (unique_sessions db -> unique_sessions db')
  | (Err _, db') => db' = db
  end.
Proof.
  unfold createScrapingSession.
  destruct (store_varchar 50 sessionId) as [i|] eqn:Ei; cbn [Js.bind];
    [|reflexivity].
  destruct (store_varchar 50 source) as [src|]; cbn [Js.bind]; [|reflexivity].
  destruct (store_varchar 50 category) as [c|]; cbn [Js.bind]; [|reflexivity].
  destruct (existsb _ (scraping_sessions db)) eqn:Ex; [reflexivity|].
  simpl. repeat split.
  - eexists. split; [reflexivity|]. simpl. repeat split.
    intros Hlen. rewrite (store_varchar_short _ _ Hlen) in Ei.
    inversion Ei; reflexivity.
  - unfold unique_sessions. simpl. intros U.
    rewrite map_app. simpl. apply NoDup_app; [exact U| |].
    + constructor; [intros []|constructor].
    + intros x Hx [<-|[]].
      apply in_map_iff in Hx. destruct Hx as (y & Hy & Hin).
      assert (existsb (fun x => String.eqb (ScrapingSession.session_id x) i)
                (scraping_sessions db) = true).
      { apply existsb_exists. exists y. split; [exact Hin|].
        apply String.eqb_eq. exact Hy. }
      congruence.
Qed.

(** X8.  [updateScrapingSession] rewrites the outcome of the sessions
    with the given id (success, products found, error message, completion
    time) and of no other; the products, the number of sessions and their
    ids stay; for an id no session has it changes nothing and still
    succeeds. *)
Theorem updateScrapingSession_closes_by_id db sessionId success found msg
        now :
  match updateScrapingSession db sessionId success found msg now with
  | (Ok _, db') =>
      products db' = products db /\
      map ScrapingSession.session_id (scraping_sessions db')
      = map ScrapingSession.session_id (scraping_sessions db) /\
      (forall s', In s' (scraping_sessions db') ->
                  (ScrapingSession.session_id s' = sessionId /\
                   ScrapingSession.completed_at s' = Some now /\
                   ScrapingSession.success s' = success /\
                   ScrapingSession.products_found s' = found /\
                   ScrapingSession.error_message s' = msg) \/
                  (ScrapingSession.session_id s' <> sessionId /\
                   In s' (scraping_sessions db))) /\
      ((forall s, In s (scraping_sessions db) ->
                  ScrapingSession.session_id s <> sessionId) ->
       scraping_sessions db' = scraping_sessions db)
  | (Err _, db') => db' = db
  end.
Proof.
  unfold updateScrapingSession, store_integer.
  destruct ((-2147483648 <=? found) && (found <=? 2147483647));
    [|reflexivity].
  simpl. split; [reflexivity|]. split; [|split].
  - rewrite map_map. apply map_ext. intros x.
    destruct (String.eqb (ScrapingSession.session_id x) sessionId);
      reflexivity.
  - intros s' Hs. apply in_map_iff in Hs. destruct Hs as (x & <- & Hx).
    destruct (String.eqb (ScrapingSession.session_id x) sessionId) eqn:E.
    + left. simpl. apply String.eqb_eq in E. auto.
    + right. apply String.eqb_neq in E. auto.
  - intros Hnone. rewrite <- (map_id (scraping_sessions db)) at 2.
    apply map_ext_in. intros x Hx.
    destruct (String.eqb (ScrapingSession.session_id x) sessionId) eqn:E;
      [|reflexivity].
    apply String.eqb_eq in E. exfalso. exact (Hnone x Hx E).
Qed.

(** *** The primary key *)

Lemma upsert_keyed rows seq d now rows' seq' :
  keyed rows seq ->
  upsert rows seq d now = Ok (rows', seq') ->
  keyed rows' seq' /\ seq <= seq'.
Proof.
  unfold upsert, keyed. intros [Hlt Hnd] H.
  destruct (coerce d) as [d'|]; cbn [Js.bind] in H; [|discriminate H].
  assert (Hins : keyed (insert_row rows seq d' now) (seq + 1)).
  { unfold keyed, insert_row. split.
    - intros row Hr. apply in_app_or in Hr.
      destruct Hr as [Hr|[<-|[]]]; [specialize (Hlt row Hr); lia|simpl; lia].
    - rewrite map_app. simpl. apply NoDup_app; [exact Hnd| |].
      + constructor; [intros []|constructor].
      + intros x Hx [<-|[]]. apply in_map_iff in Hx.
        destruct Hx as (y & Hy & Hin). specialize (Hlt y Hin). lia. }
  assert (Hmap : forall a,
             keyed (map (fun row => if has_asin a row
                                    then overwrite d' now row else row) rows)
                   (seq + 1)).
  { intros a. unfold keyed. split.
    - intros row Hr. apply in_map_iff in Hr. destruct Hr as (x & <- & Hx).
      specialize (Hlt x Hx). destruct (has_asin a x); simpl; lia.
    - rewrite map_map.
      rewrite (map_ext _ id); [exact Hnd|].
      intros x. destruct (has_asin a x); reflexivity. }
  destruct (DatabaseProduct.asin d') as [a|];
    [destruct (existsb (has_asin a) rows)|];
    inversion H; subst; (split; [|lia]);
    [apply Hmap|exact Hins|exact Hins].
Qed.

Lemma save_loop_keyed batch :
  forall category now rows seq n,
    keyed rows seq ->
    match save_loop batch category now rows seq n with
    | (Ok (rows', seq', _), _) => keyed rows' seq' /\ seq <= seq'
    | (Err _, s) => seq <= s
    end.
Proof.
  induction batch as [|p rest IH]; simpl; intros category now rows seq n K.
  - split; [exact K|lia].
  - destruct (upsert rows seq (convertToDbProduct p category) now)
      as [[rows1 seq1]|e] eqn:U; [|lia].
    destruct (upsert_keyed _ _ _ _ _ _ K U) as [K1 Hle].
    specialize (IH category now rows1 seq1 (n + 1) K1).
    destruct (save_loop rest category now rows1 seq1 (n + 1))
      as [[[[rows2 seq2] m]|e] s]; [destruct IH; split; [auto|lia]|lia].
Qed.

(** X9.  [saveProducts] keeps the primary key sound: if every stored
    [id] is below the sequence and no [id] occurs twice, the same holds
    after the call, committed or rolled back, and the sequence never goes
    back. *)
Theorem saveProducts_keeps_ids_fresh db batch category now :
  ids_fresh db ->
  ids_fresh (snd (saveProducts db batch category now)) /\
  products_id_seq db
  <= products_id_seq (snd (saveProducts db batch category now)).
Proof.
  unfold ids_fresh, saveProducts. intros K.
  pose proof (save_loop_keyed batch category now (products db)
                (products_id_seq db) 0 K) as H.
  destruct (save_loop batch category now (products db) (products_id_seq db) 0)
    as [[[[rows' seq'] m]|e] s]; simpl.
  - exact H.
  - destruct K as [Hlt Hnd]. split; [|exact H]. split; [|exact Hnd].
    intros row Hr. specialize (Hlt row Hr). lia.
Qed.

(** Two records saved into the empty database. *)
Lemma saveProducts_keeps_ids_fresh_witness :
  ids_fresh (snd (saveProducts empty [Samples.mouse; Samples.echoDot]
                    "electronics" 5)) /\
  products_id_seq empty
  <= products_id_seq (snd (saveProducts empty [Samples.mouse; Samples.echoDot]
                             "electronics" 5)).
Proof.
  apply (saveProducts_keeps_ids_fresh empty [Samples.mouse; Samples.echoDot]
           "electronics" 5).
  split; [intros row []|constructor].
Defined.

(** *** Statistics *)

Lemma insert_count_perm g l : Permutation (insert_count g l) (g :: l).
Proof.
  induction l as [|x l IH]; simpl; [reflexivity|].
  destruct (cc_count x <? cc_count g); [reflexivity|].
  rewrite IH. apply perm_swap.
Qed.

Lemma sort_counts_perm l : Permutation (fold_right insert_count [] l) l.
Proof.
  induction l as [|x l IH]; simpl; [reflexivity|].
  rewrite insert_count_perm. constructor. exact IH.
Qed.

Lemma insert_count_sorted g l :
  StronglySorted (fun a b => cc_count b <= cc_count a) l ->
  StronglySorted (fun a b => cc_count b <= cc_count a) (insert_count g l).
Proof.
  induction l as [|x l IH]; simpl; intros S.
  - repeat constructor.
  - inversion S as [|? ? Sl Fx]; subst.
    destruct (cc_count x <? cc_count g) eqn:C.
    + apply Z.ltb_lt in C. constructor; [exact S|].
      constructor; [lia|].
      eapply Forall_impl; [|exact Fx]. intros y Hy. simpl in Hy. lia.
    + apply Z.ltb_ge in C. constructor; [apply IH; exact Sl|].
      eapply Permutation_Forall; [symmetry; apply insert_count_perm|].
      constructor; [exact C|exact Fx].
Qed.

Lemma total_count_perm l l' :
  Permutation l l' -> total_count l = total_count l'.
Proof.
  induction 1; simpl; lia.
Qed.

Lemma categories_in rows row :
  In row rows -> In (DatabaseProduct.category (data row)) (categories rows).
Proof.
  induction rows as [|x rest IH]; simpl; intros H; [contradiction|].
  destruct H as [->|H]; [left; reflexivity|].
  destruct (String.eqb (DatabaseProduct.category (data row))
              (DatabaseProduct.category (data x))) eqn:E.
  - apply String.eqb_eq in E. left. congruence.
  - right. apply filter_In. split; [apply IH; exact H|].
    rewrite E. reflexivity.
Qed.

Lemma categories_from rows c :
  In c (categories rows) ->
  exists row, In row rows /\ DatabaseProduct.category (data row) = c.
Proof.
  induction rows as [|x rest IH]; simpl; intros H; [contradiction|].
  destruct H as [<-|H]; [exists x; auto|].
  apply filter_In in H. destruct H as [H _].
  destruct (IH H) as (row & Hr & Hc). exists row. auto.
Qed.

Lemma categories_nodup rows : NoDup (categories rows).
Proof.
  induction rows as [|x rest IH]; simpl; [constructor|].
  constructor; [|apply NoDup_filter; exact IH].
  intros H. apply filter_In in H. destruct H as [_ H].
  rewrite String.eqb_refl in H. discriminate H.
Qed.

Lemma group_count_cons x rest c :
  cc_count (group (x :: rest) c)
  = cc_count (group rest c)
    + (if String.eqb (DatabaseProduct.category (data x)) c then 1 else 0).
Proof.
  unfold group. cbn [cc_count filter]. unfold in_category at 1.
  destruct (String.eqb (DatabaseProduct.category (data x)) c);
    cbn [List.length]; lia.
Qed.

Lemma counts_cons_out x rest l :
  ~ In (DatabaseProduct.category (data x)) l ->
  total_count (map (group (x :: rest)) l)
  = total_count (map (group rest) l).
Proof.
  induction l as [|c l IH]; intros Hn; [reflexivity|].
  cbn [map total_count fold_right]. fold (total_count (map (group (x :: rest)) l)).
  fold (total_count (map (group rest) l)).
  rewrite IH by (intros H; apply Hn; right; exact H).
  rewrite group_count_cons.
  destruct (String.eqb (DatabaseProduct.category (data x)) c) eqn:E; [|lia].
  apply String.eqb_eq in E. exfalso. apply Hn. left. auto.
Qed.

Lemma counts_cons_in x rest l :
  NoDup l -> In (DatabaseProduct.category (data x)) l ->
  total_count (map (group (x :: rest)) l)
  = total_count (map (group rest) l) + 1.
Proof.
  induction l as [|c l IH]; intros Hnd Hx; [contradiction|].
  inversion Hnd as [|? ? Hc Hl]; subst.
  cbn [map total_count fold_right]. fold (total_count (map (group (x :: rest)) l)).
  fold (total_count (map (group rest) l)).
  rewrite group_count_cons.
  destruct (String.eqb (DatabaseProduct.category (data x)) c) eqn:E.
  - apply String.eqb_eq in E. subst c.
    rewrite (counts_cons_out _ _ _ Hc). lia.
  - apply String.eqb_neq in E. destruct Hx as [Hx|Hx]; [congruence|].
    rewrite (IH Hl Hx). lia.
Qed.

(** Counting the rows category by category counts each row once. *)
Lemma counts_cover cs : NoDup cs -> forall rows,
  (forall row, In row rows -> In (DatabaseProduct.category (data row)) cs) ->
  total_count (map (group rows) cs) = Z.of_nat (List.length rows).
Proof.
  intros Hnd rows. induction rows as [|x rest IH]; intros Hin.
  - clear. induction cs as [|c cs IHc]; [reflexivity|].
    cbn [map total_count fold_right]. fold (total_count (map (group []) cs)).
    rewrite IHc. reflexivity.
  - rewrite counts_cons_in;
      [|exact Hnd|apply Hin; left; reflexivity].
    rewrite IH by (intros row Hr; apply Hin; right; exact Hr).
    cbn [List.length]. lia.
Qed.

Lemma insert_session_perm x l : Permutation (insert_session x l) (x :: l).
Proof.
  induction l as [|y l IH]; simpl; [reflexivity|].
  destruct (_ <? _); [reflexivity|]. rewrite IH. apply perm_swap.
Qed.

(** X10.  In [getStats] the per-category counts add up to the total
    number of products; every category with a row appears exactly once,
    with the number of its rows, which is at least one; the categories
    come with the largest count first; and at most ten sessions are
    listed, each one a stored session. *)
Theorem getStats_counts_cover_the_table db :
  let stats := getStats db in
  total_count (categoryCounts stats) = totalProducts stats /\
  NoDup (map cc_category (categoryCounts stats)) /\
  (forall g, In g (categoryCounts stats) ->
             1 <= cc_count g /\
             cc_count g
             = Z.of_nat (List.length
                           (filter (in_category (cc_category g))
                              (products db)))) /\
  (forall row, In row (products db) ->
               exists g, In g (categoryCounts stats) /\
                         cc_category g
                         = DatabaseProduct.category (data row)) /\
  StronglySorted (fun a b => cc_count b <= cc_count a)
                 (categoryCounts stats) /\
  (List.length (recentSessions stats) <= 10)%nat /\
  (forall s, In s (recentSessions stats) -> In s (scraping_sessions db)).
Proof.
  cbv zeta. unfold getStats.
  cbn [totalProducts categoryCounts recentSessions].
  set (rows := products db).
  pose proof (sort_counts_perm (map (group rows) (categories rows))) as P.
  split; [|split; [|split; [|split; [|split; [|split]]]]].
  - rewrite (total_count_perm _ _ P).
    apply counts_cover; [apply categories_nodup|apply categories_in].
  - eapply Permutation_NoDup; [symmetry; apply Permutation_map; exact P|].
    rewrite map_map. simpl. rewrite map_id. apply categories_nodup.
  - intros g Hg. apply (Permutation_in _ P) in Hg.
    apply in_map_iff in Hg. destruct Hg as (c & <- & Hc). simpl.
    split; [|reflexivity].
    destruct (categories_from _ _ Hc) as (row & Hr & Hrc).
    assert (In row (filter (in_category c) rows)).
    { apply filter_In. split; [exact Hr|]. unfold in_category.
      apply String.eqb_eq. exact Hrc. }
    destruct (filter (in_category c) rows); [contradiction|]. simpl. lia.
  - intros row Hr. exists (group rows (DatabaseProduct.category (data row))).
    split; [|reflexivity].
    apply (Permutation_in _ (Permutation_sym P)).
    apply in_map. apply categories_in. exact Hr.
  - induction (map (group rows) (categories rows)) as [|x l IH]; simpl;
      [constructor|].
    apply insert_count_sorted. apply IH.
    apply sort_counts_perm.
  - apply firstn_le_length.
  - intros s Hs. apply in_firstn in Hs.
    assert (Q : forall l, Permutation (fold_right insert_session [] l) l).
    { induction l as [|x l IH]; simpl; [reflexivity|].
      rewrite insert_session_perm. constructor. exact IH. }
    apply (Permutation_in _ (Q _)) in Hs. exact Hs.
Qed.

(** *** One identifier, one category *)

Lemma coerce_category_of d d' :
  coerce d = Ok d' ->
  store_varchar 50 (DatabaseProduct.category d)
  = Ok (DatabaseProduct.category d').
Proof.
  unfold coerce. intros H.
  destruct (match DatabaseProduct.asin d with
            | Some s => s' <- store_varchar 20 s;; Ok (Some s')
            | None => Ok None
            end) as [o|]; cbn [Js.bind] in H; [|discriminate H].
  destruct (store_integer (DatabaseProduct.rank d)); cbn [Js.bind] in H;
    [|discriminate H].
  destruct (store_varchar 50 (DatabaseProduct.price d));
    cbn [Js.bind] in H; [|discriminate H].
  destruct (store_varchar 50 (DatabaseProduct.rating d));
    cbn [Js.bind] in H; [|discriminate H].
  destruct (store_varchar 100 (DatabaseProduct.source d));
    cbn [Js.bind] in H; [|discriminate H].
  destruct (store_varchar 50 (DatabaseProduct.category d));
    cbn [Js.bind] in H; [|discriminate H].
  inversion H; subst. reflexivity.
Qed.

(** After an upsert every row under the identifier of the stored values
    holds exactly those values. *)
Lemma upsert_owns_identifier rows seq d0 now rows' seq' d a :
  upsert rows seq d0 now = Ok (rows', seq') ->
  coerce d0 = Ok d ->
  DatabaseProduct.asin d = Some a ->
  forall r, In r rows' -> DatabaseProduct.asin (data r) = Some a ->
            data r = d.
Proof.
  unfold upsert. intros H Hc Ha. rewrite Hc in H. cbn [Js.bind] in H.
  rewrite Ha in H.
  destruct (existsb (has_asin a) rows) eqn:Ex; inversion H; subst; clear H;
    intros r Hr Hra.
  - apply in_map_iff in Hr. destruct Hr as (x & <- & Hx).
    destruct (has_asin a x) eqn:Hx'; [reflexivity|].
    exfalso.
    assert (has_asin a x = true) by (apply StoreFacts.has_asin_iff; exact Hra).
    congruence.
  - unfold insert_row in Hr. apply in_app_or in Hr.
    destruct Hr as [Hr|[<-|[]]]; [|reflexivity].
    exfalso.
    assert (existsb (has_asin a) rows = true).
    { apply existsb_exists. exists r. split; [exact Hr|].
      apply StoreFacts.has_asin_iff. exact Hra. }
    congruence.
Qed.

Lemma save_loop_keeps_category batch :
  forall category now rows seq n rows' seq' n' s a c,
    store_varchar 50 category = Ok c ->
    save_loop batch category now rows seq n = (Ok (rows', seq', n'), s) ->
    (forall r, In r rows -> DatabaseProduct.asin (data r) = Some a ->
               DatabaseProduct.category (data r) = c) ->
    forall r, In r rows' -> DatabaseProduct.asin (data r) = Some a ->
              DatabaseProduct.category (data r) = c.
Proof.
  induction batch as [|x rest IH];
    intros category now rows seq n rows' seq' n' s a c Hc H Hq.
  - cbn in H. inversion H; subst. exact Hq.
  - cbn [save_loop] in H.
    destruct (upsert rows seq (convertToDbProduct x category) now)
      as [[r1 s1]|e1] eqn:U; [|discriminate H].
    eapply IH; [exact Hc|exact H|].
    intros r Hr Hra.
    destruct (coerce (convertToDbProduct x category)) as [d|e] eqn:C;
      [|unfold upsert in U; rewrite C in U; discriminate U].
    destruct (upsert_rows _ _ _ _ _ _ _ U C) as [_ Hfrom].
    destruct (Hfrom r Hr) as [Hin|Hd]; [apply Hq; assumption|].
    rewrite Hd. pose proof (coerce_category_of _ _ C) as Hcat.
    cbn [DatabaseProduct.category convertToDbProduct] in Hcat.
    congruence.
Qed.

Lemma save_loop_moves_identifier batch :
  forall category now rows seq n rows' seq' n' s p d a,
    save_loop batch category now rows seq n = (Ok (rows', seq', n'), s) ->
    In p batch ->
    coerce (convertToDbProduct p category) = Ok d ->
    DatabaseProduct.asin d = Some a ->
    forall r, In r rows' -> DatabaseProduct.asin (data r) = Some a ->
              DatabaseProduct.category (data r) = DatabaseProduct.category d.
Proof.
  induction batch as [|x rest IH];
    intros category now rows seq n rows' seq' n' s p d a H Hp Hc Ha;
    [destruct Hp|].
  cbn [save_loop] in H.
  destruct (upsert rows seq (convertToDbProduct x category) now)
    as [[r1 s1]|e1] eqn:U; [|discriminate H].
  destruct Hp as [->|Hp]; [|eapply IH; eauto].
  pose proof (coerce_category_of _ _ Hc) as Hcat.
  cbn [DatabaseProduct.category convertToDbProduct] in Hcat.
  eapply save_loop_keeps_category; [exact Hcat|exact H|].
  intros r Hr Hra.
  rewrite (upsert_owns_identifier _ _ _ _ _ _ _ _ U Hc Ha r Hr Hra).
  reflexivity.
Qed.

(** X24.  An identifier lives in one category only: once a batch has
    been committed, every row under the identifier of one of its records
    is in the category the batch was saved under, whatever category it
    was in before; so a read of any other category no longer returns a
    product with that identifier. *)
Theorem saved_identifiers_leave_their_old_category
    db batch category t n db' p d a :
  saveProducts db batch category t = (Ok n, db') ->
  In p batch ->
  coerce (convertToDbProduct p category) = Ok d ->
  DatabaseProduct.asin d = Some a ->
  (forall r, In r (products db') ->
             DatabaseProduct.asin (data r) = Some a ->
             DatabaseProduct.category (data r) = DatabaseProduct.category d)
  /\
  (forall other limit maxAgeHours now l,
      other <> DatabaseProduct.category d ->
      getProducts db' limit other maxAgeHours now = Ok l ->
      forall q, In q l -> Product.asin q <> Some a).
Proof.
  intros H Hp Hc Ha.
  assert (Hrows : forall r, In r (products db') ->
                    DatabaseProduct.asin (data r) = Some a ->
                    DatabaseProduct.category (data r)
                    = DatabaseProduct.category d).
  { unfold saveProducts in H.
    destruct (save_loop batch category t (products db) (products_id_seq db) 0)
      as [[[[rows' seq'] m]|e] s] eqn:E; [|discriminate H].
    inversion H; subst. cbn [products].
    eapply save_loop_moves_identifier; eauto. }
  split; [exact Hrows|].
  intros other limit maxAgeHours now l Hother G q Hq Hqa.
  unfold getProducts in G. destruct (limit <? 0); [discriminate G|].
  inversion G; subst l. clear G.
  apply in_map_iff in Hq. destruct Hq as (r & <- & Hr).
  apply in_firstn in Hr.
  apply (Permutation_in _ (order_rows_perm _)) in Hr.
  apply filter_In in Hr. destruct Hr as [Hin Hrec].
  apply StoreFacts.is_recent_iff in Hrec. destruct Hrec as [Hcat _].
  unfold convertFromDbProduct in Hqa. cbn [Product.asin Product.with_asin] in Hqa.
  destruct (DatabaseProduct.asin (data r)) as [a'|] eqn:Hra;
    [|discriminate Hqa].
  unfold or_undefined in Hqa. destruct (String.eqb a' ""); [discriminate Hqa|].
  inversion Hqa; subst a'.
  apply Hother. rewrite <- Hcat. apply Hrows; assumption.
Qed.

Lemma saved_identifiers_leave_their_old_category_witness :
  let db1 := snd (saveProducts empty [Samples.mouse] "electronics" 5) in
  let db2 := snd (saveProducts db1 [Samples.mouse] "product-details" 9) in
  (forall r, In r (products db2) ->
             DatabaseProduct.asin (data r) = Some "B08N5WRWNW" ->
             DatabaseProduct.category (data r) = "product-details") /\
  getProducts db1 10 "electronics" 24 9
  = Ok [convertFromDbProduct
          {| id := 1; data := convertToDbProduct Samples.mouse "electronics";
             created_at := 5; updated_at := 5 |}] /\
  getProducts db2 10 "electronics" 24 9 = Ok [].
Proof.
  cbv zeta. split; [|split; reflexivity].
  destruct (saved_identifiers_leave_their_old_category
              (snd (saveProducts empty [Samples.mouse] "electronics" 5))
              [Samples.mouse] "product-details" 9 _ _ Samples.mouse
              _ "B08N5WRWNW" eq_refl (or_introl eq_refl) eq_refl eq_refl)
    as [H _].
  exact H.
Defined.

End StoreOpsFacts.

(** ** The tiers of the fallback chain *)

Module TierFacts.
Import Dom Scraper.

Lemma nth_error_snoc {A} (l : list A) (x : A) k y :
  nth_error (l ++ [x]) k = Some y ->
  nth_error l k = Some y \/ (k = List.length l /\ y = x).
Proof.
  intros H. destruct (Nat.lt_ge_cases k (List.length l)) as [Hk|Hk].
  - rewrite nth_error_app1 in H by exact Hk. auto.
  - rewrite nth_error_app2 in H by exact Hk.
    destruct (k - List.length l)%nat as [|n] eqn:E; simpl in H.
    + inversion H. right. split; [lia|reflexivity].
    + destruct n; discriminate H.
Qed.

(** What one pattern's matches leave: the records stay numbered by their
    position, within the limit, with acceptable and distinct titles, and
    every new one is a trimmed capture. *)
Lemma scan_keeps now limit captures :
  forall products rank products' rank',
    scan now limit captures products rank = (products', rank') ->
    rank = Z.of_nat (List.length products) + 1 ->
    Z.of_nat (List.length products) <= Z.max 0 limit ->
    NoDup (map Product.title products) ->
    (forall k p, nth_error products k = Some p ->
       acceptable (Product.title p) = true /\
       p = Product.basic (RankNumber (Z.of_nat k + 1)) (Product.title p)
             "Price not available" "N/A" None None
             "Amazon Best Sellers (HTTP)" now) ->
    rank' = Z.of_nat (List.length products') + 1 /\
    Z.of_nat (List.length products') <= Z.max 0 limit /\
    NoDup (map Product.title products') /\
    (forall k p, nth_error products' k = Some p ->
       acceptable (Product.title p) = true /\
       p = Product.basic (RankNumber (Z.of_nat k + 1)) (Product.title p)
             "Price not available" "N/A" None None
             "Amazon Best Sellers (HTTP)" now) /\
    (forall p, In p products' ->
       In p products \/
       exists c, In c captures /\ Product.title p = Str.trim c).
Proof.
  induction captures as [|c rest IH];
    intros products rank products' rank' H Hr Hl Hnd Hrec.
  - inversion H; subst. auto 6.
  - cbn [scan] in H.
    destruct (rank <=? limit) eqn:Hle;
      [apply Z.leb_le in Hle|inversion H; subst; auto 6].
    destruct (acceptable (Str.trim c)
              && negb (existsb (fun p => String.eqb (Product.title p)
                                           (Str.trim c)) products)) eqn:Hok.
    + apply andb_true_iff in Hok. destruct Hok as [Hacc Hnew].
      apply negb_true_iff in Hnew.
      apply IH in H.
      * destruct H as (H1 & H2 & H3 & H4 & H5).
        split; [exact H1|]. split; [exact H2|].
        split; [exact H3|]. split; [exact H4|].
        intros p Hp. destruct (H5 p Hp) as [Hin|(c' & Hc' & Ht)].
        -- apply in_app_or in Hin. destruct Hin as [Hin|[<-|[]]]; auto.
           right. exists c. split; [left; reflexivity|reflexivity].
        -- right. exists c'. split; [right; exact Hc'|exact Ht].
      * rewrite length_app. cbn [List.length]. lia.
      * rewrite length_app. cbn [List.length]. lia.
      * rewrite map_app. cbn [map Product.title Product.basic].
        apply NoDup_app; [exact Hnd|repeat constructor; intros []|].
        intros t Hin [<-|[]]. apply in_map_iff in Hin.
        destruct Hin as (q & Hp & Hin).
        assert (existsb (fun p => String.eqb (Product.title p) (Str.trim c))
                  products = true).
        { apply existsb_exists. exists q. split; [exact Hin|].
          apply String.eqb_eq. exact Hp. }
        congruence.
      * intros k p Hk. apply nth_error_snoc in Hk.
        destruct Hk as [Hk|[-> ->]]; [apply Hrec; exact Hk|].
        cbn [Product.title Product.basic]. split; [exact Hacc|].
        f_equal. f_equal. lia.
    + apply IH in H; auto.
      destruct H as (H1 & H2 & H3 & H4 & H5).
      split; [exact H1|]. split; [exact H2|].
      split; [exact H3|]. split; [exact H4|].
      intros p Hp. destruct (H5 p Hp) as [Hin|(c' & Hc' & Ht)]; auto.
      right. exists c'. split; [right; exact Hc'|exact Ht].
Qed.

Lemma try_patterns_keeps exec html now limit patterns :
  forall rank l,
    try_patterns exec html now limit patterns [] rank = l ->
    rank = 1 ->
    Z.of_nat (List.length l) <= Z.max 0 limit /\
    NoDup (map Product.title l) /\
    (forall k p, nth_error l k = Some p ->
       acceptable (Product.title p) = true /\
       p = Product.basic (RankNumber (Z.of_nat k + 1)) (Product.title p)
             "Price not available" "N/A" None None
             "Amazon Best Sellers (HTTP)" now) /\
    (l = [] \/
     exists pattern, In pattern patterns /\
       forall p, In p l ->
         exists c, In c (exec pattern html) /\ Product.title p = Str.trim c).
Proof.
  induction patterns as [|pattern rest IH]; intros rank l H Hr.
  - cbn in H. subst l. cbn [List.length map].
    split; [lia|]. split; [constructor|].
    split; [intros [|k] p Hk; discriminate Hk|left; reflexivity].
  - cbn [try_patterns] in H.
    destruct (scan now limit (exec pattern html) [] rank)
      as [products' rank'] eqn:Hscan.
    apply scan_keeps in Hscan;
      [|subst rank; reflexivity|cbn; lia|constructor
       |intros [|k] p Hk; discriminate Hk].
    destruct Hscan as (H1 & H2 & H3 & H4 & H5).
    destruct products' as [|q qs].
    + cbn [List.length Nat.ltb Nat.leb] in H.
      apply IH in H; [|cbn in H1; lia].
      destruct H as (A & B & C & D).
      split; [exact A|]. split; [exact B|]. split; [exact C|].
      destruct D as [D|(pt & Hpt & D)]; [left; exact D|].
      right. exists pt. split; [right; exact Hpt|exact D].
    + cbn in H. subst l.
      split; [exact H2|]. split; [exact H3|]. split; [exact H4|].
      right. exists pattern. split; [left; reflexivity|].
      intros p Hp. destruct (H5 p Hp) as [[]|Hc]. exact Hc.
Qed.

(** X11.  What the HTTP tier returns is never empty and never longer
    than the limit; its titles are distinct and pass the title test; the
    record at position [k] has rank [k + 1] and the fixed price, rating,
    source and absent image and link; and all titles are trimmed captures
    of one and the same pattern. *)
Theorem scrapeWithHttpOnly_records response exec now limit l :
  scrapeWithHttpOnly response exec now limit = Ok l ->
  l <> [] /\
  Z.of_nat (List.length l) <= limit /\
  NoDup (map Product.title l) /\
  (forall k p, nth_error l k = Some p ->
     acceptable (Product.title p) = true /\
     p = Product.basic (RankNumber (Z.of_nat k + 1)) (Product.title p)
           "Price not available" "N/A" None None
           "Amazon Best Sellers (HTTP)" now) /\
  exists html pattern,
    response = Ok html /\ In pattern titlePatterns /\
    forall p, In p l ->
      exists c, In c (exec pattern html) /\ Product.title p = Str.trim c.
Proof.
  unfold scrapeWithHttpOnly. destruct response as [html|e]; cbn [Js.bind];
    [|discriminate].
  destruct (try_patterns exec html now limit titlePatterns [] 1)
    as [|q qs] eqn:E; cbn; [discriminate|].
  intros H. inversion H; subst l. clear H.
  apply try_patterns_keeps in E; [|reflexivity].
  destruct E as (A & B & C & [D|(pt & Hpt & D)]); [discriminate D|].
  split; [discriminate|]. split.
  { cbn [List.length] in A |- *. lia. }
  split; [exact B|]. split; [exact C|].
  exists html, pt. auto.
Qed.

Lemma scrapeWithHttpOnly_records_witness :
  exists l,
    scrapeWithHttpOnly (Ok "<html>") Scenarios.threeSpans 7 5 = Ok l /\
    map Product.title l = ["Wireless Mouse Pro"; "Mechanical Keyboard"] /\
    NoDup (map Product.title l) /\
    Z.of_nat (List.length l) <= 5.
Proof.
  eexists. split; [reflexivity|]. split; [reflexivity|].
  destruct (scrapeWithHttpOnly_records (Ok "<html>") Scenarios.threeSpans
              7 5 _ eq_refl) as (_ & Hlen & Hnd & _).
  split; [exact Hnd|exact Hlen].
Defined.

(** *** The candidate elements *)

Lemma includes_app l1 l2 e :
  includes (l1 ++ l2) e = includes l1 e || includes l2 e.
Proof. unfold includes. apply existsb_app. Qed.

Lemma includes_self l e : In e l -> includes l e = true.
Proof.
  intros H. unfold includes. apply existsb_exists.
  exists e. split; [exact H|apply Nat.eqb_refl].
Qed.

Lemma includes_ident l e :
  includes l e = true <-> In (ident e) (map ident l).
Proof.
  unfold includes. rewrite existsb_exists. split.
  - intros (x & Hx & E). apply Nat.eqb_eq in E. rewrite <- E.
    apply in_map. exact Hx.
  - intros H. apply in_map_iff in H. destruct H as (x & E & Hx).
    exists x. split; [exact Hx|apply Nat.eqb_eq; exact E].
Qed.

(** Pushing what is missing appends, in order, the first occurrence of
    every element not yet included. *)
Lemma push_missing_appends extra : forall found,
  exists added,
    push_missing found extra = found ++ added /\
    NoDup (map ident added) /\
    (forall e, In e added -> In e extra /\ includes found e = false) /\
    (forall e, In e extra -> includes (found ++ added) e = true).
Proof.
  unfold push_missing.
  induction extra as [|x xs IH]; intros found; cbn [fold_left].
  - exists []. rewrite app_nil_r. split; [reflexivity|].
    split; [constructor|]. split; intros e [].
  - destruct (includes found x) eqn:Hx.
    + destruct (IH found) as (added & E & Hnd & Hnew & Hall).
      exists added. split; [exact E|]. split; [exact Hnd|]. split.
      * intros e He. destruct (Hnew e He). split; [right|]; assumption.
      * intros e [<-|He]; [|apply Hall; exact He].
        rewrite includes_app, Hx. reflexivity.
    + destruct (IH (found ++ [x])) as (added & E & Hnd & Hnew & Hall).
      exists (x :: added). rewrite E, <- app_assoc. split; [reflexivity|].
      split.
      * cbn [map]. constructor; [|exact Hnd].
        intros Hin. apply in_map_iff in Hin. destruct Hin as (e & Ee & He).
        destruct (Hnew e He) as [_ Hf].
        rewrite includes_app in Hf. apply orb_false_iff in Hf.
        destruct Hf as [_ Hf]. unfold includes in Hf. cbn in Hf.
        rewrite Ee, Nat.eqb_refl in Hf. discriminate Hf.
      * split.
        -- intros e [<-|He]; [split; [left; reflexivity|exact Hx]|].
           destruct (Hnew e He) as [Hin Hf]. split; [right; exact Hin|].
           rewrite includes_app in Hf. apply orb_false_iff in Hf. tauto.
        -- intros e He. rewrite <- app_assoc in Hall. cbn [app] in Hall.
           destruct He as [<-|He]; [|apply Hall; exact He].
           apply includes_self. apply in_or_app. right. left. reflexivity.
Qed.

(** X13.  The candidates of a view are the elements of the specific card
    followed by elements that were not among them, each once: none when
    the card gave ten or more; otherwise every generic [[data-asin]]
    element is covered, and every best-seller element too when card and
    generic elements together are fewer than five.  Nothing else is ever
    a candidate. *)
Theorem productElements_cascade doc :
  let card := match cardRows doc with
              | Some rows => List.concat rows
              | None => []
              end in
  exists extra,
    productElements doc = card ++ extra /\
    NoDup (map ident extra) /\
    (forall e, In e extra ->
       includes card e = false /\
       (In e (withDataAsin doc) \/ In e (bestSellerCards doc))) /\
    ((10 <= List.length card)%nat -> extra = []) /\
    ((List.length card < 10)%nat ->
     forall e, In e (withDataAsin doc) ->
               includes (productElements doc) e = true) /\
    ((List.length card + List.length (withDataAsin doc) < 5)%nat ->
     forall e, In e (bestSellerCards doc) ->
               includes (productElements doc) e = true).
Proof.
  cbv zeta. unfold productElements.
  set (card := match cardRows doc with
               | Some rows => List.concat rows
               | None => []
               end).
  destruct (List.length card <? 10)%nat eqn:H10.
  - apply Nat.ltb_lt in H10.
    destruct (push_missing_appends (withDataAsin doc) card)
      as (a2 & E2 & Hnd2 & Hnew2 & Hall2).
    rewrite E2.
    destruct (List.length (card ++ a2) <? 5)%nat eqn:H5.
    + apply Nat.ltb_lt in H5.
      destruct (push_missing_appends (bestSellerCards doc) (card ++ a2))
        as (a3 & E3 & Hnd3 & Hnew3 & Hall3).
      rewrite E3, <- app_assoc. exists (a2 ++ a3).
      split; [reflexivity|]. split.
      * rewrite map_app. apply NoDup_app; [exact Hnd2|exact Hnd3|].
        intros i Hi2 Hi3. apply in_map_iff in Hi3.
        destruct Hi3 as (e & Ee & He). destruct (Hnew3 e He) as [_ Hf].
        rewrite includes_app in Hf. apply orb_false_iff in Hf.
        destruct Hf as [_ Hf].
        assert (includes a2 e = true)
          by (apply includes_ident; rewrite Ee; exact Hi2).
        congruence.
      * split.
        -- intros e He. apply in_app_or in He. destruct He as [He|He].
           ++ destruct (Hnew2 e He). auto.
           ++ destruct (Hnew3 e He) as [Hin Hf]. split; [|right; exact Hin].
              rewrite includes_app in Hf. apply orb_false_iff in Hf. tauto.
        -- split; [lia|]. split.
           ++ intros _ e He. rewrite app_assoc, includes_app, (Hall2 e He).
              reflexivity.
           ++ intros _ e He. rewrite app_assoc. apply Hall3. exact He.
    + apply Nat.ltb_ge in H5. exists a2. split; [reflexivity|].
      split; [exact Hnd2|]. split.
      * intros e He. destruct (Hnew2 e He). auto.
      * split; [lia|]. split; [intros _; exact Hall2|].
        intros Hlt. exfalso.
        assert (List.length a2 <= List.length (withDataAsin doc))%nat.
        { rewrite <- (length_map ident a2),
                  <- (length_map ident (withDataAsin doc)).
          apply NoDup_incl_length; [exact Hnd2|].
          intros i Hi. apply in_map_iff in Hi. destruct Hi as (e & <- & He).
          apply in_map. apply Hnew2. exact He. }
        rewrite length_app in H5. lia.
  - apply Nat.ltb_ge in H10.
    assert (H5 : (List.length card <? 5)%nat = false)
      by (apply Nat.ltb_ge; lia).
    rewrite H5. exists []. rewrite app_nil_r. split; [reflexivity|].
    split; [constructor|]. split; [intros e []|].
    split; [reflexivity|]. split; intros; lia.
Qed.

(** *** The browser tier *)

Lemma nth_map_indexed {A B} (f : nat -> A -> list B) l :
  forall i y, In y (map_indexed f i l) ->
              exists j x, nth_error l j = Some x /\ In y (f (i + j)%nat x).
Proof.
  induction l as [|x l IH]; cbn [map_indexed]; intros i y H;
    [contradiction|].
  apply in_app_or in H. destruct H as [H|H].
  - exists 0%nat, x. rewrite Nat.add_0_r. auto.
  - destruct (IH (S i) y H) as (j & x' & Hx & Hy).
    exists (S j), x'. rewrite Nat.add_succ_r. auto.
Qed.

Lemma list_scroll_loop_turn page now target remaining attempts acc :
  ListMode.scroll_loop page now target (S remaining) attempts acc =
  if Z.of_nat (List.length acc) <? target then
    doc <- view page attempts ;;
    check (scroll page attempts) ;;;
    ListMode.scroll_loop page now target remaining (S attempts)
      (acc ++ ListMode.extractCurrentView now doc)
  else Ok (acc, attempts).
Proof. reflexivity. Qed.

(** The loop appends whole views, one per round, starting from the
    round it is at, and runs only while the target is not met. *)
Lemma list_scroll_loop_sources page now target remaining :
  forall attempts acc r,
    ListMode.scroll_loop page now target remaining attempts acc = Ok r ->
    (fst r = acc \/ Z.of_nat (List.length acc) < target) /\
    (forall p, In p (fst r) ->
       In p acc \/
       exists k doc, (attempts <= k < attempts + remaining)%nat /\
                     view page k = Ok doc /\
                     In p (ListMode.extractCurrentView now doc)).
Proof.
  induction remaining as [|n IH]; intros attempts acc r H.
  - inversion H; subst. cbn [fst]. auto.
  - rewrite list_scroll_loop_turn in H.
    destruct (Z.of_nat (List.length acc) <? target) eqn:T;
      [apply Z.ltb_lt in T|inversion H; subst; cbn [fst]; auto].
    destruct (view page attempts) as [doc|e] eqn:V; cbn [Js.bind] in H;
      [|discriminate H].
    destruct (check (scroll page attempts)); cbn [Js.bind] in H;
      [|discriminate H].
    apply IH in H. destruct H as [_ H]. split; [right; exact T|].
    intros p Hp. destruct (H p Hp) as [Hin|(k & d & Hk & Hd & Hin)].
    + apply in_app_or in Hin. destruct Hin as [Hin|Hin]; [left; exact Hin|].
      right. exists attempts, doc. split; [lia|]. auto.
    + right. exists k, d. split; [lia|]. auto.
Qed.

Lemma browser_tier_unfold createPage metadata now limit type category l :
  ListMode.scrapeTrendingProducts createPage metadata now limit type category
  = Ok l ->
  exists page r,
    createPage = Ok page /\
    ListMode.scroll_loop page now (math_min limit 50)
      ListMode.maxScrollAttempts 0 [] = Ok r /\
    l = slice0 (map (ListMode.relabel category) (fst r)) limit.
Proof.
  unfold ListMode.scrapeTrendingProducts.
  destruct createPage as [page|e]; cbn [Js.bind]; [|discriminate].
  destruct (ListMode.getScrapingUrl metadata type category) as [u|e];
    cbn [Js.bind]; [|discriminate].
  destruct (check (goto page u)); cbn [Js.bind]; [|discriminate].
  destruct (check (waitForSelector page)); cbn [Js.bind]; [|discriminate].
  destruct (ListMode.scroll_loop page now (math_min limit 50)
              ListMode.maxScrollAttempts 0 []) as [r|e] eqn:E;
    cbn [Js.bind]; [|discriminate].
  intros H. inversion H. exists page, r. auto.
Qed.

Lemma browser_tier_length createPage metadata now limit type category l :
  ListMode.scrapeTrendingProducts createPage metadata now limit type category
  = Ok l ->
  Z.of_nat (List.length l) <= Z.max 0 limit.
Proof.
  intros H. apply browser_tier_unfold in H.
  destruct H as (page & r & _ & E & ->).
  apply list_scroll_loop_sources in E. destruct E as [Hacc _].
  rewrite ScraperFacts.slice0_length, length_map.
  destruct (limit <? 0) eqn:N; [apply Z.ltb_lt in N|lia].
  destruct Hacc as [->|Hacc]; [cbn; lia|].
  cbn in Hacc. unfold math_min in Hacc. lia.
Qed.

Lemma list_element_stamp now j e q :
  In q (ListMode.extractElement now j e) ->
  Product.rank q = RankNumber (Z.of_nat j + 1) /\
  Product.scrapedAt q = now.
Proof.
  unfold ListMode.extractElement. intros H.
  destruct (String.eqb _ "" || (String.length _ <? 5)%nat); [destruct H|].
  destruct (String.eqb (ListMode.derive_asin e _) ""); [destruct H|].
  destruct H as [<-|[]]. split; reflexivity.
Qed.

(** Every record of the browser tier has the label of the category and
    the time of the call. *)
Lemma browser_records_plain createPage metadata now limit type category l p :
  ListMode.scrapeTrendingProducts createPage metadata now limit type category
  = Ok l ->
  In p l ->
  Product.source p
  = String.append "Amazon "
      (String.append (Str.capitalize category) " Best Sellers") /\
  Product.scrapedAt p = now.
Proof.
  intros H Hp. apply browser_tier_unfold in H.
  destruct H as (page & r & _ & E & ->).
  unfold slice0 in Hp. apply StoreOpsFacts.in_firstn in Hp.
  apply in_map_iff in Hp. destruct Hp as (q & <- & Hq).
  split; [reflexivity|].
  apply list_scroll_loop_sources in E. destruct E as [_ Hsrc].
  destruct (Hsrc q Hq) as [[]|(k & doc & _ & _ & Hin)].
  unfold ListMode.extractCurrentView in Hin.
  apply nth_map_indexed in Hin. destruct Hin as (j & e & _ & Hj).
  apply list_element_stamp in Hj. destruct Hj as [_ Hj]. exact Hj.
Qed.

Lemma http_tier_unfold response exec now limit l :
  scrapeWithHttpOnly response exec now limit = Ok l ->
  exists html,
    response = Ok html /\ l <> [] /\
    try_patterns exec html now limit titlePatterns [] 1 = l.
Proof.
  unfold scrapeWithHttpOnly. destruct response as [html|e]; cbn [Js.bind];
    [|discriminate].
  destruct (try_patterns exec html now limit titlePatterns [] 1)
    as [|q qs] eqn:E; cbn [List.length Nat.ltb Nat.leb]; [discriminate|].
  intros H. inversion H; subst l. exists html.
  split; [reflexivity|]. split; [discriminate|exact E].
Qed.

Lemma http_tier_length response exec now limit l :
  scrapeWithHttpOnly response exec now limit = Ok l ->
  1 <= Z.of_nat (List.length l) <= limit.
Proof.
  intros H. apply http_tier_unfold in H. destruct H as (html & _ & Hne & E).
  apply try_patterns_keeps in E; [|reflexivity].
  destruct E as (A & _). destruct l; [congruence|].
  cbn [List.length] in *. lia.
Qed.

Lemma http_records_plain response exec now limit l p :
  scrapeWithHttpOnly response exec now limit = Ok l ->
  In p l ->
  Product.source p = "Amazon Best Sellers (HTTP)" /\
  Product.link p = None /\
  Product.scrapedAt p = now.
Proof.
  intros H Hp. apply http_tier_unfold in H. destruct H as (html & _ & _ & E).
  apply try_patterns_keeps in E; [|reflexivity].
  destruct E as (_ & _ & Hrec & _).
  apply In_nth_error in Hp. destruct Hp as (k & Hk).
  destruct (Hrec k p Hk) as [_ ->]. repeat split; reflexivity.
Qed.

Lemma fallback_records_plain now limit l p :
  getFallbackProducts now limit = Ok l ->
  In p l ->
  Product.source p = fallbackSource /\
  Product.link p = None /\
  Product.scrapedAt p = now.
Proof.
  unfold getFallbackProducts. intros H Hp.
  inversion H; subst l. unfold slice0 in Hp.
  apply StoreOpsFacts.in_firstn in Hp. unfold fallbackProducts in Hp.
  cbn [In] in Hp.
  destruct Hp as [<-|[<-|[<-|[<-|[<-|[]]]]]]; repeat split; reflexivity.
Qed.



(** *** The chain *)

Lemma caught_with_message {A} (e : Thrown) (k : Result A) l :
  (message_of e ;;; k) = Ok l -> (exists m, e = Error m) /\ k = Ok l.
Proof.
  destruct e as [m|]; cbn [message_of Js.bind]; [|discriminate].
  intros H. split; [exists m; reflexivity|exact H].
Qed.

Lemma fallback_length now limit l :
  getFallbackProducts now limit = Ok l ->
  1 <= limit -> Z.of_nat (List.length l) <= limit.
Proof.
  unfold getFallbackProducts. intros H Hl. inversion H; subst l.
  rewrite ScraperFacts.slice0_length.
  destruct (limit <? 0) eqn:N; [apply Z.ltb_lt in N|]; lia.
Qed.

(** What the chain returns comes from exactly one tier, the first that
    did not fail. *)
Lemma getTrendingProducts_tier w limit type category l :
  getTrendingProducts w limit type category = Ok l ->
  (skipBrowser w = false /\
   ListMode.scrapeTrendingProducts (createPage w) (metadata w) (now w)
     limit type category = Ok l)
  \/
  ((skipBrowser w = true \/
    exists m, ListMode.scrapeTrendingProducts (createPage w) (metadata w)
                (now w) limit type category = Err (Error m)) /\
   scrapeWithHttpOnly (httpResponse w) (regexExec w) (now w) limit = Ok l)
  \/
  ((skipBrowser w = true \/
    exists m, ListMode.scrapeTrendingProducts (createPage w) (metadata w)
                (now w) limit type category = Err (Error m)) /\
   (exists m, scrapeWithHttpOnly (httpResponse w) (regexExec w) (now w)
                limit = Err (Error m)) /\
   getFallbackProducts (now w) limit = Ok l).
Proof.
  unfold getTrendingProducts. intros H.
  assert (Hlow : forall reached : Prop, reached ->
            try_catch
              (scrapeWithHttpOnly (httpResponse w) (regexExec w) (now w)
                 limit)
              (fun httpError =>
                 message_of httpError ;;; getFallbackProducts (now w) limit)
            = Ok l ->
            (reached /\
             scrapeWithHttpOnly (httpResponse w) (regexExec w) (now w) limit
             = Ok l) \/
            (reached /\
             (exists m, scrapeWithHttpOnly (httpResponse w) (regexExec w)
                          (now w) limit = Err (Error m)) /\
             getFallbackProducts (now w) limit = Ok l)).
  { intros reached Hr Hc.
    destruct (scrapeWithHttpOnly (httpResponse w) (regexExec w) (now w)
                limit) as [l2|e2]; cbn [try_catch] in Hc.
    - left. split; [exact Hr|exact Hc].
    - apply caught_with_message in Hc. destruct Hc as [(m & ->) Hc].
      right. split; [exact Hr|]. split; [exists m; reflexivity|exact Hc]. }
  destruct (skipBrowser w).
  - right. apply Hlow; [left; reflexivity|exact H].
  - destruct (ListMode.scrapeTrendingProducts (createPage w) (metadata w)
                (now w) limit type category) as [l1|e1];
      cbn [try_catch] in H.
    + left. split; [reflexivity|exact H].
    + apply caught_with_message in H. destruct H as [(m & ->) H].
      right. apply Hlow; [right; exists m; reflexivity|exact H].
Qed.

Lemma getTrendingProducts_length w limit type category l :
  getTrendingProducts w limit type category = Ok l ->
  1 <= limit -> Z.of_nat (List.length l) <= limit.
Proof.
  intros H Hl. apply getTrendingProducts_tier in H.
  destruct H as [[_ Hb]|[[_ Hh]|(_ & _ & Hf)]].
  - pose proof (browser_tier_length _ _ _ _ _ _ _ Hb). lia.
  - pose proof (http_tier_length _ _ _ _ _ Hh). lia.
  - eapply fallback_length; eauto.
Qed.

Lemma getTrendingProducts_stamp w limit type category l p :
  getTrendingProducts w limit type category = Ok l ->
  In p l -> Product.scrapedAt p = now w.
Proof.
  intros H Hp. apply getTrendingProducts_tier in H.
  destruct H as [[_ Hb]|[[_ Hh]|(_ & _ & Hf)]].
  - eapply browser_records_plain; eauto.
  - eapply http_records_plain; eauto.
  - eapply fallback_records_plain; eauto.
Qed.

Lemma getTrendingProducts_length_any w limit type category l :
  getTrendingProducts w limit type category = Ok l ->
  Z.of_nat (List.length l) <= Z.max limit 4.
Proof.
  intros H. apply getTrendingProducts_tier in H.
  destruct H as [[_ Hb]|[[_ Hh]|(_ & _ & Hf)]].
  - pose proof (browser_tier_length _ _ _ _ _ _ _ Hb). lia.
  - pose proof (http_tier_length _ _ _ _ _ Hh). lia.
  - unfold getFallbackProducts in Hf. inversion Hf; subst l.
    rewrite ScraperFacts.slice0_length, ScraperFacts.fallbackProducts_length.
    destruct (limit <? 0) eqn:N; [apply Z.ltb_lt in N|apply Z.ltb_ge in N];
      lia.
Qed.

(** The chain only ever throws an [Error]. *)
Lemma getTrendingProducts_throws_error w limit type category e :
  getTrendingProducts w limit type category = Err e ->
  exists m, e = Error m.
Proof.
  unfold getTrendingProducts.
  assert (Hcaught : forall (e0 : Thrown) (k : Result (list Product.t)),
             (k = Err e -> exists m, e = Error m) ->
             (message_of e0 ;;; k) = Err e -> exists m, e = Error m).
  { intros e0 k Hk. destruct e0 as [m|]; cbn [message_of Js.bind].
    - exact Hk.
    - intros H. inversion H. eauto. }
  assert (Hlow : try_catch
                   (scrapeWithHttpOnly (httpResponse w) (regexExec w) (now w)
                      limit)
                   (fun httpError =>
                      message_of httpError ;;;
                      getFallbackProducts (now w) limit)
                 = Err e -> exists m, e = Error m).
  { destruct (scrapeWithHttpOnly (httpResponse w) (regexExec w) (now w)
                limit) as [l2|e2]; cbn [try_catch]; [discriminate|].
    apply Hcaught. intros H. discriminate H. }
  destruct (skipBrowser w); [exact Hlow|].
  destruct (ListMode.scrapeTrendingProducts (createPage w) (metadata w)
              (now w) limit type category) as [l1|e1];
    cbn [try_catch]; [discriminate|].
  apply Hcaught. exact Hlow.
Qed.



End TierFacts.

(** ** From the scrapers to the store *)

Module PipelineFacts.
Import Dom Store.

Lemma substring_all s : String.substring 0 (String.length s) s = s.
Proof. induction s; simpl; congruence. Qed.

Lemma after_first_skip c s sep :
  String.prefix sep (String c s) = false ->
  Str.after_first (String c s) sep = Str.after_first s sep.
Proof. intros H. cbn [Str.after_first]. rewrite H. reflexivity. Qed.

Lemma includes_skip c s sep :
  String.prefix sep (String c s) = false ->
  Str.includes (String c s) sep = Str.includes s sep.
Proof. intros H. cbn [Str.includes]. rewrite H. reflexivity. Qed.

Lemma includes_false_here s sep :
  Str.includes s sep = false -> String.prefix sep s = false.
Proof.
  rewrite DetailFacts.includes_step.
  destruct (String.prefix sep s); [discriminate|reflexivity].
Qed.

Lemma before_first_all s sep :
  Str.includes s sep = false -> Str.before_first s sep = s.
Proof.
  induction s as [|c s IH]; intros H.
  - cbn. destruct sep; reflexivity.
  - pose proof (includes_false_here _ _ H) as P.
    rewrite includes_skip in H by exact P.
    cbn [Str.before_first]. rewrite P, (IH H). reflexivity.
Qed.

Lemma take_exact_length n : forall s t,
  Str.take_exact n s = Some t -> String.length t = n.
Proof.
  induction n as [|n IH]; intros s t H; cbn [Str.take_exact] in H.
  - inversion H. reflexivity.
  - destruct s as [|c s]; [discriminate H|].
    destruct (Str.take_exact n s) as [t'|] eqn:E; [|discriminate H].
    inversion H. cbn. f_equal. eapply IH. exact E.
Qed.

(** A match of [/dp/] and ten identifier characters: the capture is not
    empty and the string contains [/dp/]. *)
Lemma match_dp_some s : forall a,
  Str.match_dp s = Some a -> a <> "" /\ Str.includes s "/dp/" = true.
Proof.
  induction s as [|c s IH]; intros a H.
  - cbn in H. discriminate H.
  - cbn [Str.match_dp] in H.
    destruct (Str.dp_here (String c s)) as [t|] eqn:D.
    + inversion H; subst t. unfold Str.dp_here in D.
      destruct (String.prefix "/dp/" (String c s)) eqn:P; [|discriminate D].
      split.
      * destruct (Str.take_exact 10 _) as [t|] eqn:T; [|discriminate D].
        apply take_exact_length in T.
        destruct (Str.forallb Str.asin_char t); [|discriminate D].
        inversion D; subst. intros ->. discriminate T.
      * rewrite DetailFacts.includes_step, P. reflexivity.
    + destruct (IH a H) as [Ha Hi]. split; [exact Ha|].
      rewrite DetailFacts.includes_step, Hi.
      destruct (String.prefix "/dp/" (String c s)); reflexivity.
Qed.

(** A source without the [ASIN:] tag: the identifier is the one of the
    link, if the link has one. *)
Lemma untagged_source_asin p category :
  Str.includes (Product.source p) "ASIN:" = false ->
  DatabaseProduct.asin (convertToDbProduct p category)
  = match Product.link p with
    | Some u => Str.match_dp u
    | None => None
    end.
Proof.
  intros H. unfold convertToDbProduct. cbn [DatabaseProduct.asin].
  unfold extract_asin. rewrite H.
  destruct (Product.link p) as [u|]; [|reflexivity].
  destruct (Str.match_dp u) as [a|] eqn:M.
  - destruct (match_dp_some _ _ M) as [Ha Hi]. rewrite Hi.
    unfold or_undefined. apply String.eqb_neq in Ha. rewrite Ha. reflexivity.
  - destruct (Str.includes u "/dp/"); reflexivity.
Qed.

(** A source that ends in [ASIN: ] and an identifier: the stored
    identifier is that identifier, trimmed. *)
Lemma tagged_source_asin p category pre a :
  Str.after_first (Product.source p) "ASIN:" = Some (String " " a) ->
  Product.source p = String.append pre (String.append "ASIN:" (String " " a)) ->
  Str.includes a "ASIN:" = false ->
  DatabaseProduct.asin (convertToDbProduct p category)
  = or_undefined (Str.trim a).
Proof.
  intros Hafter Hsrc Ha. unfold convertToDbProduct.
  cbn [DatabaseProduct.asin]. unfold extract_asin.
  assert (Hinc : Str.includes (Product.source p) "ASIN:" = true).
  { apply DetailFacts.includes_iff. exists pre, (String " " a). exact Hsrc. }
  rewrite Hinc. unfold Str.split_second. rewrite Hafter.
  cbn [Str.before_first String.prefix]. 
  replace (String.prefix "ASIN:" (String " " a)) with false by reflexivity.
  rewrite (before_first_all _ _ Ha). reflexivity.
Qed.

(** *** The scrolling extraction *)

Lemma enhanced_tag rank title price rating image link a now category :
  Str.includes a "ASIN:" = false ->
  DatabaseProduct.asin
    (convertToDbProduct
       (Product.basic rank title price rating image link
          (String.append "Amazon Best Sellers (Electronics) - ASIN: " a) now)
       category)
  = or_undefined (Str.trim a).
Proof.
  intros Ha.
  apply tagged_source_asin
    with (pre := "Amazon Best Sellers (Electronics) - ");
    [|reflexivity|exact Ha].
  cbn [Product.source Product.basic String.append].
  repeat (rewrite after_first_skip by reflexivity).
  cbn [Str.after_first]. simpl. rewrite substring_all. reflexivity.
Qed.



(** *** The browser tier *)

Lemma prefix_before_blank n : forall s tail,
  Str.forallb (fun c => negb (Ascii.eqb c " ")) n = true ->
  String.prefix n (String.append s (String " " tail)) = true ->
  String.prefix n s = true.
Proof.
  induction n as [|a n IH]; intros s tail Hn H.
  - destruct s; reflexivity.
  - cbn [Str.forallb] in Hn. apply andb_true_iff in Hn.
    destruct Hn as [Ha Hn]. apply negb_true_iff in Ha.
    destruct s as [|b s]; cbn [String.append String.prefix] in H |- *.
    + destruct (ascii_dec a " ") as [->|]; [discriminate Ha|discriminate H].
    + destruct (ascii_dec a b); [|discriminate H].
      eapply IH; eauto.
Qed.

Lemma includes_before_blank n s tail :
  Str.forallb (fun c => negb (Ascii.eqb c " ")) n = true ->
  Str.includes (String " " tail) n = false ->
  Str.includes s n = false ->
  Str.includes (String.append s (String " " tail)) n = false.
Proof.
  intros Hn Htail. induction s as [|c s IH]; intros H; [exact Htail|].
  pose proof (includes_false_here _ _ H) as P.
  rewrite includes_skip in H by exact P.
  cbn [String.append]. rewrite includes_skip; [apply IH; exact H|].
  destruct (String.prefix n (String c (String.append s (String " " tail))))
    eqn:Q; [|reflexivity].
  apply (prefix_before_blank n (String c s) tail Hn) in Q. congruence.
Qed.

(** The label the browser tier gives has the tag only if the category
    has it. *)
Lemma label_untagged category :
  Str.includes (Str.capitalize category) "ASIN:" = false ->
  Str.includes
    (String.append "Amazon "
       (String.append (Str.capitalize category) " Best Sellers")) "ASIN:"
  = false.
Proof.
  intros H. cbn [String.append].
  repeat (rewrite includes_skip by reflexivity).
  apply includes_before_blank; [reflexivity|reflexivity|exact H].
Qed.

(** X15.  A record of the browser tier is stored under the identifier in
    its link, [/dp/] and ten capitals or digits, and under [NULL] when
    the link has none or there is no link: the identifier the record
    itself carries, which may come from [data-asin], is not what is
    stored. *)
Theorem browser_record_stored_asin
    createPage metadata now limit type category l p saveAs :
  ListMode.scrapeTrendingProducts createPage metadata now limit type category
  = Ok l ->
  In p l ->
  Str.includes (Str.capitalize category) "ASIN:" = false ->
  DatabaseProduct.asin (convertToDbProduct p saveAs)
  = match Product.link p with
    | Some u => Str.match_dp u
    | None => None
    end.
Proof.
  intros H Hp Hc.
  destruct (TierFacts.browser_records_plain _ _ _ _ _ _ _ _ H Hp)
    as [Hs _].
  apply untagged_source_asin. rewrite Hs.
  apply label_untagged. exact Hc.
Qed.

Lemma browser_record_stored_asin_witness :
  exists p,
    ListMode.scrapeTrendingProducts (Ok Scenarios.unlinkedPage) (Ok []) 0 1
      "amazon" "electronics" = Ok [p] /\
    Product.asin p = Some " B08N5WRWNW " /\
    DatabaseProduct.asin (convertToDbProduct p "electronics") = None.
Proof.
  eexists. split; [reflexivity|]. split; [reflexivity|].
  rewrite (browser_record_stored_asin (Ok Scenarios.unlinkedPage) (Ok []) 0 1
             "amazon" "electronics" _ _ "electronics" eq_refl
             (or_introl eq_refl) eq_refl).
  reflexivity.
Defined.

(** *** The tiers without a browser *)

Lemma coerce_null d d' :
  coerce d = Ok d' ->
  DatabaseProduct.asin d = None ->
  DatabaseProduct.asin d' = None.
Proof.
  unfold coerce. intros H Hn. rewrite Hn in H. cbn [Js.bind] in H.
  destruct (store_integer (DatabaseProduct.rank d)); cbn [Js.bind] in H;
    [|discriminate H].
  destruct (store_varchar 50 (DatabaseProduct.price d));
    cbn [Js.bind] in H; [|discriminate H].
  destruct (store_varchar 50 (DatabaseProduct.rating d));
    cbn [Js.bind] in H; [|discriminate H].
  destruct (store_varchar 100 (DatabaseProduct.source d));
    cbn [Js.bind] in H; [|discriminate H].
  destruct (store_varchar 50 (DatabaseProduct.category d));
    cbn [Js.bind] in H; [|discriminate H].
  inversion H; subst. reflexivity.
Qed.

(** A batch of records without identifier only ever appends rows, one
    per record, in the order of the batch. *)
Lemma save_loop_appends batch :
  forall category now rows seq n rows' seq' n' s,
    (forall p, In p batch ->
               DatabaseProduct.asin (convertToDbProduct p category) = None) ->
    save_loop batch category now rows seq n = (Ok (rows', seq', n'), s) ->
    exists added,
      rows' = rows ++ added /\
      (forall r, In r added -> DatabaseProduct.asin (data r) = None) /\
      map (fun r => DatabaseProduct.title (data r)) added
      = map Product.title batch.
Proof.
  induction batch as [|x rest IH];
    intros category now rows seq n rows' seq' n' s Hnull H.
  - cbn in H. inversion H; subst. exists []. rewrite app_nil_r.
    split; [reflexivity|]. split; [intros r []|reflexivity].
  - cbn [save_loop] in H.
    destruct (upsert rows seq (convertToDbProduct x category) now)
      as [[r1 s1]|e1] eqn:U; [|discriminate H].
    apply IH in H; [|intros p Hp; apply Hnull; right; exact Hp].
    destruct H as (added & -> & Hn & Ht).
    unfold upsert in U.
    destruct (coerce (convertToDbProduct x category)) as [d|e] eqn:C;
      cbn [Js.bind] in U; [|discriminate U].
    pose proof (coerce_null _ _ C (Hnull x (or_introl eq_refl))) as Hd.
    rewrite Hd in U. inversion U; subst. unfold insert_row.
    exists ({| id := seq; data := d; created_at := now;
               updated_at := now |} :: added).
    rewrite <- app_assoc. split; [reflexivity|]. split.
    + intros r [<-|Hr]; [exact Hd|apply Hn; exact Hr].
    + cbn [map data]. rewrite Ht. f_equal.
      destruct (StoreOpsFacts.coerce_keeps _ _ C) as (_ & _ & Htitle & _).
      rewrite Htitle. reflexivity.
Qed.

(** X16.  Records of the HTTP tier and of the static tier have no
    identifier to be stored under, so saving them never updates a row:
    when the batch commits, the table is what it was followed by one new
    row per record, in the order of the batch. *)
Theorem lower_tier_records_always_insert
    response exec now limit l db category t n db' :
  Scraper.scrapeWithHttpOnly response exec now limit = Ok l \/
  Scraper.getFallbackProducts now limit = Ok l ->
  saveProducts db l category t = (Ok n, db') ->
  exists added,
    products db' = products db ++ added /\
    n = Z.of_nat (List.length added) /\
    (forall r, In r added -> DatabaseProduct.asin (data r) = None) /\
    map (fun r => DatabaseProduct.title (data r)) added
    = map Product.title l.
Proof.
  intros Htier Hsave.
  assert (Hnull : forall p, In p l ->
             DatabaseProduct.asin (convertToDbProduct p category) = None).
  { intros p Hp.
    assert (Hplain : Str.includes (Product.source p) "ASIN:" = false /\
                     Product.link p = None).
    { destruct Htier as [H|H].
      - destruct (TierFacts.http_records_plain _ _ _ _ _ _ H Hp)
          as (-> & -> & _). split; reflexivity.
      - destruct (TierFacts.fallback_records_plain _ _ _ _ H Hp)
          as (-> & -> & _). split; reflexivity. }
    destruct Hplain as [Hs Hl].
    rewrite (untagged_source_asin _ _ Hs), Hl. reflexivity. }
  unfold saveProducts in Hsave.
  destruct (save_loop l category t (products db) (products_id_seq db) 0)
    as [[[[rows' seq'] m]|e] s] eqn:E; [|discriminate Hsave].
  inversion Hsave; subst. cbn [products].
  pose proof (StoreFacts.save_loop_count _ _ _ _ _ _ _ _ _ _ E) as Hcount.
  apply save_loop_appends in E; [|exact Hnull].
  destruct E as (added & -> & Hn & Ht). exists added.
  split; [reflexivity|]. split.
  - rewrite Hcount. rewrite <- (length_map Product.title l), <- Ht.
    rewrite length_map. lia.
  - split; [exact Hn|exact Ht].
Qed.

Lemma lower_tier_records_always_insert_witness :
  exists l n db' added,
    Scraper.getFallbackProducts 0 2 = Ok l /\
    saveProducts (Samples.tableOf [Samples.rowAt "electronics" 0]) l
      "electronics" 5 = (Ok n, db') /\
    products db' = [Samples.rowAt "electronics" 0] ++ added /\
    n = Z.of_nat (List.length added) /\
    (forall r, In r added -> DatabaseProduct.asin (data r) = None) /\
    map (fun r => DatabaseProduct.title (data r)) added
    = map Product.title l.
Proof.
  eexists. eexists. eexists.
  destruct (lower_tier_records_always_insert
              (Err Undefined) (fun _ _ => []) 0 2 _
              (Samples.tableOf [Samples.rowAt "electronics" 0])
              "electronics" 5 _ _ (or_intror eq_refl) eq_refl)
    as (added & H1 & H2 & H3 & H4).
  exists added. split; [reflexivity|]. split; [reflexivity|].
  split; [exact H1|]. split; [exact H2|]. split; [exact H3|exact H4].
Defined.

(** *** Detail extraction *)

(** X17.  A product of detail extraction is stored under the identifier
    found on the page, trimmed; when the page gave none it is stored
    under the identifier in the requested address, if that has one,
    although the product itself then carries no identifier. *)
Theorem detail_record_stored_asin parse createPage now url p category :
  fst (Detail.scrapeProductDetails parse createPage now url) = Ok p ->
  exists page doc,
    createPage = Ok page /\ detail page = Ok doc /\
    p = Detail.toProduct url now (Detail.extractDetails doc) /\
    (Detail.asin (Detail.extractDetails doc) = "" ->
     Product.asin p = None /\
     DatabaseProduct.asin (convertToDbProduct p category)
     = Str.match_dp url) /\
    (Detail.asin (Detail.extractDetails doc) <> "" ->
     Str.includes (Detail.asin (Detail.extractDetails doc)) "ASIN:" = false ->
     Product.asin p = Some (Detail.asin (Detail.extractDetails doc)) /\
     DatabaseProduct.asin (convertToDbProduct p category)
     = or_undefined (Str.trim (Detail.asin (Detail.extractDetails doc)))).
Proof.
  unfold Detail.scrapeProductDetails.
  destruct (negb (Detail.isValidAmazonUrl parse url)); [discriminate|].
  destruct createPage as [page|e]; [|discriminate].
  destruct (goto page url); [discriminate|].
  destruct (detail page) as [doc|e] eqn:D; [|discriminate].
  cbn [fst].
  destruct (String.eqb _ "" || (String.length _ <? 5)%nat); [discriminate|].
  intros H. inversion H; subst p. clear H.
  exists page, doc. split; [reflexivity|]. split; [exact D|].
  split; [reflexivity|]. split.
  - intros Ha. unfold Detail.toProduct. cbn [Product.asin].
    rewrite Ha. split; [reflexivity|].
    rewrite untagged_source_asin; reflexivity.
  - intros Hne Hin. apply String.eqb_neq in Hne.
    unfold Detail.toProduct. cbn [Product.asin].
    unfold Detail.nonempty. rewrite Hne. split; [reflexivity|].
    apply tagged_source_asin with (pre := "Amazon Product Detail - ");
      [|reflexivity|exact Hin].
    cbn [Product.source String.append].
    repeat (rewrite after_first_skip by reflexivity).
    cbn [Str.after_first]. simpl. rewrite substring_all. reflexivity.
Qed.

Lemma detail_record_stored_asin_witness :
  exists p,
    fst (Detail.scrapeProductDetails Samples.parseExample
           (Ok Scenarios.detailPage) 0
           "https://www.amazon.com/dp/B08N5WRWNW") = Ok p /\
    Product.asin p = None /\
    DatabaseProduct.asin (convertToDbProduct p "product-details")
    = Some "B08N5WRWNW".
Proof.
  eexists. split; [reflexivity|].
  destruct (detail_record_stored_asin Samples.parseExample
              (Ok Scenarios.detailPage) 0
              "https://www.amazon.com/dp/B08N5WRWNW" _ "product-details"
              eq_refl)
    as (page & doc & Hp & Hd & _ & Hnone & _).
  inversion Hp; subst page. cbn in Hd. inversion Hd; subst doc.
  destruct (Hnone eq_refl) as [H1 H2]. split; [exact H1|].
  rewrite H2. reflexivity.
Defined.

End PipelineFacts.

(** ** Detail extraction *)

Module DetailOutcome.
Import Dom Detail.

Lemma nonempty_some s t : nonempty s = Some t -> t = s /\ t <> "".
Proof.
  unfold nonempty. destruct (String.eqb s "") eqn:E; [discriminate|].
  intros H. inversion H; subst. split; [reflexivity|].
  apply String.eqb_neq. exact E.
Qed.

Lemma or_else_nonempty s d : d <> "" -> or_else (nonempty s) d <> "".
Proof.
  intros Hd. unfold nonempty.
  destruct (String.eqb s "") eqn:E; cbn [or_else]; [exact Hd|].
  apply String.eqb_neq. exact E.
Qed.

(** X18.  A product returned by detail extraction has the requested
    address as its link, rank [1], a title of five characters or more,
    an image, and a price and a rating that are never empty; each
    optional field is absent or not empty; and its features, when
    present, are between one and five texts of more than ten characters
    without [Make sure]. *)
Theorem scrapeProductDetails_product parse createPage now url p :
  fst (scrapeProductDetails parse createPage now url) = Ok p ->
  isValidAmazonUrl parse url = true /\
  Product.link p = Some url /\
  Product.rank p = RankString "1" /\
  Product.scrapedAt p = now /\
  (5 <= String.length (Product.title p))%nat /\
  Product.price p <> "" /\ Product.rating p <> "" /\
  (exists i, Product.image p = Some i /\ i <> "") /\
  Product.asin p <> Some "" /\
  Product.availability p <> Some "" /\
  Product.reviewCount p <> Some "" /\
  Product.brand p <> Some "" /\
  match Product.features p with
  | None => True
  | Some fs =>
      (1 <= List.length fs <= 5)%nat /\
      forall f, In f fs ->
                (10 < String.length f)%nat /\
                Str.includes f "Make sure" = false
  end.
Proof.
  unfold scrapeProductDetails.
  destruct (isValidAmazonUrl parse url); cbn [negb]; [|discriminate].
  destruct createPage as [page|e]; [|discriminate].
  destruct (goto page url); [discriminate|].
  destruct (detail page) as [doc|e]; [|discriminate].
  cbn [fst].
  destruct (String.eqb _ "" || (String.length _ <? 5)%nat) eqn:T;
    [discriminate|].
  apply orb_false_iff in T. destruct T as [_ T]. apply Nat.ltb_ge in T.
  intros H. inversion H; subst p. clear H.
  unfold toProduct.
  cbn [Product.link Product.rank Product.scrapedAt Product.title
       Product.price Product.rating Product.image Product.asin
       Product.availability Product.reviewCount Product.brand
       Product.features].
  assert (Hopt : forall s, nonempty s <> Some "").
  { intros s Hs. apply nonempty_some in Hs. destruct Hs as [_ Hs].
    apply Hs. reflexivity. }
  repeat (split; [solve [reflexivity | exact T | apply Hopt
                        | apply or_else_nonempty; discriminate]|]).
  split.
  { eexists. split; [reflexivity|]. apply or_else_nonempty. discriminate. }
  repeat (split; [apply Hopt|]).
  destruct (features (extractDetails doc)) as [|f fs] eqn:F; [exact I|].
  rewrite <- F. unfold extractDetails. cbn [features].
  split.
  - split.
    + unfold extractDetails in F. cbn [features] in F. rewrite F.
      cbn [List.length]. lia.
    + apply firstn_le_length.
  - intros g Hg. apply StoreOpsFacts.in_firstn in Hg.
    apply filter_In in Hg. destruct Hg as [_ Hg].
    apply andb_true_iff in Hg. destruct Hg as [Hg Hlen].
    apply andb_true_iff in Hg. destruct Hg as [_ Hmk].
    apply negb_true_iff in Hmk. apply Nat.ltb_lt in Hlen. auto.
Qed.

Lemma scrapeProductDetails_product_witness :
  exists p,
    fst (scrapeProductDetails Samples.parseExample
           (Ok Scenarios.detailPage) 0
           "https://www.amazon.com/dp/B08N5WRWNW") = Ok p /\
    Product.title p = "Wireless Mouse" /\
    Product.link p = Some "https://www.amazon.com/dp/B08N5WRWNW" /\
    Product.price p <> "".
Proof.
  eexists. split; [reflexivity|]. split; [reflexivity|].
  destruct (scrapeProductDetails_product Samples.parseExample
              (Ok Scenarios.detailPage) 0
              "https://www.amazon.com/dp/B08N5WRWNW" _ eq_refl)
    as (_ & Hlink & _ & _ & _ & Hprice & _).
  split; [exact Hlink|exact Hprice].
Defined.


End DetailOutcome.

(** ** The products route, end to end *)

Module RouteFacts.
Import Store Api.

Lemma productLimit_range s : productLimit s <> 0 /\ productLimit s <= 50.
Proof.
  unfold productLimit, math_min.
  destruct (Str.parseInt s) as [[|n|n]|]; lia.
Qed.

Lemma getProducts_length db limit category maxAgeHours now l :
  getProducts db limit category maxAgeHours now = Ok l ->
  0 <= limit /\ Z.of_nat (List.length l) <= limit.
Proof.
  unfold getProducts. destruct (limit <? 0) eqn:N; [discriminate|].
  apply Z.ltb_ge in N. intros H. inversion H; subst l.
  split; [exact N|]. rewrite length_map.
  pose proof (firstn_le_length (Z.to_nat limit)
                (order_rows (filter (is_recent category maxAgeHours now)
                               (products db)))).
  lia.
Qed.

Lemma store_varchar_throws_error n s e :
  store_varchar n s = Err e -> exists m, e = Error m.
Proof.
  unfold store_varchar. destruct (String.length s <=? n)%nat; [discriminate|].
  destruct (Str.forallb _ _); [discriminate|].
  intros H. inversion H. eauto.
Qed.

Lemma coerce_throws_error d e : coerce d = Err e -> exists m, e = Error m.
Proof.
  unfold coerce. intros H.
  destruct (match DatabaseProduct.asin d with
            | Some s => s' <- store_varchar 20 s;; Ok (Some s')
            | None => Ok None
            end) as [o|e0] eqn:A; cbn [Js.bind] in H.
  - unfold store_integer in H.
    destruct ((-2147483648 <=? DatabaseProduct.rank d)
              && (DatabaseProduct.rank d <=? 2147483647));
      cbn [Js.bind] in H; [|inversion H; eauto].
    destruct (store_varchar 50 (DatabaseProduct.price d)) eqn:B;
      cbn [Js.bind] in H;
      [|inversion H; subst; eapply store_varchar_throws_error; exact B].
    destruct (store_varchar 50 (DatabaseProduct.rating d)) eqn:C;
      cbn [Js.bind] in H;
      [|inversion H; subst; eapply store_varchar_throws_error; exact C].
    destruct (store_varchar 100 (DatabaseProduct.source d)) eqn:D;
      cbn [Js.bind] in H;
      [|inversion H; subst; eapply store_varchar_throws_error; exact D].
    destruct (store_varchar 50 (DatabaseProduct.category d)) eqn:E;
      cbn [Js.bind] in H;
      [|inversion H; subst; eapply store_varchar_throws_error; exact E].
    discriminate H.
  - inversion H; subst e0. clear H.
    destruct (DatabaseProduct.asin d) as [a|]; [|discriminate A].
    destruct (store_varchar 20 a) eqn:V; cbn [Js.bind] in A;
      [discriminate A|].
    inversion A; subst. eapply store_varchar_throws_error. exact V.
Qed.

Lemma save_loop_throws_error batch :
  forall category now rows seq n e s,
    save_loop batch category now rows seq n = (Err e, s) ->
    exists m, e = Error m.
Proof.
  induction batch as [|x rest IH]; intros category now rows seq n e s H;
    cbn [save_loop] in H; [discriminate H|].
  destruct (upsert rows seq (convertToDbProduct x category) now)
    as [[r1 s1]|e1] eqn:U.
  - eapply IH. exact H.
  - inversion H; subst. apply StoreFacts.upsert_fails_iff in U.
    eapply coerce_throws_error. exact U.
Qed.

(** A batch that is refused leaves rows and sessions as they were and
    throws an [Error]. *)
Lemma saveProducts_refused db batch category now e db' :
  saveProducts db batch category now = (Err e, db') ->
  (exists m, e = Error m) /\
  products db' = products db /\
  scraping_sessions db' = scraping_sessions db.
Proof.
  unfold saveProducts.
  destruct (save_loop batch category now (products db) (products_id_seq db) 0)
    as [[[[rows' seq'] m]|e0] s] eqn:E; intros H; [discriminate H|].
  inversion H; subst. split; [|split; reflexivity].
  eapply save_loop_throws_error. exact E.
Qed.

Lemma saveProducts_committed db batch category now n db' :
  saveProducts db batch category now = (Ok n, db') ->
  n = Z.of_nat (List.length batch) /\
  scraping_sessions db' = scraping_sessions db.
Proof.
  intros H. split.
  - apply (StoreFacts.saveProducts_count db batch category now).
    rewrite H. reflexivity.
  - unfold saveProducts in H.
    destruct (save_loop batch category now (products db)
                (products_id_seq db) 0)
      as [[[[rows' seq'] m]|e0] s]; inversion H; subst; reflexivity.
Qed.

(** Closing a session with a count that fits an [INTEGER]. *)
Lemma updateScrapingSession_fits db sessionId success found msg now :
  -2147483648 <= found <= 2147483647 ->
  updateScrapingSession db sessionId success found msg now
  = (Ok tt,
     snd (updateScrapingSession db sessionId success found msg now)) /\
  products (snd (updateScrapingSession db sessionId success found msg now))
  = products db.
Proof.
  intros H. unfold updateScrapingSession, store_integer.
  replace ((-2147483648 <=? found) && (found <=? 2147483647)) with true.
  - split; reflexivity.
  - symmetry. apply andb_true_iff. split; apply Z.leb_le; lia.
Qed.

(** The [catch] block on an [Error]: the session, if it has an
    identifier, is closed as failed, and the answer is the rows read
    before scraping or, without any, the static records. *)
Lemma on_scraping_error_of_error w db sessionId dbProducts limit m :
  on_scraping_error w db sessionId dbProducts limit (Error m)
  = (match dbProducts with
     | [] => respond (slice0 (Scraper.fallbackProducts (Scraper.now w)) limit)
               "Static Fallback Data - All other sources failed"
     | _ => respond dbProducts
              "PostgreSQL Cache (Fallback) - Scraping failed"
     end,
     if String.eqb sessionId "" then db
     else snd (updateScrapingSession db sessionId false 0 (Some m)
                 (Scraper.now w))).
Proof.
  unfold on_scraping_error. cbn [Scraper.message_of].
  destruct (String.eqb sessionId "").
  - destruct dbProducts; reflexivity.
  - destruct (updateScrapingSession_fits db sessionId false 0 (Some m)
                (Scraper.now w)) as [-> _]; [lia|].
    destruct dbProducts; reflexivity.
Qed.

Lemma createScrapingSession_result db sessionId source category now r db0 :
  createScrapingSession db sessionId source category now = (r, db0) ->
  (exists e, r = Err e /\ db0 = db) \/
  (r = Ok sessionId /\ products db0 = products db /\
   products_id_seq db0 = products_id_seq db /\
   exists row, scraping_sessions db0 = scraping_sessions db ++ [row]).
Proof.
  unfold createScrapingSession.
  destruct (i <- store_varchar 50 sessionId;; _) as [row|e]; intros H;
    inversion H; subst.
  - right. split; [reflexivity|]. split; [reflexivity|].
    split; [reflexivity|]. exists row. reflexivity.
  - left. exists e. auto.
Qed.

(** The ways through the handler of [GET /products]. *)
Lemma getProductsRoute_cases w uuid maxAge db q :
  let cat := or_default (category q) "electronics" in
  let lim := productLimit (or_default (limit q) "20") in
  let out := getProductsRoute w uuid maxAge db q in
  (trending q <> Some "amazon" /\ snd out = db /\
   exists e m, fst out = Json400 e m)
  \/
  (trending q = Some "amazon" /\ out = (serviceUnavailable, db) /\
   (Str.parseInt (or_default maxAge "24") = None \/
    exists h,
      Str.parseInt (or_default maxAge "24") = Some h /\
      ((exists e, getProducts db lim cat h (Scraper.now w) = Err e) \/
       (exists dbProducts e,
           getProducts db lim cat h (Scraper.now w) = Ok dbProducts /\
           (dbProducts = [] \/
            String.eqb (or_default (force q) "false") "true" = true) /\
           createScrapingSession db uuid "amazon-scraper" cat
             (Scraper.now w) = (Err e, db)))))
  \/
  (trending q = Some "amazon" /\ 1 <= lim /\
   exists h dbProducts,
     Str.parseInt (or_default maxAge "24") = Some h /\
     getProducts db lim cat h (Scraper.now w) = Ok dbProducts /\
     ((dbProducts <> [] /\
       String.eqb (or_default (force q) "false") "true" = false /\
       out = (respond dbProducts
                (String.append "PostgreSQL Cache ("
                   (String.append cat ")")), db))
      \/
      ((dbProducts = [] \/
        String.eqb (or_default (force q) "false") "true" = true) /\
       exists db0,
         createScrapingSession db uuid "amazon-scraper" cat (Scraper.now w)
         = (Ok uuid, db0) /\
         ((exists scraped n db1,
              Scraper.getTrendingProducts w lim "amazon" cat = Ok scraped /\
              scraped <> [] /\
              saveProducts db0 scraped cat (Scraper.now w) = (Ok n, db1) /\
              out = (respond scraped "Live Scraping - Just scraped",
                     snd (updateScrapingSession db1 uuid true n None
                            (Scraper.now w))))
          \/
          (exists m dbX,
              products dbX = products db0 /\
              scraping_sessions dbX = scraping_sessions db0 /\
              out = (match dbProducts with
                     | [] =>
                         respond
                           (slice0
                              (Scraper.fallbackProducts (Scraper.now w)) lim)
                           "Static Fallback Data - All other sources failed"
                     | _ =>
                         respond dbProducts
                           "PostgreSQL Cache (Fallback) - Scraping failed"
                     end,
                     if String.eqb uuid "" then dbX
                     else snd (updateScrapingSession dbX uuid false 0
                                 (Some m) (Scraper.now w)))))))).
Proof.
  cbv zeta. unfold getProductsRoute.
  destruct (trending q) as [[|c t]|] eqn:T.
  { left. cbn [snd fst]. split; [discriminate|]. split; [reflexivity|].
    eauto. }
  2:{ left. cbn [snd fst]. split; [discriminate|]. split; [reflexivity|].
      eauto. }
  destruct (String.eqb (String c t) "amazon") eqn:A; cbn [negb].
  2:{ left. cbn [snd fst]. apply String.eqb_neq in A.
      split; [congruence|]. split; [reflexivity|]. eauto. }
  apply String.eqb_eq in A. rewrite A. right.
  set (cat := or_default (category q) "electronics").
  set (lim := productLimit (or_default (limit q) "20")).
  destruct (Str.parseInt (or_default maxAge "24")) as [h|];
    [|left; auto].
  destruct (getProducts db lim cat h (Scraper.now w)) as [dbProducts|e]
    eqn:G.
  2:{ left. split; [reflexivity|]. split; [reflexivity|].
      right. exists h. split; [reflexivity|]. left. exists e.
      first [reflexivity|exact G]. }
  assert (Hlim : 1 <= lim).
  { destruct (getProducts_length _ _ _ _ _ _ G) as [H0 _].
    destruct (productLimit_range (or_default (limit q) "20")) as [Hn _].
    fold lim in Hn. lia. }
  destruct ((0 <? List.length dbProducts)%nat
            && negb (String.eqb (or_default (force q) "false") "true"))
    eqn:C.
  { right. split; [reflexivity|]. split; [exact Hlim|].
    exists h, dbProducts. split; [reflexivity|].
    split; [first [reflexivity|exact G]|].
    left. apply andb_true_iff in C. destruct C as [C1 C2].
    apply negb_true_iff in C2. split; [|split; [exact C2|reflexivity]].
    destruct dbProducts; [discriminate C1|discriminate]. }
  assert (Hmiss : dbProducts = [] \/
                  String.eqb (or_default (force q) "false") "true" = true).
  { apply andb_false_iff in C. destruct C as [C|C].
    - left. destruct dbProducts; [reflexivity|discriminate C].
    - right. apply negb_false_iff in C. exact C. }
  destruct (createScrapingSession db uuid "amazon-scraper" cat
              (Scraper.now w)) as [r0 db0] eqn:S.
  destruct (createScrapingSession_result _ _ _ _ _ _ _ S)
    as [(e & -> & ->)|(-> & Hp0 & Hq0 & row & Hs0)].
  { left. split; [reflexivity|]. split; [reflexivity|].
    right. exists h. split; [reflexivity|]. right.
    exists dbProducts, e. split; [first [reflexivity|exact G]|].
    split; [exact Hmiss|first [reflexivity|exact S]]. }
  right. split; [reflexivity|]. split; [exact Hlim|].
  exists h, dbProducts. split; [reflexivity|].
  split; [first [reflexivity|exact G]|].
  right. split; [exact Hmiss|]. exists db0.
  split; [first [reflexivity|exact S]|].
  destruct (Scraper.getTrendingProducts w lim "amazon" cat)
    as [scraped|e] eqn:GT.
  2:{ right.
      destruct (TierFacts.getTrendingProducts_throws_error _ _ _ _ _ GT)
        as (m & ->).
      exists m, db0. split; [reflexivity|]. split; [reflexivity|].
      apply on_scraping_error_of_error. }
  destruct (0 <? List.length scraped)%nat eqn:N.
  2:{ right. exists "No products scraped", db0.
      split; [reflexivity|]. split; [reflexivity|].
      apply on_scraping_error_of_error. }
  destruct (saveProducts db0 scraped cat (Scraper.now w)) as [[n|e] db1]
    eqn:SV.
  2:{ right. destruct (saveProducts_refused _ _ _ _ _ _ SV)
        as ((m & ->) & Hp1 & Hs1).
      exists m, db1. split; [exact Hp1|]. split; [exact Hs1|].
      apply on_scraping_error_of_error. }
  left. exists scraped, n, db1. split; [first [reflexivity|exact GT]|].
  split; [destruct scraped; [discriminate N|discriminate]|].
  split; [first [reflexivity|exact SV]|].
  destruct (saveProducts_committed _ _ _ _ _ _ SV) as [Hn _].
  pose proof (TierFacts.getTrendingProducts_length _ _ _ _ _ GT Hlim) as Hb.
  destruct (productLimit_range (or_default (limit q) "20")) as [_ H50].
  fold lim in H50.
  destruct (updateScrapingSession_fits db1 uuid true n None (Scraper.now w))
    as [-> _]; [lia|]. reflexivity.
Qed.

Lemma respond_shape products dataSource :
  dataSource <> "" ->
  respond products dataSource
  = Json200 products (Z.of_nat (List.length products)) dataSource
      (message_for (List.length products) dataSource).
Proof.
  intros H. unfold respond. apply String.eqb_neq in H. rewrite H.
  reflexivity.
Qed.

Lemma fallback_slice_length now lim :
  1 <= lim ->
  1 <= Z.of_nat (List.length (slice0 (Scraper.fallbackProducts now) lim))
    <= lim.
Proof.
  intros H. rewrite ScraperFacts.slice0_length.
  rewrite ScraperFacts.fallbackProducts_length.
  destruct (lim <? 0) eqn:N; [apply Z.ltb_lt in N|]; lia.
Qed.


(** A session opened under an identifier that fits the column, and then
    closed under the same identifier. *)
Lemma session_opened_then_closed
      db uuid source cat now db0 dbX success found msg now' :
  (String.length uuid <= 50)%nat ->
  createScrapingSession db uuid source cat now = (Ok uuid, db0) ->
  scraping_sessions dbX = scraping_sessions db0 ->
  -2147483648 <= found <= 2147483647 ->
  exists s,
    scraping_sessions
      (snd (updateScrapingSession dbX uuid success found msg now'))
    = scraping_sessions db ++ [s] /\
    ScrapingSession.session_id s = uuid /\
    ScrapingSession.started_at s = now /\
    ScrapingSession.completed_at s = Some now' /\
    ScrapingSession.success s = success /\
    ScrapingSession.products_found s = found /\
    ScrapingSession.error_message s = msg.
Proof.
  intros Hlen Hc Hs Hf. unfold createScrapingSession in Hc.
  rewrite (StoreOpsFacts.store_varchar_short _ _ Hlen) in Hc.
  cbn [Js.bind] in Hc.
  destruct (store_varchar 50 source) as [src|]; cbn [Js.bind] in Hc;
    [|discriminate Hc].
  destruct (store_varchar 50 cat) as [c|]; cbn [Js.bind] in Hc;
    [|discriminate Hc].
  destruct (existsb _ (scraping_sessions db)) eqn:Ex; [discriminate Hc|].
  inversion Hc; subst db0. clear Hc. cbn [scraping_sessions] in Hs.
  unfold updateScrapingSession, store_integer.
  replace ((-2147483648 <=? found) && (found <=? 2147483647)) with true
    by (symmetry; apply andb_true_iff; split; apply Z.leb_le; lia).
  cbn [snd scraping_sessions]. rewrite Hs, map_app.
  cbn [map ScrapingSession.session_id]. rewrite String.eqb_refl.
  eexists. split.
  - f_equal. rewrite <- (map_id (scraping_sessions db)) at 2.
    apply map_ext_in. intros x Hx.
    destruct (String.eqb (ScrapingSession.session_id x) uuid) eqn:E;
      [|reflexivity].
    assert (existsb (fun x => String.eqb (ScrapingSession.session_id x) uuid)
              (scraping_sessions db) = true)
      by (apply existsb_exists; exists x; auto).
    congruence.
  - cbn. repeat (split; [reflexivity|]). reflexivity.
Qed.



(** *** From a live answer to the cache *)

Lemma coerce_category d d' :
  coerce d = Ok d' ->
  (String.length (DatabaseProduct.category d) <= 50)%nat ->
  DatabaseProduct.category d' = DatabaseProduct.category d.
Proof.
  unfold coerce. intros H Hlen.
  rewrite (StoreOpsFacts.store_varchar_short _ _ Hlen) in H.
  destruct (match DatabaseProduct.asin d with
            | Some s => s' <- store_varchar 20 s;; Ok (Some s')
            | None => Ok None
            end) as [o|]; cbn [Js.bind] in H; [|discriminate H].
  destruct (store_integer (DatabaseProduct.rank d)); cbn [Js.bind] in H;
    [|discriminate H].
  destruct (store_varchar 50 (DatabaseProduct.price d));
    cbn [Js.bind] in H; [|discriminate H].
  destruct (store_varchar 50 (DatabaseProduct.rating d));
    cbn [Js.bind] in H; [|discriminate H].
  destruct (store_varchar 100 (DatabaseProduct.source d));
    cbn [Js.bind] in H; [|discriminate H].
  inversion H; subst. reflexivity.
Qed.

(** A committed batch that is not empty and was scraped at one instant
    leaves a row of its category scraped at that instant. *)
Lemma save_loop_leaves_fresh batch :
  forall category now t rows seq n rows' seq' n' s,
    batch <> [] ->
    (forall p, In p batch -> Product.scrapedAt p = t) ->
    (String.length category <= 50)%nat ->
    save_loop batch category now rows seq n = (Ok (rows', seq', n'), s) ->
    exists r, In r rows' /\
              DatabaseProduct.category (data r) = category /\
              DatabaseProduct.scraped_at (data r) = t.
Proof.
  induction batch as [|x rest IH];
    intros category now t rows seq n rows' seq' n' s Hne Ht Hlen H;
    [congruence|].
  cbn [save_loop] in H.
  destruct (upsert rows seq (convertToDbProduct x category) now)
    as [[r1 s1]|e1] eqn:U; [|discriminate H].
  destruct rest as [|y rest'].
  - cbn [save_loop] in H. inversion H; subst.
    destruct (coerce (convertToDbProduct x category)) as [d|e] eqn:C.
    + destruct (StoreOpsFacts.upsert_rows _ _ _ _ _ _ _ U C)
        as [(r & Hr & Hd) _].
      exists r. split; [exact Hr|]. rewrite Hd.
      destruct (StoreOpsFacts.coerce_keeps _ _ C) as (_ & Hs & _).
      rewrite Hs, (coerce_category _ _ C) by exact Hlen.
      cbn. split; [reflexivity|]. apply Ht. left. reflexivity.
    + unfold upsert in U. rewrite C in U. discriminate U.
  - eapply IH; [discriminate| |exact Hlen|exact H].
    intros p Hp. apply Ht. right. exact Hp.
Qed.

Lemma getProducts_finds db limit category maxAgeHours now r :
  1 <= limit ->
  In r (products db) ->
  is_recent category maxAgeHours now r = true ->
  exists l, getProducts db limit category maxAgeHours now = Ok l /\ l <> [].
Proof.
  intros Hl Hr Hrec. unfold getProducts.
  destruct (limit <? 0) eqn:N; [apply Z.ltb_lt in N; lia|].
  eexists. split; [reflexivity|].
  assert (Hin : In r (order_rows (filter (is_recent category maxAgeHours now)
                                    (products db)))).
  { apply (Permutation_in _ (Permutation_sym (StoreOpsFacts.order_rows_perm _))).
    apply filter_In. auto. }
  destruct (order_rows _) as [|x xs]; [destruct Hin|].
  destruct (Z.to_nat limit) as [|k] eqn:K; [lia|]. discriminate.
Qed.

(** Once a batch scraped at one instant is committed under a category,
    a request for that category that does not force a refresh and
    arrives inside the window is answered from the stored rows. *)
Lemma cache_answers_after_save
      db0 batch cat t n db1 db2 w2 uuid2 maxAge h q2 :
  saveProducts db0 batch cat t = (Ok n, db1) ->
  batch <> [] ->
  (forall p, In p batch -> Product.scrapedAt p = t) ->
  (String.length cat <= 50)%nat ->
  products db2 = products db1 ->
  Str.parseInt (or_default maxAge "24") = Some h ->
  trending q2 = Some "amazon" ->
  or_default (category q2) "electronics" = cat ->
  1 <= productLimit (or_default (limit q2) "20") ->
  String.eqb (or_default (force q2) "false") "true" = false ->
  Scraper.now w2 - h * hour_ms < t ->
  exists cached,
    cached <> [] /\
    getProductsRoute w2 uuid2 maxAge db2 q2
    = (respond cached
         (String.append "PostgreSQL Cache (" (String.append cat ")")),
       db2).
Proof.
  intros SV Hs Hstamp Hlen Hprod Hh Ht2 Hc2 Hlim Hf2 Hwin.
  assert (Hrow : exists r,
             In r (products db1) /\
             DatabaseProduct.category (data r) = cat /\
             DatabaseProduct.scraped_at (data r) = t).
  { unfold saveProducts in SV.
    destruct (save_loop batch cat t (products db0) (products_id_seq db0) 0)
      as [[[[rows' seq'] m]|e0] s] eqn:E; [|discriminate SV].
    inversion SV; subst. cbn [products].
    eapply save_loop_leaves_fresh; [exact Hs|exact Hstamp|exact Hlen|exact E]. }
  destruct Hrow as (r & Hr & Hcat & Hat).
  assert (Hfresh : is_recent cat h (Scraper.now w2) r = true).
  { unfold is_recent. rewrite Hcat, String.eqb_refl, Hat.
    apply Z.ltb_lt. exact Hwin. }
  destruct (getProducts_finds db2 (productLimit (or_default (limit q2) "20"))
              cat h (Scraper.now w2) r Hlim)
    as (cached & G2 & Hne2); [rewrite Hprod; exact Hr|exact Hfresh|].
  exists cached. split; [exact Hne2|].
  pose proof (getProductsRoute_cases w2 uuid2 maxAge db2 q2) as C2.
  cbv zeta in C2. rewrite Hc2, Hh in C2.
  destruct C2 as [(Hn & _)
                 |[(_ & _ & [Hp|(h1 & Hp & [(e & Hg)|(l & e & Hg & Hm & _)])])
                  |(_ & _ & h1 & l & Hp & Hg & C2)]].
  - congruence.
  - discriminate Hp.
  - inversion Hp; subst h1. rewrite G2 in Hg. discriminate Hg.
  - inversion Hp; subst h1. rewrite G2 in Hg. inversion Hg; subst l.
    destruct Hm as [Hm|Hm]; congruence.
  - inversion Hp; subst h1. rewrite G2 in Hg. inversion Hg; subst l.
    destruct C2 as [(_ & _ & ->)|([Hm|Hm] & _)];
      [reflexivity|congruence|congruence].
Qed.



End RouteFacts.

(** ** The enhanced route and the details route *)

Module MoreRoutes.
Import Store StoreOps Api Routes.

Lemma enhancedLimit_range s : enhancedLimit s <> 0 /\ enhancedLimit s <= 50.
Proof.
  unfold enhancedLimit, math_min.
  destruct (Str.parseInt s) as [[|n|n]|]; lia.
Qed.

(** What the scrolling extraction returns is never empty and never
    longer than the smaller of the limit and 50. *)
Lemma enhanced_scrape_length createPage now limit l :
  Enhanced.scrapeProductsWithScrolling createPage now limit = Ok l ->
  1 <= Z.of_nat (List.length l) <= Z.min limit 50.
Proof.
  unfold Enhanced.scrapeProductsWithScrolling.
  destruct createPage as [page|e]; cbn [Js.bind]; [|discriminate].
  destruct (check (Dom.goto page Enhanced.targetUrl)); cbn [Js.bind];
    [|discriminate].
  destruct (check (Dom.waitForSelector page)); cbn [Js.bind];
    [|discriminate].
  destruct (Enhanced.collect page now limit) as [c|e] eqn:E;
    cbn [Js.bind]; [|discriminate].
  destruct (List.length (Enhanced.allProducts c) =? 0)%nat eqn:N;
    [discriminate|].
  apply Nat.eqb_neq in N. intros H. inversion H; subst l. clear H.
  unfold Enhanced.collect in E.
  apply EnhancedFacts.scroll_loop_sources in E. destruct E as [Hacc _].
  destruct Hacc as [Hacc|Hacc];
    [rewrite Hacc in N; cbn in N; congruence|].
  cbn [List.length] in Hacc. unfold math_min in *.
  rewrite ScraperFacts.slice0_length.
  destruct (Z.min limit 50 <? 0) eqn:L; [apply Z.ltb_lt in L; lia|].
  lia.
Qed.

Lemma enhanced_fallback_result db limit now r :
  limit <> 0 ->
  enhanced_fallback db limit now = r ->
  match r with
  | Ok (l, src) =>
      1 <= Z.of_nat (List.length l) <= limit /\ src <> "" /\
      src <> "Live Enhanced Scraping - Just scraped with scrolling"
  | Err e => exists m, e = Error m
  end.
Proof.
  intros Hl <-. unfold enhanced_fallback.
  destruct (getProducts db limit enhancedCategory 72 now) as [l1|e1] eqn:G1;
    cbn [Js.bind].
  2:{ unfold getProducts in G1. destruct (limit <? 0); inversion G1. eauto. }
  destruct (RouteFacts.getProducts_length _ _ _ _ _ _ G1) as [H0 Hlen1].
  destruct l1 as [|p1 l1]; cbn [List.length Nat.ltb Nat.leb].
  2:{ cbn [List.length] in Hlen1. split; [lia|].
      split; discriminate. }
  destruct (getProducts db limit "electronics" 72 now) as [l2|e2] eqn:G2;
    cbn [Js.bind].
  2:{ unfold getProducts in G2. destruct (limit <? 0); inversion G2. eauto. }
  destruct (RouteFacts.getProducts_length _ _ _ _ _ _ G2) as [_ Hlen2].
  destruct l2 as [|p2 l2]; cbn [List.length Nat.ltb Nat.leb].
  2:{ cbn [List.length] in Hlen2. split; [lia|].
      split; discriminate. }
  unfold Scraper.getFallbackProducts. cbn [Js.bind].
  split; [apply RouteFacts.fallback_slice_length; lia|].
  split; discriminate.
Qed.

Lemma enhanced_on_error_result db sessionId limit now e r db' :
  limit <> 0 ->
  enhanced_on_error db sessionId limit now e = (r, db') ->
  products db' = products db /\
  match r with
  | Ok (l, src) =>
      1 <= Z.of_nat (List.length l) <= limit /\ src <> "" /\
      src <> "Live Enhanced Scraping - Just scraped with scrolling"
  | Err e' => exists m, e' = Error m
  end.
Proof.
  intros Hl. unfold enhanced_on_error.
  destruct e as [m|]; cbn [Scraper.message_of].
  2:{ intros H. inversion H; subst. split; [reflexivity|]. eauto. }
  destruct (String.eqb sessionId "").
  - intros H. inversion H; subst. split; [reflexivity|].
    eapply enhanced_fallback_result; [exact Hl|reflexivity].
  - destruct (RouteFacts.updateScrapingSession_fits db sessionId false 0
                (Some m) now) as [-> Hp]; [lia|].
    intros H. inversion H; subst. split; [exact Hp|].
    eapply enhanced_fallback_result; [exact Hl|reflexivity].
Qed.

Lemma enhanced_scrape_result createPage uuid db limit now r db' :
  limit <> 0 -> limit <= 50 ->
  enhanced_scrape createPage uuid db limit now = (r, db') ->
  match r with
  | Ok (l, src) =>
      1 <= Z.of_nat (List.length l) <= limit /\ src <> "" /\
      (src = "Live Enhanced Scraping - Just scraped with scrolling" \/
       products db' = products db)
  | Err e => (exists m, e = Error m) /\ products db' = products db
  end.
Proof.
  intros Hl H50. unfold enhanced_scrape.
  destruct (createScrapingSession db uuid "amazon-enhanced-scraper"
              enhancedCategory now) as [r0 db0] eqn:S.
  destruct (RouteFacts.createScrapingSession_result _ _ _ _ _ _ _ S)
    as [(e & -> & ->)|(-> & Hp0 & _)].
  { intros H. inversion H; subst. split; [|reflexivity].
    unfold createScrapingSession in S.
    destruct (store_varchar 50 uuid) as [i|e1] eqn:V1; cbn [Js.bind] in S;
      [|inversion S; subst;
        eapply RouteFacts.store_varchar_throws_error; exact V1].
    destruct (store_varchar 50 "amazon-enhanced-scraper") as [i2|e2] eqn:V2;
      cbn [Js.bind] in S;
      [|inversion S; subst;
        eapply RouteFacts.store_varchar_throws_error; exact V2].
    destruct (store_varchar 50 enhancedCategory) as [i3|e3] eqn:V3;
      cbn [Js.bind] in S;
      [|inversion S; subst;
        eapply RouteFacts.store_varchar_throws_error; exact V3].
    destruct (existsb _ _); inversion S. eauto. }
  assert (Hfail : forall dbX e,
             products dbX = products db ->
             enhanced_on_error dbX uuid limit now e = (r, db') ->
             match r with
             | Ok (l, src) =>
                 1 <= Z.of_nat (List.length l) <= limit /\ src <> "" /\
                 (src = "Live Enhanced Scraping - Just scraped with scrolling"
                  \/ products db' = products db)
             | Err e => (exists m, e = Error m) /\ products db' = products db
             end).
  { intros dbX e Hx H.
    destruct (enhanced_on_error_result _ _ _ _ _ _ _ Hl H) as [Hp Hr].
    destruct r as [[l src]|e'].
    - destruct Hr as (A & B & _). split; [exact A|]. split; [exact B|].
      right. congruence.
    - split; [exact Hr|congruence]. }
  destruct (Enhanced.scrapeProductsWithScrolling createPage now limit)
    as [scraped|e] eqn:SC; [|apply Hfail; exact Hp0].
  destruct (0 <? List.length scraped)%nat; [|apply Hfail; exact Hp0].
  destruct (saveProducts db0 scraped enhancedCategory now) as [[n|e] db1]
    eqn:SV.
  2:{ apply Hfail.
      destruct (RouteFacts.saveProducts_refused _ _ _ _ _ _ SV)
        as (_ & Hp1 & _). congruence. }
  destruct (RouteFacts.saveProducts_committed _ _ _ _ _ _ SV) as [Hn _].
  pose proof (enhanced_scrape_length _ _ _ _ SC) as Hlen.
  destruct (RouteFacts.updateScrapingSession_fits db1 uuid true n None now)
    as [-> _]; [lia|].
  intros H. inversion H; subst. split; [lia|]. split; [discriminate|].
  left. reflexivity.
Qed.

Lemma getProducts_takes db limit category maxAgeHours now l :
  getProducts db limit category maxAgeHours now = Ok l ->
  Z.of_nat (List.length l)
  = Z.min limit (count (hasFreshData db category maxAgeHours now)).
Proof.
  unfold getProducts, hasFreshData. cbn [count].
  destruct (limit <? 0) eqn:N; [discriminate|]. apply Z.ltb_ge in N.
  intros H. inversion H; subst l. rewrite length_map, length_firstn.
  rewrite (Permutation_length (StoreOpsFacts.order_rows_perm _)). lia.
Qed.

Lemma enhanced_respond_shape products dataSource :
  dataSource <> "" ->
  enhanced_respond products dataSource
  = Json200 products (Z.of_nat (List.length products)) dataSource
      (enhanced_message (List.length products) dataSource).
Proof.
  intros H. unfold enhanced_respond. apply String.eqb_neq in H. rewrite H.
  reflexivity.
Qed.




(** *** [GET /product/details] *)

Lemma getProductByUrl_link db url maxAgeHours now p :
  getProductByUrl db url maxAgeHours now = Some p ->
  Product.link p = Some url.
Proof.
  unfold getProductByUrl.
  destruct (newest (filter (is_recent_url url maxAgeHours now) (products db)))
    as [r|] eqn:N; cbn [option_map]; [|discriminate].
  intros H. inversion H; subst p.
  destruct (StoreOpsFacts.newest_some _ _ N) as [Hin _].
  apply filter_In in Hin. destruct Hin as [_ Hrec].
  apply StoreOpsFacts.is_recent_url_iff in Hrec. destruct Hrec as [Hu _].
  rewrite StoreOpsFacts.convertFromDbProduct_link. exact Hu.
Qed.

Lemma getProductByUrl_same_rows db db' url maxAgeHours now :
  products db' = products db ->
  getProductByUrl db' url maxAgeHours now
  = getProductByUrl db url maxAgeHours now.
Proof. unfold getProductByUrl. intros ->. reflexivity. Qed.

Lemma detail_scraped parse createPage now url p :
  fst (Detail.scrapeProductDetails parse createPage now url) = Ok p ->
  Product.link p = Some url /\
  snd (Detail.scrapeProductDetails parse createPage now url)
  = [Detail.NewPage; Detail.Navigate url; Detail.Evaluate; Detail.ClosePage].
Proof.
  unfold Detail.scrapeProductDetails.
  destruct (negb (Detail.isValidAmazonUrl parse url)); [discriminate|].
  destruct createPage as [page|e]; [|discriminate].
  destruct (Dom.goto page url); [discriminate|].
  destruct (Dom.detail page) as [doc|e]; [|discriminate].
  cbn [fst snd].
  destruct (String.eqb _ "" || (String.length _ <? 5)%nat); [discriminate|].
  intros H. inversion H; subst p. split; reflexivity.
Qed.

Lemma detail_on_error_result db sessionId url now e r db' :
  detail_on_error db sessionId url now e = (r, db') ->
  products db' = products db /\
  match r with
  | Ok (p, src) =>
      Product.link p = Some url /\
      src = "Database Cache (Fallback) - Scraping failed"
  | Err e' => exists m, e' = Error m
  end.
Proof.
  unfold detail_on_error.
  destruct e as [m|]; cbn [Scraper.message_of].
  2:{ intros H. inversion H; subst. split; [reflexivity|]. eauto. }
  assert (Hlook : forall dbX,
             products dbX = products db ->
             match getProductByUrl dbX url 168 now with
             | Some fallbackProduct =>
                 (Ok (fallbackProduct,
                      "Database Cache (Fallback) - Scraping failed"), dbX)
             | None => (Err (Error m), dbX)
             end = (r, db') ->
             products db' = products db /\
             match r with
             | Ok (p, src) =>
                 Product.link p = Some url /\
                 src = "Database Cache (Fallback) - Scraping failed"
             | Err e' => exists m, e' = Error m
             end).
  { intros dbX Hx.
    destruct (getProductByUrl dbX url 168 now) as [fb|] eqn:G;
      intros H; inversion H; subst; (split; [exact Hx|]).
    - split; [eapply getProductByUrl_link; exact G|reflexivity].
    - eauto. }
  destruct (String.eqb sessionId ""); [apply Hlook; reflexivity|].
  destruct (RouteFacts.updateScrapingSession_fits db sessionId false 0
              (Some m) now) as [-> Hp]; [lia|].
  apply Hlook. exact Hp.
Qed.


Lemma getProductByUrl_absent db url maxAgeHours now :
  (forall row, In row (products db) ->
               DatabaseProduct.product_url (data row) <> Some url) ->
  getProductByUrl db url maxAgeHours now = None.
Proof.
  intros H. unfold getProductByUrl.
  replace (filter (is_recent_url url maxAgeHours now) (products db))
    with (@nil Row); [reflexivity|].
  symmetry. apply StoreFacts.filter_nil_iff. intros row Hr.
  destruct (is_recent_url url maxAgeHours now row) eqn:E; [|reflexivity].
  apply StoreOpsFacts.is_recent_url_iff in E. destruct E as [E _].
  exfalso. exact (H row Hr E).
Qed.

(** X28.  An address that is a URL but not one of an Amazon product,
    with no stored copy, is not refused with a 400: a session is opened,
    the scraper throws before touching the browser, the session is
    closed as failed with the scraper's message, and the answer is the
    500 of the route. *)
Theorem detail_route_refuses_late parse createPage now uuid maxAge db u x h :
  u <> "" ->
  parse u = Some x ->
  Detail.isValidAmazonUrl parse u = false ->
  Str.parseInt (or_default maxAge "24") = Some h ->
  (forall row, In row (products db) ->
               DatabaseProduct.product_url (data row) <> Some u) ->
  uuid <> "" ->
  (String.length uuid <= 50)%nat ->
  existsb (fun s => String.eqb (ScrapingSession.session_id s) uuid)
    (scraping_sessions db) = false ->
  getProductDetailsRoute parse createPage now uuid maxAge db (Some u)
  = (Replied
       (Detail500 "Service unavailable"
          "Unable to fetch product details at this time. Please check the URL and try again later."),
     {| products := products db;
        products_id_seq := products_id_seq db;
        scraping_sessions :=
          scraping_sessions db ++
          [{| ScrapingSession.session_id := uuid;
              ScrapingSession.source := "product-details";
              ScrapingSession.category := "product-details";
              ScrapingSession.products_found := 0;
              ScrapingSession.success := false;
              ScrapingSession.error_message :=
                Some "Invalid Amazon URL provided";
              ScrapingSession.started_at := now;
              ScrapingSession.completed_at := Some now |}] |},
     []).
Proof.
  intros Hu Hp Hv Hh Hnone Hne Hlen Hnew.
  unfold getProductDetailsRoute.
  destruct u as [|c t]; [congruence|].
  rewrite Hp, Hh, (getProductByUrl_absent _ _ _ _ Hnone).
  unfold createScrapingSession.
  rewrite (StoreOpsFacts.store_varchar_short _ _ Hlen).
  cbn [Js.bind store_varchar]. 
  replace (store_varchar 50 "product-details") with (Ok "product-details")
    by reflexivity.
  replace (store_varchar 50 detailCategory) with (Ok "product-details")
    by reflexivity.
  cbn [Js.bind]. rewrite Hnew.
  unfold Detail.scrapeProductDetails. rewrite Hv. cbn [negb].
  unfold detail_on_error. cbn [Scraper.message_of].
  apply String.eqb_neq in Hne. rewrite Hne.
  unfold updateScrapingSession. cbn [store_integer Z.leb andb].
  replace (store_integer 0) with (Ok 0) by reflexivity.
  cbn [products products_id_seq scraping_sessions].
  rewrite getProductByUrl_absent by (cbn [products]; exact Hnone).
  cbn [detail_failed Scraper.message_of].
  f_equal. f_equal. f_equal.
  rewrite map_app. cbn [map ScrapingSession.session_id].
  rewrite String.eqb_refl. f_equal.
  rewrite <- (map_id (scraping_sessions db)) at 2.
  apply map_ext_in. intros s Hs.
  destruct (String.eqb (ScrapingSession.session_id s) uuid) eqn:E;
    [|reflexivity].
  assert (existsb (fun s => String.eqb (ScrapingSession.session_id s) uuid)
            (scraping_sessions db) = true)
    by (apply existsb_exists; exists s; auto).
  congruence.
Qed.

Lemma detail_route_refuses_late_witness :
  exists db',
    getProductDetailsRoute Samples.parseExample (Err Undefined) 7 "3f1c"
      None Store.empty (Some "https://example.com/not-a-product")
    = (Replied
         (Detail500 "Service unavailable"
            "Unable to fetch product details at this time. Please check the URL and try again later."),
       db', []) /\
    map ScrapingSession.error_message (scraping_sessions db')
    = [Some "Invalid Amazon URL provided"].
Proof.
  eexists. split.
  - apply (detail_route_refuses_late Samples.parseExample (Err Undefined) 7
             "3f1c" None Store.empty "https://example.com/not-a-product"
             {| Detail.hostname := "example.com";
                Detail.pathname := "/not-a-product" |} 24);
      try reflexivity.
    + discriminate.
    + intros row [].
    + discriminate.
    + cbn. lia.
  - reflexivity.
Defined.

End MoreRoutes.

(** ** The metadata table and the address of a listing *)

Module MetaFacts.
Import Store Meta.

Lemma has_key_iff t c row :
  has_key t c row = true <-> type row = t /\ category row = c.
Proof.
  unfold has_key. rewrite andb_true_iff, !String.eqb_eq. reflexivity.
Qed.

(** [getScrapingUrl] on a table: the address of the first row under the
    key, or the default address. *)
Lemma getScrapingUrl_view tbl t c :
  ListMode.getScrapingUrl (Ok (view tbl)) t c
  = Ok match filter (has_key t c) (rows tbl) with
       | [] => ListMode.defaultUrl
       | row :: _ => url row
       end.
Proof.
  unfold ListMode.getScrapingUrl, view. cbn [Js.bind].
  induction (rows tbl) as [|x l IH]; [reflexivity|].
  cbn [map filter ListMode.meta_type ListMode.meta_category].
  unfold has_key at 1.
  destruct (String.eqb (type x) t && String.eqb (category x) c);
    [reflexivity|exact IH].
Qed.

Lemma filter_overwritten t c u d now t2 c2 l :
  filter (has_key t2 c2)
    (map (fun row => if has_key t c row then overwrite u d now row else row) l)
  = map (fun row => if has_key t c row then overwrite u d now row else row)
      (filter (has_key t2 c2) l).
Proof.
  induction l as [|x l IH]; [reflexivity|].
  cbn [map filter].
  assert (E : has_key t2 c2 (if has_key t c x then overwrite u d now x else x)
              = has_key t2 c2 x)
    by (destruct (has_key t c x); reflexivity).
  rewrite E. destruct (has_key t2 c2 x); cbn [map]; rewrite IH; reflexivity.
Qed.

Lemma find_filter {A} (f : A -> bool) l :
  find f l = None -> filter f l = [].
Proof.
  induction l as [|x l IH]; cbn; [reflexivity|].
  destruct (f x); [discriminate|exact IH].
Qed.

Lemma find_head {A} (f : A -> bool) l x :
  find f l = Some x -> exists rest, filter f l = x :: rest.
Proof.
  induction l as [|y l IH]; cbn; [discriminate|].
  destruct (f y) eqn:E; [|exact IH].
  intros H. inversion H; subst. eauto.
Qed.

Lemma other_key_untouched t c t2 c2 l f :
  (t2 <> t \/ c2 <> c) ->
  (forall row, has_key t c row = false -> f row = row) ->
  map f (filter (has_key t2 c2) l) = filter (has_key t2 c2) l.
Proof.
  intros Hk Hf. rewrite <- (map_id (filter (has_key t2 c2) l)) at 2.
  apply map_ext_in. intros row Hr. apply filter_In in Hr.
  destruct Hr as [_ Hr]. apply has_key_iff in Hr. destruct Hr as [Ht Hc].
  apply Hf. destruct (has_key t c row) eqn:E; [|reflexivity].
  apply has_key_iff in E. destruct E as [Et Ec].
  destruct Hk as [Hk|Hk]; exfalso; apply Hk; congruence.
Qed.

Lemma unique_key_filter l : forall row,
  NoDup (map (fun r => (type r, category r)) l) ->
  In row l ->
  filter (has_key (type row) (category row)) l = [row].
Proof.
  induction l as [|x l IH]; intros row Hnd Hin; [destruct Hin|].
  cbn [map] in Hnd. inversion Hnd as [|? ? Hx Hl]; subst.
  cbn [filter].
  assert (Hnone : forall r, In r l -> type r = type x ->
                            category r = category x -> False).
  { intros r Hr Ht Hc. apply Hx. apply in_map_iff. exists r.
    split; [congruence|exact Hr]. }
  destruct Hin as [->|Hin].
  - replace (has_key (type row) (category row) row) with true
      by (symmetry; apply has_key_iff; auto).
    f_equal. apply StoreFacts.filter_nil_iff. intros r Hr.
    destruct (has_key (type row) (category row) r) eqn:E; [|reflexivity].
    apply has_key_iff in E. destruct E. exfalso. eapply Hnone; eauto.
  - destruct (has_key (type row) (category row) x) eqn:E.
    + apply has_key_iff in E. destruct E. exfalso.
      eapply (Hnone row Hin); congruence.
    + apply IH; assumption.
Qed.

(** X29.  What [upsertMetadata] stores is what [getScrapingUrl] reads.
    After a successful upsert under a type and category that fit their
    columns, the listing address for that type and category is the
    address given, the address for every other type or category is what
    it was, [getMetadata] for that type and category returns exactly
    the row the upsert returned, the key stays unique, and after
    [deleteMetadata] the address is the default one again. *)
Theorem metadata_round_trip le tbl t c u d now row tbl' :
  upsertMetadata tbl t c u d now = (Ok row, tbl') ->
  (String.length t <= 50)%nat ->
  (String.length c <= 50)%nat ->
  type row = t /\ category row = c /\ url row = u /\
  description row = d /\
  ListMode.getScrapingUrl (Ok (view tbl')) t c = Ok u /\
  (forall t2 c2, t2 <> t \/ c2 <> c ->
     ListMode.getScrapingUrl (Ok (view tbl')) t2 c2
     = ListMode.getScrapingUrl (Ok (view tbl)) t2 c2) /\
  ListMode.getScrapingUrl (Ok (view (deleteMetadata tbl' t c))) t c
  = Ok ListMode.defaultUrl /\
  (unique_keys tbl ->
   unique_keys tbl' /\
   (c <> "" -> c <> "all" -> getMetadata le tbl' t (Some c) = [row])).
Proof.
  intros H Ht Hc. unfold upsertMetadata in H.
  rewrite (StoreOpsFacts.store_varchar_short _ _ Ht) in H.
  rewrite (StoreOpsFacts.store_varchar_short _ _ Hc) in H.
  cbn [Js.bind] in H.
  assert (Hdel : forall l,
             match filter (has_key t c)
                     (filter (fun row => negb (has_key t c row)) l) with
             | [] => ListMode.defaultUrl
             | row :: _ => url row
             end = ListMode.defaultUrl).
  { intros l.
    replace (filter (has_key t c)
               (filter (fun row => negb (has_key t c row)) l))
      with (@nil Row); [reflexivity|].
    symmetry. apply StoreFacts.filter_nil_iff. intros r Hr.
    apply filter_In in Hr. destruct Hr as [_ Hr].
    apply negb_true_iff in Hr. exact Hr. }
  assert (Hget : forall l,
             In row l ->
             NoDup (map (fun r => (type r, category r)) l) ->
             type row = t -> category row = c ->
             c <> "" -> c <> "all" ->
             fold_right (insert_by_category le) []
               (filter (fun r => String.eqb (type r) t
                                 && (if String.eqb c "" || String.eqb c "all"
                                     then true
                                     else String.eqb (category r) c)) l)
             = [row]).
  { intros l Hin Hnd Hrt Hrc Hc1 Hc2.
    apply String.eqb_neq in Hc1, Hc2. rewrite Hc1, Hc2. cbn [orb].
    pose proof (unique_key_filter l row Hnd Hin) as F.
    rewrite Hrt, Hrc in F. unfold has_key in F. rewrite F. reflexivity. }
  destruct (find (has_key t c) (rows tbl)) as [old|] eqn:F;
    inversion H; subst row tbl'; clear H.
  - destruct (find_head _ _ _ F) as (rest & Hf).
    assert (Hold : has_key t c old = true).
    { apply find_some in F. tauto. }
    apply has_key_iff in Hold. destruct Hold as [Hot Hoc].
    cbn [type category url description overwrite].
    split; [exact Hot|]. split; [exact Hoc|].
    split; [reflexivity|]. split; [reflexivity|].
    split.
    { rewrite getScrapingUrl_view. cbn [rows].
      rewrite filter_overwritten, Hf. cbn [map].
      replace (has_key t c old) with true
        by (symmetry; apply has_key_iff; auto).
      reflexivity. }
    split.
    { intros t2 c2 Hk. rewrite !getScrapingUrl_view. cbn [rows].
      rewrite filter_overwritten.
      rewrite (other_key_untouched t c t2 c2); [reflexivity|exact Hk|].
      intros r Hr. rewrite Hr. reflexivity. }
    split.
    { rewrite getScrapingUrl_view. unfold deleteMetadata. cbn [rows].
      rewrite Hdel. reflexivity. }
    intros Hu.
    assert (Hkeys : map (fun r => (type r, category r))
                      (map (fun row => if has_key t c row
                                       then overwrite u d now row else row)
                         (rows tbl))
                    = map (fun r => (type r, category r)) (rows tbl)).
    { rewrite map_map. apply map_ext. intros r.
      destruct (has_key t c r); reflexivity. }
    split.
    + unfold unique_keys. cbn [rows]. rewrite Hkeys. exact Hu.
    + intros Hc1 Hc2. unfold getMetadata. cbn [rows].
      apply Hget; auto.
      * apply in_map_iff. exists old. split.
        -- replace (has_key t c old) with true
             by (symmetry; apply has_key_iff; auto).
           reflexivity.
        -- apply find_some in F. tauto.
      * rewrite Hkeys. exact Hu.
  - cbn [type category url description].
    split; [reflexivity|]. split; [reflexivity|].
    split; [reflexivity|]. split; [reflexivity|].
    pose proof (find_filter _ _ F) as Hnone.
    assert (Hnew : has_key t c
                     {| id := id_seq tbl; type := t; category := c;
                        url := u; description := d;
                        created_at := now; updated_at := now |} = true)
      by (apply has_key_iff; auto).
    split.
    { rewrite getScrapingUrl_view. cbn [rows].
      rewrite filter_app, Hnone. cbn [filter app]. rewrite Hnew.
      reflexivity. }
    split.
    { intros t2 c2 Hk. rewrite !getScrapingUrl_view. cbn [rows].
      rewrite filter_app. cbn [filter].
      replace (has_key t2 c2
                 {| id := id_seq tbl; type := t; category := c;
                    url := u; description := d;
                    created_at := now; updated_at := now |}) with false.
      - rewrite app_nil_r. reflexivity.
      - symmetry. destruct (has_key t2 c2 _) eqn:E; [|reflexivity].
        apply has_key_iff in E. cbn in E. destruct E.
        destruct Hk as [Hk|Hk]; exfalso; apply Hk; congruence. }
    split.
    { rewrite getScrapingUrl_view. unfold deleteMetadata. cbn [rows].
      rewrite Hdel. reflexivity. }
    intros Hu.
    assert (Hnd : NoDup (map (fun r => (type r, category r))
                           (rows tbl ++
                            [{| id := id_seq tbl; type := t; category := c;
                                url := u; description := d;
                                created_at := now; updated_at := now |}]))).
    { rewrite map_app. cbn [map type category].
      apply NoDup_app; [exact Hu|repeat constructor; intros []|].
      intros k Hk [<-|[]]. apply in_map_iff in Hk.
      destruct Hk as (r & Hr & Hin).
      assert (has_key t c r = true)
        by (apply has_key_iff; inversion Hr; auto).
      assert (In r (filter (has_key t c) (rows tbl)))
        by (apply filter_In; auto).
      rewrite Hnone in *. contradiction. }
    split; [exact Hnd|].
    intros Hc1 Hc2. unfold getMetadata. cbn [rows].
    apply Hget; auto. apply in_or_app. right. left. reflexivity.
Qed.

Lemma metadata_round_trip_witness :
  let tbl := {| rows := []; id_seq := 1 |} in
  exists row tbl',
    upsertMetadata tbl "amazon" "books"
      "https://www.amazon.com/gp/bestsellers/books/" None 3 = (Ok row, tbl') /\
    ListMode.getScrapingUrl (Ok (view tbl')) "amazon" "books"
    = Ok "https://www.amazon.com/gp/bestsellers/books/" /\
    ListMode.getScrapingUrl
      (Ok (view (deleteMetadata tbl' "amazon" "books"))) "amazon" "books"
    = Ok ListMode.defaultUrl.
Proof.
  cbv zeta. eexists. eexists. split; [reflexivity|].
  destruct (metadata_round_trip (fun _ _ => true)
              {| rows := []; id_seq := 1 |} "amazon" "books"
              "https://www.amazon.com/gp/bestsellers/books/" None 3 _ _
              eq_refl)
    as (_ & _ & _ & _ & H1 & _ & H2 & _); [cbn; lia|cbn; lia|].
  split; [exact H1|exact H2].
Defined.

End MetaFacts.

(** ** The refresh route *)

Module RefreshFacts.
Import Store Api Routes Refresh.

Lemma refreshLimit_range s : refreshLimit s <> 0 /\ refreshLimit s <= 50.
Proof.
  unfold refreshLimit, math_min.
  destruct (Str.parseInt s) as [[|n|n]|]; lia.
Qed.

(** What the outer [catch] answers is never a success. *)
Lemma failed_is_no_success e products n saved sid cat msg :
  failed e <> Replied (Refresh200 products n saved sid cat msg).
Proof. destruct e; cbn; discriminate. Qed.

(** A path that ends in the inner [catch] does not end in a success. *)
Ltac rethrown :=
  destruct (on_error _ _ _ _) as [? ?];
  let H := fresh "H" in
  intros H; inversion H; exfalso; eapply failed_is_no_success; eauto.



End RefreshFacts.
